(** * Synaptix AuraX4 client: a shallow embedding of the client-side logic

  The development follows the source tree of the single-page application:
  - [Js]             the few JavaScript string and number primitives the code relies on;
  - [F64]            binary64 numbers: rounding to nearest, the four operations,
                     comparisons, [Math.max], [Math.min] and [Math.round];
  - [Regex]          regular expressions with a derivative matcher ([RegExp.prototype.test]);
  - [Validation]     [src/lib/validation.ts];
  - [Auth], [Api]    [src/store/auth.ts] and the axios response interceptor of [src/lib/api.ts];
  - [Gamification]   [src/store/gamification.ts];
  - [EnhancedApi]    the [EnhancedDomainApi] wrapper class ([lib/enhancedApi.ts]);
  - [UniversitySearch] the [useUniversitySearch] hook ([hooks/useUniversitySearch.ts]);
  - [Quiz]           the state and the handlers of [src/pages/Quiz.tsx].
  - [NameValidation], [Forms], [Login], [Register]
                     [validateName], and the pages that call the validators;
  - [Session]        the creation of the auth store, the request interceptor
                     and the route guards.

  Conventions.  A JavaScript string is a [string]: a sequence of code units
  below 256.  A JavaScript number that the code only ever uses as a counter,
  an index, an identifier or a number of points is a [Z].  The seconds of
  the quiz, which the server may send with a fraction, and the operands of
  the one division of the code are binary64 numbers ([F64.double]): every
  operation returns the exact result rounded to nearest, ties to even.
  React state is a record; a handler is a function from the state its
  closure captured (and the state of the store when it runs) to the new
  state, with toasts, console lines, HTTP requests and timers recorded in
  explicit logs.  A state updater runs once, as in a production build. *)

From Stdlib Require Import ZArith QArith Qround Qpower Qreduction Qabs Lia Lqa List Bool Ascii.
From Stdlib Require String DecimalString PrimFloat SpecFloat FloatOps Uint63.
From stdpp Require Import base list gmap strings.

Local Open Scope Z_scope.

(* ===================================================================== *)
(** * JavaScript primitives *)
(* ===================================================================== *)

Module Js.

(** [ch] lies in the inclusive range of code units [lo .. hi]. *)
Definition inRange (lo hi ch : ascii) : bool :=
  (nat_of_ascii lo <=? nat_of_ascii ch)%nat && (nat_of_ascii ch <=? nat_of_ascii hi)%nat.

Definition isLower (ch : ascii) : bool := inRange "a"%char "z"%char ch.
Definition isUpper (ch : ascii) : bool := inRange "A"%char "Z"%char ch.
Definition isDigit (ch : ascii) : bool := inRange "0"%char "9"%char ch.

(** [String.prototype.toLowerCase] on one code unit below 256: the Basic
    Latin capitals and the Latin-1 capitals U+00C0..U+00DE (U+00D7, the
    multiplication sign, apart) move up by 32. *)
Definition lowerChar (ch : ascii) : ascii :=
  let n := nat_of_ascii ch in
  if isUpper ch then ascii_of_nat (n + 32)
  else if ((192 <=? n)%nat && (n <=? 222)%nat && negb (n =? 215)%nat)
       then ascii_of_nat (n + 32)
  else ch.

Fixpoint toLowerCase (s : string) : string :=
  match s with
  | EmptyString => EmptyString
  | String c s' => String (lowerChar c) (toLowerCase s')
  end.

(** [s.startsWith(p)] *)
Fixpoint startsWith (s p : string) : bool :=
  match p, s with
  | EmptyString, _ => true
  | String _ _, EmptyString => false
  | String a p', String b s' => if Ascii.eqb a b then startsWith s' p' else false
  end.

(** [s.includes(sub)]: [sub] occurs at some position of [s]. *)
Fixpoint includes (s sub : string) : bool :=
  startsWith s sub ||
  match s with
  | EmptyString => false
  | String _ s' => includes s' sub
  end.

(** [s.endsWith(suffix)]: the last [suffix.length] code units of [s]. *)
Definition endsWith (s suffix : string) : bool :=
  let n := String.length s in
  let m := String.length suffix in
  if (m <=? n)%nat then String.eqb (String.substring (n - m) m s) suffix else false.

(** Truthiness of a string: only the empty string is falsy. *)
Definition truthy (s : string) : bool :=
  match s with EmptyString => false | String _ _ => true end.

(** [Array.from(new Set(xs))]: a [Set] keeps the first occurrence of each
    value, in insertion order. *)
Definition setAdd (seen : list string) (x : string) : list string :=
  if bool_decide (x ∈ seen) then seen else seen ++ [x].

Definition arrayFromSet (xs : list string) : list string :=
  fold_left setAdd xs [].

(** [Math.round(x)] on the exact value of a finite number: the nearest
    integer, halves rounded towards plus infinity. *)
Definition Math_round (x : Q) : Z := Qfloor (x + (1 # 2))%Q.

(** A settled promise: what [await p] yields, or what it throws. *)
Inductive settled (A E : Type) : Type :=
| Fulfilled (a : A)
| Rejected (e : E).
Arguments Fulfilled {A E} a.
Arguments Rejected {A E} e.

(** JSON values: the payloads the client receives and passes on. *)
#[local] Unset Elimination Schemes.
Inductive Json : Type :=
| JNull
| JBool (b : bool)
| JNum (z : Z)
| JStr (s : string)
| JArr (items : list Json)
| JObj (fields : list (string * Json)).
#[local] Set Elimination Schemes.

(** [o?.key]: [None] stands for [undefined]. *)
Definition getProp (o : option Json) (key : string) : option Json :=
  match o with
  | Some (JObj fields) => snd <$> List.find (fun kv => String.eqb (fst kv) key) fields
  | _ => None
  end.

(** A JavaScript number as far as the quiz score needs it. *)
Inductive number : Type :=
| Num (z : Z)
| NaN
| Infinity
| NegInfinity.

End Js.

(* ===================================================================== *)
(** * Regular expressions *)
(* ===================================================================== *)

Module Regex.

(** The fragment of the regular expression language that validation.ts
    uses.  [And] is the conjunction that the look-aheads at the start of an
    anchored pattern amount to. *)
Inductive regex : Type :=
| Void
| Eps
| Class (p : ascii -> bool)
| Cat (r1 r2 : regex)
| Alt (r1 r2 : regex)
| And (r1 r2 : regex)
| Star (r : regex).

Fixpoint nullable (r : regex) : bool :=
  match r with
  | Void => false
  | Eps => true
  | Class _ => false
  | Cat r1 r2 => nullable r1 && nullable r2
  | Alt r1 r2 => nullable r1 || nullable r2
  | And r1 r2 => nullable r1 && nullable r2
  | Star _ => true
  end.

Fixpoint deriv (c : ascii) (r : regex) : regex :=
  match r with
  | Void => Void
  | Eps => Void
  | Class p => if p c then Eps else Void
  | Cat r1 r2 =>
      if nullable r1 then Alt (Cat (deriv c r1) r2) (deriv c r2)
      else Cat (deriv c r1) r2
  | Alt r1 r2 => Alt (deriv c r1) (deriv c r2)
  | And r1 r2 => And (deriv c r1) (deriv c r2)
  | Star r1 => Cat (deriv c r1) (Star r1)
  end.

(** [/^r$/.test(s)] *)
Fixpoint test (r : regex) (s : string) : bool :=
  match s with
  | EmptyString => nullable r
  | String c s' => test (deriv c r) s'
  end.

(** [r+], [r{2,}] and [r{8,}] *)
Definition plus (r : regex) : regex := Cat r (Star r).
Fixpoint atLeast (n : nat) (r : regex) : regex :=
  match n with
  | O => Star r
  | S n' => Cat r (atLeast n' r)
  end.

(** A character class under the [i] flag.  Every member of the classes
    below is a Basic Latin character, and a code unit above 127 never
    canonicalizes to one, so the class matches [ch] when it holds [ch] or
    the same letter in the other case. *)
Definition swapCase (ch : ascii) : ascii :=
  if Js.isLower ch then ascii_of_nat (nat_of_ascii ch - 32)
  else if Js.isUpper ch then ascii_of_nat (nat_of_ascii ch + 32)
  else ch.

Definition ignoreCase (p : ascii -> bool) : ascii -> bool :=
  fun ch => p ch || p (swapCase ch).

Definition oneOf (members : string) (ch : ascii) : bool :=
  existsb (Ascii.eqb ch) (String.list_ascii_of_string members).

(** [.]: any code unit but a line terminator. *)
Definition dot (ch : ascii) : bool :=
  negb (Ascii.eqb ch "010"%char || Ascii.eqb ch "013"%char).

Definition anything : regex := Star (Class (fun _ => true)).

(** [(?=.*[p])] in front of an anchored body: some prefix matches [.*[p]]. *)
Definition lookahead (p : ascii -> bool) : regex :=
  Cat (Star (Class dot)) (Cat (Class p) anything).

End Regex.

(* ===================================================================== *)
(** * src/lib/validation.ts *)
(* ===================================================================== *)

Module Validation.

Record ValidationResult : Type := {
  valid : bool;
  message : option string
}.

Definition ok : ValidationResult := {| valid := true; message := None |}.
Definition invalid (msg : string) : ValidationResult :=
  {| valid := false; message := Some msg |}.

(** [[a-zA-Z0-9._%+-]] *)
Definition localClass (ch : ascii) : bool :=
  Js.isLower ch || Js.isUpper ch || Js.isDigit ch || Regex.oneOf "._%+-" ch.

(** [[a-zA-Z0-9.-]] *)
Definition domainClass (ch : ascii) : bool :=
  Js.isLower ch || Js.isUpper ch || Js.isDigit ch || Regex.oneOf ".-" ch.

(** [/^[a-zA-Z0-9._%+-]+@[a-zA-Z0-9.-]+\.[a-z]{2,}$/i] *)
Definition emailRegex : Regex.regex :=
  Regex.Cat (Regex.plus (Regex.Class (Regex.ignoreCase localClass)))
 (Regex.Cat (Regex.Class (Regex.ignoreCase (Regex.oneOf "@")))
 (Regex.Cat (Regex.plus (Regex.Class (Regex.ignoreCase domainClass)))
 (Regex.Cat (Regex.Class (Regex.ignoreCase (Regex.oneOf ".")))
            (Regex.atLeast 2 (Regex.Class (Regex.ignoreCase Js.isLower)))))).

Definition validateEmail (email : string) : ValidationResult :=
  if negb (Js.truthy email) then invalid "Email is required"
  else if negb (Regex.test emailRegex email) then invalid "Invalid email format"
  else if negb (Js.endsWith email ".com") && negb (Js.endsWith email ".in")
       then invalid "Email must end with .com or .in"
  else ok.

(** [[@$!%*?&]] and [[A-Za-z\d@$!%*?&]] *)
Definition specialClass (ch : ascii) : bool := Regex.oneOf "@$!%*?&" ch.
Definition passwordClass (ch : ascii) : bool :=
  Js.isUpper ch || Js.isLower ch || Js.isDigit ch || specialClass ch.

(** [/^(?=.*[a-z])(?=.*[A-Z])(?=.*\d)(?=.*[@$!%*?&])[A-Za-z\d@$!%*?&]{8,}$/] *)
Definition passwordRegex : Regex.regex :=
  Regex.And (Regex.lookahead Js.isLower)
 (Regex.And (Regex.lookahead Js.isUpper)
 (Regex.And (Regex.lookahead Js.isDigit)
 (Regex.And (Regex.lookahead specialClass)
            (Regex.atLeast 8 (Regex.Class passwordClass))))).

Definition validatePassword (password : string) : ValidationResult :=
  if negb (Js.truthy password) then invalid "Password is required"
  else if (String.length password <? 8)%nat
       then invalid "Password must be at least 8 characters"
  else if negb (Regex.test passwordRegex password)
       then invalid "Password must contain: 1 uppercase, 1 lowercase, 1 number, 1 special character"
  else ok.

Definition validateConfirmPassword (password confirmPassword : string) : ValidationResult :=
  if negb (Js.truthy confirmPassword) then invalid "Please confirm your password"
  else if negb (String.eqb password confirmPassword) then invalid "Passwords do not match"
  else ok.

End Validation.

(* ===================================================================== *)
(** * JavaScript numbers: IEEE 754 binary64 *)
(* ===================================================================== *)

Module F64.

(** A binary64 value.  A finite value is the rational it stands for, in
    lowest terms.  The sign of a zero is not kept: the client never divides
    by a number that can be [-0] (its one divisor is an array length) and
    never prints one apart from [0]. *)
Inductive double : Type :=
| Finite (q : Q)
| PosInf
| NegInf
| NaN.

Definition zero : double := Finite 0.
Definition one : double := Finite 1.

Definition pow2 (e : Z) : Q := Qpower 2 e.

(** The integer part of the binary logarithm of a positive rational:
    [pow2 (ilog2 q) <= q < pow2 (ilog2 q + 1)]. *)
Definition ilog2 (q : Q) : Z :=
  let k := Z.log2 (Qnum q) - Z.log2 (Zpos (Qden q)) in
  if Qle_bool (pow2 k) q then k else k - 1.

(** The nearest integer, a half going to the even neighbour. *)
Definition roundHalfEven (q : Q) : Z :=
  let f := Qfloor q in
  match (q - inject_Z f ?= 1 # 2)%Q with
  | Lt => f
  | Gt => f + 1
  | Eq => if Z.even f then f else f + 1
  end.

(** The exponent of the unit in the last place of a positive rational: 53
    significant bits, and no exponent below that of the least subnormal
    number, [pow2 (-1074)]. *)
Definition ulpExp (q : Q) : Z := Z.max (ilog2 q - 52) (-1074).

(** Round to nearest, ties to even, of a positive rational; [None] when the
    result is out of range ([pow2 1024] or more). *)
Definition roundPos (q : Q) : option Q :=
  let e := ulpExp q in
  let v := (inject_Z (roundHalfEven (q / pow2 e)) * pow2 e)%Q in
  if Qle_bool (pow2 1024) v then None else Some (Qred v).

(** The binary64 value of an exact result. *)
Definition round (x : Q) : double :=
  let q := Qred x in
  match (q ?= 0)%Q with
  | Eq => Finite 0
  | Gt => match roundPos q with Some v => Finite v | None => PosInf end
  | Lt => match roundPos (- q) with Some v => Finite (- v) | None => NegInf end
  end.

(** An integer as a number. *)
Definition ofZ (z : Z) : double := round (inject_Z z).

Definition neg (x : double) : double :=
  match x with
  | Finite q => Finite (- q)
  | PosInf => NegInf
  | NegInf => PosInf
  | NaN => NaN
  end.

(** [x + y] *)
Definition add (x y : double) : double :=
  match x, y with
  | NaN, _ | _, NaN => NaN
  | Finite a, Finite b => round (a + b)
  | PosInf, NegInf | NegInf, PosInf => NaN
  | PosInf, _ | _, PosInf => PosInf
  | NegInf, _ | _, NegInf => NegInf
  end.

(** [x - y] *)
Definition sub (x y : double) : double := add x (neg y).

(** [x * y] *)
Definition mul (x y : double) : double :=
  match x, y with
  | NaN, _ | _, NaN => NaN
  | Finite a, Finite b => round (a * b)
  | Finite a, PosInf | PosInf, Finite a =>
      match (a ?= 0)%Q with Eq => NaN | Gt => PosInf | Lt => NegInf end
  | Finite a, NegInf | NegInf, Finite a =>
      match (a ?= 0)%Q with Eq => NaN | Gt => NegInf | Lt => PosInf end
  | PosInf, PosInf | NegInf, NegInf => PosInf
  | PosInf, NegInf | NegInf, PosInf => NegInf
  end.

(** [x / y]; a zero divisor is [+0]. *)
Definition div (x y : double) : double :=
  match x, y with
  | NaN, _ | _, NaN => NaN
  | Finite a, Finite b =>
      match (b ?= 0)%Q with
      | Eq => match (a ?= 0)%Q with Eq => NaN | Gt => PosInf | Lt => NegInf end
      | _ => round (a / b)
      end
  | Finite _, _ => Finite 0
  | PosInf, Finite b => if Qle_bool 0 b then PosInf else NegInf
  | NegInf, Finite b => if Qle_bool 0 b then NegInf else PosInf
  | _, _ => NaN
  end.

(** [x <= y] and [x < y]: false as soon as one side is [NaN]. *)
Definition leb (x y : double) : bool :=
  match x, y with
  | NaN, _ | _, NaN => false
  | Finite a, Finite b => Qle_bool a b
  | NegInf, _ | _, PosInf => true
  | _, _ => false
  end.

Definition ltb (x y : double) : bool :=
  match x, y with
  | NaN, _ | _, NaN => false
  | Finite a, Finite b => negb (Qle_bool b a)
  | PosInf, _ | _, NegInf => false
  | _, _ => true
  end.

(** [Math.max(x, y)] and [Math.min(x, y)]: [NaN] as soon as one argument is. *)
Definition max (x y : double) : double :=
  match x, y with
  | NaN, _ | _, NaN => NaN
  | _, _ => if leb x y then y else x
  end.

Definition min (x y : double) : double :=
  match x, y with
  | NaN, _ | _, NaN => NaN
  | _, _ => if leb x y then x else y
  end.

(** [Math.round(x)]: the nearest integer, a half going up. *)
Definition Math_round (x : double) : Js.number :=
  match x with
  | Finite q => Js.Num (Js.Math_round q)
  | PosInf => Js.Infinity
  | NegInf => Js.NegInfinity
  | NaN => Js.NaN
  end.

(** The value of a float of the standard library's specification of IEEE
    754 arithmetic, which is also that of the machine's floats. *)
Definition ofSpec (f : SpecFloat.spec_float) : double :=
  match f with
  | SpecFloat.S754_zero _ => Finite 0
  | SpecFloat.S754_infinity s => if s then NegInf else PosInf
  | SpecFloat.S754_nan => NaN
  | SpecFloat.S754_finite s m e =>
      Finite (Qred ((if s then -1 else 1) * inject_Z (Zpos m) * pow2 e))
  end.

Definition ofPrim (f : PrimFloat.float) : double := ofSpec (FloatOps.Prim2SF f).

(** A small natural number as a float of the machine. *)
Definition primOfZ (z : Z) : PrimFloat.float := PrimFloat.of_uint63 (Uint63.of_Z z).

(** The machine's quotient of two small natural numbers. *)
Definition primFraction (a b : Z) : PrimFloat.float :=
  PrimFloat.div (primOfZ a) (primOfZ b).

(** Equality of two values, decided. *)
Definition eqb (x y : double) : bool :=
  match x, y with
  | Finite a, Finite b => (Qnum a =? Qnum b) && (Qden a =? Qden b)%positive
  | PosInf, PosInf | NegInf, NegInf | NaN, NaN => true
  | _, _ => false
  end.

End F64.

(* ===================================================================== *)
(** * src/store/auth.ts *)
(* ===================================================================== *)

Module Auth.

Inductive Role : Type := student | recruiter.

Record User : Type := {
  id : Z;
  name : string;
  email : string;
  domain : option string;
  role : option Role;
  gpa : option Z;
  experience_years : option Z;
  demographic_group : option string
}.

(** The part of [window] the store touches; [typeof window !== 'undefined']
    is [window = Some _] below. *)
Record Window : Type := {
  localStorage : gmap string string;
  location_href : string
}.

Record AuthState : Type := {
  token : option string;
  user : option User
}.

Record Runtime : Type := {
  window : option Window;
  auth : AuthState
}.

Definition withStorage (f : gmap string string -> gmap string string) (rt : Runtime) : Runtime :=
  {| window := (fun w => {| localStorage := f (localStorage w);
                            location_href := location_href w |}) <$> window rt;
     auth := auth rt |}.

Definition setToken (t : option string) (rt : Runtime) : Runtime :=
  let rt1 :=
    match t with
    | Some v => if Js.truthy v then withStorage (insert "gg_token" v) rt
                else withStorage (delete "gg_token") rt
    | None => withStorage (delete "gg_token") rt
    end in
  {| window := window rt1;
     auth := {| token := t; user := user (auth rt1) |} |}.

Definition logout (rt : Runtime) : Runtime :=
  let rt1 := withStorage (fun ls => delete "gg_user" (delete "gg_token" ls)) rt in
  {| window := window rt1;
     auth := {| token := None; user := None |} |}.

End Auth.

(* ===================================================================== *)
(** * src/lib/api.ts: the response interceptor *)
(* ===================================================================== *)

Module Api.

Record Response : Type := {
  status : Z;
  data : Js.Json
}.

(** The error axios hands to the interceptor; a network failure has no
    [response]. *)
Record AxiosError : Type := {
  response : option Response;
  errorMessage : string
}.

Inductive ConsoleLine : Type :=
| ApiErrorLine (status : Z) (data : Js.Json).

Record Client : Type := {
  runtime : Auth.Runtime;
  console : list ConsoleLine
}.

(** [window.location.href = target], when there is a window. *)
Definition navigate (target : string) (rt : Auth.Runtime) : Auth.Runtime :=
  {| Auth.window := (fun w => {| Auth.localStorage := Auth.localStorage w;
                                 Auth.location_href := target |}) <$> Auth.window rt;
     Auth.auth := Auth.auth rt |}.

(** [(res) => res] *)
Definition onFulfilled (res : Response) (c : Client) : Client * Js.settled Response AxiosError :=
  (c, Js.Fulfilled res).

(** [(err) => { ... return Promise.reject(err) }] *)
Definition onRejected (err : AxiosError) (c : Client) : Client * Js.settled Response AxiosError :=
  let rt1 :=
    if bool_decide (status <$> response err = Some 401)
    then navigate "/login" (Auth.logout (runtime c))
    else runtime c in
  let console1 :=
    match response err with
    | Some r => console c ++ [ApiErrorLine (status r) (data r)]
    | None => console c
    end in
  ({| runtime := rt1; console := console1 |}, Js.Rejected err).

End Api.

(* ===================================================================== *)
(** * src/store/gamification.ts *)
(* ===================================================================== *)

Module Gamification.

Record GamificationState : Type := {
  xp : Z;
  badges : list string;
  lastUpdatedAt : option string
}.

Definition initial : GamificationState :=
  {| xp := 0; badges := []; lastUpdatedAt := None |}.

(** [now] is [new Date().toISOString()] at the time of the call. *)
Definition addXp (amount : Z) (now : string) (state : GamificationState) : GamificationState :=
  {| xp := xp state + amount;
     badges := badges state;
     lastUpdatedAt := Some now |}.

Definition mergeBadges (incoming : list string) (now : string) (state : GamificationState)
  : GamificationState :=
  {| xp := xp state;
     badges := Js.arrayFromSet (badges state ++ incoming);
     lastUpdatedAt := Some now |}.

Definition reset (state : GamificationState) : GamificationState :=
  {| xp := 0; badges := []; lastUpdatedAt := None |}.

(** The operations of the store, and the stores they lead to. *)
Inductive Action : Type :=
| AddXp (amount : Z) (now : string)
| MergeBadges (incoming : list string) (now : string)
| Reset.

Definition dispatch (a : Action) (state : GamificationState) : GamificationState :=
  match a with
  | AddXp amount now => addXp amount now state
  | MergeBadges incoming now => mergeBadges incoming now state
  | Reset => reset state
  end.

Definition run (actions : list Action) : GamificationState :=
  fold_left (fun state a => dispatch a state) actions initial.

End Gamification.
(* ===================================================================== *)
(** * lib/enhancedApi.ts: the EnhancedDomainApi wrapper *)
(* ===================================================================== *)

Module EnhancedApi.

(** What a method of the wrapper hands back to its caller, together with
    the lines it wrote with [console.warn]. *)
Definition Outcome : Type := Js.settled Js.Json Api.AxiosError.
Definition Result : Type := (Outcome * list string)%type.

(** The calls the wrapper makes on [domainAwareApi], with their arguments. *)
Inductive BackendCall : Type :=
| BGetUserProfile
| BGetPersonalizedRecommendations (role level : option string)
| BGetTrendingSkills
| BGetVideos (filters : option Js.Json)
| BGetCourses (filters : option Js.Json)
| BGetCertificationRoadmap (domain : option Js.Json)
| BGetBeginnerChecklist (filters : option Js.Json)
| BGetUserStreak (filters : option Js.Json)
| BGetQuizQuestions (filters : option Js.Json)
| BGetCodingChallenge (filters : option Js.Json)
| BGetUserPlaylist (filters : option Js.Json)
| BGetRecentActivity (filters : option Js.Json)
| BTrackProgress (data : Js.Json)
| BAddToPlaylist (data : Js.Json)
| BRemoveFromPlaylist (resourceId : string) (domain : option string)
| BUpdatePlaylistProgress (resourceId : string) (progress : Js.Json) (domain : option string)
| BSubmitCode (data : Js.Json)
| BExportRoadmap (filters : option Js.Json).

(** The constants imported from [./mockData]. *)
Record MockData : Type := {
  mockUserProfile : Js.Json;
  mockRecommendations_personalized : Js.Json;
  mockTrendingSkills : Js.Json;
  mockVideos : Js.Json;
  mockCourses : Js.Json;
  mockCertifications : Js.Json;
  mockBeginnerChecklist : Js.Json;
  mockUserStreak : Js.Json;
  mockQuizQuestions : Js.Json;
  mockCodingChallenge : Js.Json;
  mockPlaylist : Js.Json;
  mockRecentActivity : Js.Json
}.

Record EnhancedDomainApi : Type := {
  useMockData : bool
}.

(** [new EnhancedDomainApi()]: the field initialiser [useMockData = false]. *)
Definition new : EnhancedDomainApi := {| useMockData := false |}.

Definition enableMockData (value : bool) (self : EnhancedDomainApi) : EnhancedDomainApi :=
  {| useMockData := value |}.

(** The [try { return await call } catch (error) { if (!this.useMockData)
    throw error; console.warn(warning); return fallback }] that is the body
    of every method. *)
Definition tryBackend (self : EnhancedDomainApi) (awaited : Outcome)
    (warning : string) (fallback : Js.Json) : Result :=
  match awaited with
  | Js.Fulfilled v => (Js.Fulfilled v, [])
  | Js.Rejected error =>
      if negb (useMockData self) then (Js.Rejected error, [])
      else (Js.Fulfilled fallback, [warning])
  end.

Definition localSuccess (msg : string) : Js.Json :=
  Js.JObj [("success", Js.JBool true); ("message", Js.JStr msg)].

Definition mockSubmitFeedback : Js.Json :=
  Js.JObj [("success", Js.JBool true);
           ("score", Js.JNum 85);
           ("feedback", Js.JStr "Good solution! Consider optimizing for better performance.");
           ("test_results",
             Js.JArr [Js.JObj [("test", Js.JStr "Test 1"); ("passed", Js.JBool true)];
                      Js.JObj [("test", Js.JStr "Test 2"); ("passed", Js.JBool true)]])].

Definition mockExport : Js.Json :=
  Js.JObj [("success", Js.JBool true);
           ("download_url", Js.JStr "data:text/plain;base64,SGVsbG8gV29ybGQh");
           ("filename", Js.JStr "roadmap.pdf")].

Section Methods.

(** [domainAwareApi] lives in [./domainApi]: what each of its calls
    settles to is a parameter, and so are the mock constants. *)
Variable domainAwareApi : BackendCall -> Outcome.
Variable mock : MockData.

Definition getUserProfile (self : EnhancedDomainApi) : Result :=
  tryBackend self (domainAwareApi BGetUserProfile)
    "Using mock user profile data" (mockUserProfile mock).

Definition getPersonalizedRecommendations (self : EnhancedDomainApi)
    (role level : option string) : Result :=
  tryBackend self (domainAwareApi (BGetPersonalizedRecommendations role level))
    "Using mock personalized recommendations" (mockRecommendations_personalized mock).

Definition getTrendingSkills (self : EnhancedDomainApi) : Result :=
  tryBackend self (domainAwareApi BGetTrendingSkills)
    "Using mock trending skills" (mockTrendingSkills mock).

Definition getVideos (self : EnhancedDomainApi) (filters : option Js.Json) : Result :=
  tryBackend self (domainAwareApi (BGetVideos filters))
    "Using mock videos" (mockVideos mock).

Definition getCourses (self : EnhancedDomainApi) (filters : option Js.Json) : Result :=
  tryBackend self (domainAwareApi (BGetCourses filters))
    "Using mock courses" (mockCourses mock).

Definition getCertificationRoadmap (self : EnhancedDomainApi) (filters : option Js.Json) : Result :=
  tryBackend self (domainAwareApi (BGetCertificationRoadmap (Js.getProp filters "domain")))
    "Using mock certifications" (mockCertifications mock).

Definition getBeginnerChecklist (self : EnhancedDomainApi) (filters : option Js.Json) : Result :=
  tryBackend self (domainAwareApi (BGetBeginnerChecklist filters))
    "Using mock beginner checklist" (mockBeginnerChecklist mock).

Definition getUserStreak (self : EnhancedDomainApi) (filters : option Js.Json) : Result :=
  tryBackend self (domainAwareApi (BGetUserStreak filters))
    "Using mock user streak" (mockUserStreak mock).

Definition getQuizQuestions (self : EnhancedDomainApi) (filters : option Js.Json) : Result :=
  tryBackend self (domainAwareApi (BGetQuizQuestions filters))
    "Using mock quiz questions" (mockQuizQuestions mock).

Definition getCodingChallenge (self : EnhancedDomainApi) (filters : option Js.Json) : Result :=
  tryBackend self (domainAwareApi (BGetCodingChallenge filters))
    "Using mock coding challenge" (mockCodingChallenge mock).

Definition getUserPlaylist (self : EnhancedDomainApi) (filters : option Js.Json) : Result :=
  tryBackend self (domainAwareApi (BGetUserPlaylist filters))
    "Using mock playlist" (mockPlaylist mock).

Definition getRecentActivity (self : EnhancedDomainApi) (filters : option Js.Json) : Result :=
  tryBackend self (domainAwareApi (BGetRecentActivity filters))
    "Using mock recent activity" (mockRecentActivity mock).

Definition trackProgress (self : EnhancedDomainApi) (data : Js.Json) : Result :=
  tryBackend self (domainAwareApi (BTrackProgress data))
    "Progress tracking failed, continuing without error"
    (localSuccess "Progress tracked locally").

Definition addToPlaylist (self : EnhancedDomainApi) (data : Js.Json) : Result :=
  tryBackend self (domainAwareApi (BAddToPlaylist data))
    "Add to playlist failed, continuing without error"
    (localSuccess "Added to local playlist").

Definition removeFromPlaylist (self : EnhancedDomainApi)
    (resourceId : string) (domain : option string) : Result :=
  tryBackend self (domainAwareApi (BRemoveFromPlaylist resourceId domain))
    "Remove from playlist failed, continuing without error"
    (localSuccess "Removed from local playlist").

Definition updatePlaylistProgress (self : EnhancedDomainApi)
    (resourceId : string) (progress : Js.Json) (domain : option string) : Result :=
  tryBackend self (domainAwareApi (BUpdatePlaylistProgress resourceId progress domain))
    "Update playlist progress failed, continuing without error"
    (localSuccess "Updated local progress").

Definition submitCode (self : EnhancedDomainApi) (data : Js.Json) : Result :=
  tryBackend self (domainAwareApi (BSubmitCode data))
    "Code submission failed, providing mock feedback" mockSubmitFeedback.

Definition exportRoadmap (self : EnhancedDomainApi) (filters : option Js.Json) : Result :=
  tryBackend self (domainAwareApi (BExportRoadmap filters))
    "Export roadmap failed, providing mock data" mockExport.

(** A call on the wrapper, as a value: the methods above with their
    arguments. *)
Inductive Operation : Type :=
| GetUserProfile
| GetPersonalizedRecommendations (role level : option string)
| GetTrendingSkills
| GetVideos (filters : option Js.Json)
| GetCourses (filters : option Js.Json)
| GetCertificationRoadmap (filters : option Js.Json)
| GetBeginnerChecklist (filters : option Js.Json)
| GetUserStreak (filters : option Js.Json)
| GetQuizQuestions (filters : option Js.Json)
| GetCodingChallenge (filters : option Js.Json)
| GetUserPlaylist (filters : option Js.Json)
| GetRecentActivity (filters : option Js.Json)
| TrackProgress (data : Js.Json)
| AddToPlaylist (data : Js.Json)
| RemoveFromPlaylist (resourceId : string) (domain : option string)
| UpdatePlaylistProgress (resourceId : string) (progress : Js.Json) (domain : option string)
| SubmitCode (data : Js.Json)
| ExportRoadmap (filters : option Js.Json).

Definition invoke (op : Operation) (self : EnhancedDomainApi) : Result :=
  match op with
  | GetUserProfile => getUserProfile self
  | GetPersonalizedRecommendations role level => getPersonalizedRecommendations self role level
  | GetTrendingSkills => getTrendingSkills self
  | GetVideos filters => getVideos self filters
  | GetCourses filters => getCourses self filters
  | GetCertificationRoadmap filters => getCertificationRoadmap self filters
  | GetBeginnerChecklist filters => getBeginnerChecklist self filters
  | GetUserStreak filters => getUserStreak self filters
  | GetQuizQuestions filters => getQuizQuestions self filters
  | GetCodingChallenge filters => getCodingChallenge self filters
  | GetUserPlaylist filters => getUserPlaylist self filters
  | GetRecentActivity filters => getRecentActivity self filters
  | TrackProgress data => trackProgress self data
  | AddToPlaylist data => addToPlaylist self data
  | RemoveFromPlaylist resourceId domain => removeFromPlaylist self resourceId domain
  | UpdatePlaylistProgress resourceId progress domain =>
      updatePlaylistProgress self resourceId progress domain
  | SubmitCode data => submitCode self data
  | ExportRoadmap filters => exportRoadmap self filters
  end.

(** The backend call an operation makes. *)
Definition backendCall (op : Operation) : BackendCall :=
  match op with
  | GetUserProfile => BGetUserProfile
  | GetPersonalizedRecommendations role level => BGetPersonalizedRecommendations role level
  | GetTrendingSkills => BGetTrendingSkills
  | GetVideos filters => BGetVideos filters
  | GetCourses filters => BGetCourses filters
  | GetCertificationRoadmap filters => BGetCertificationRoadmap (Js.getProp filters "domain")
  | GetBeginnerChecklist filters => BGetBeginnerChecklist filters
  | GetUserStreak filters => BGetUserStreak filters
  | GetQuizQuestions filters => BGetQuizQuestions filters
  | GetCodingChallenge filters => BGetCodingChallenge filters
  | GetUserPlaylist filters => BGetUserPlaylist filters
  | GetRecentActivity filters => BGetRecentActivity filters
  | TrackProgress data => BTrackProgress data
  | AddToPlaylist data => BAddToPlaylist data
  | RemoveFromPlaylist resourceId domain => BRemoveFromPlaylist resourceId domain
  | UpdatePlaylistProgress resourceId progress domain =>
      BUpdatePlaylistProgress resourceId progress domain
  | SubmitCode data => BSubmitCode data
  | ExportRoadmap filters => BExportRoadmap filters
  end.

(** The value an operation falls back to. *)
Definition fallbackOf (op : Operation) : Js.Json :=
  match op with
  | GetUserProfile => mockUserProfile mock
  | GetPersonalizedRecommendations _ _ => mockRecommendations_personalized mock
  | GetTrendingSkills => mockTrendingSkills mock
  | GetVideos _ => mockVideos mock
  | GetCourses _ => mockCourses mock
  | GetCertificationRoadmap _ => mockCertifications mock
  | GetBeginnerChecklist _ => mockBeginnerChecklist mock
  | GetUserStreak _ => mockUserStreak mock
  | GetQuizQuestions _ => mockQuizQuestions mock
  | GetCodingChallenge _ => mockCodingChallenge mock
  | GetUserPlaylist _ => mockPlaylist mock
  | GetRecentActivity _ => mockRecentActivity mock
  | TrackProgress _ => localSuccess "Progress tracked locally"
  | AddToPlaylist _ => localSuccess "Added to local playlist"
  | RemoveFromPlaylist _ _ => localSuccess "Removed from local playlist"
  | UpdatePlaylistProgress _ _ _ => localSuccess "Updated local progress"
  | SubmitCode _ => mockSubmitFeedback
  | ExportRoadmap _ => mockExport
  end.

End Methods.

(** [export const enhancedDomainApi = new EnhancedDomainApi()] *)
Definition enhancedDomainApi : EnhancedDomainApi := new.

End EnhancedApi.
(* ===================================================================== *)
(** * hooks/useUniversitySearch.ts *)
(* ===================================================================== *)

Module UniversitySearch.

Record University : Type := {
  name : string;
  country : string
}.

Definition FALLBACK_UNIVERSITIES : list University := [
  {| name := "Amrita Vishwa Vidyapeetham"; country := "India" |};
  {| name := "VIT University (Vellore Institute of Technology)"; country := "India" |};
  {| name := "Indian Institute of Technology Delhi"; country := "India" |};
  {| name := "Indian Institute of Technology Bombay"; country := "India" |};
  {| name := "Indian Institute of Technology Madras"; country := "India" |};
  {| name := "Indian Institute of Technology Kanpur"; country := "India" |};
  {| name := "Indian Institute of Technology Kharagpur"; country := "India" |};
  {| name := "Delhi University"; country := "India" |};
  {| name := "Jawaharlal Nehru University"; country := "India" |};
  {| name := "Birla Institute of Technology"; country := "India" |};
  {| name := "Manipal Institute of Technology"; country := "India" |};
  {| name := "SRM Institute of Science and Technology"; country := "India" |};
  {| name := "Chandigarh University"; country := "India" |};
  {| name := "PES University"; country := "India" |};
  {| name := "NIT Trichy"; country := "India" |};
  {| name := "NIT Warangal"; country := "India" |};
  {| name := "Massachusetts Institute of Technology"; country := "United States" |};
  {| name := "Stanford University"; country := "United States" |};
  {| name := "Harvard University"; country := "United States" |};
  {| name := "University of California, Berkeley"; country := "United States" |};
  {| name := "Carnegie Mellon University"; country := "United States" |};
  {| name := "University of Cambridge"; country := "United Kingdom" |};
  {| name := "Oxford University"; country := "United Kingdom" |};
  {| name := "ETH Zurich"; country := "Switzerland" |};
  {| name := "University of Toronto"; country := "Canada" |}
].

(** [u.name.toLowerCase().includes(query.toLowerCase())] *)
Definition matchesQuery (query : string) (u : University) : bool :=
  Js.includes (Js.toLowerCase (name u)) (Js.toLowerCase query).

(** The last four lines of the timer callback: what [setUniversities]
    receives on the fallback path. *)
Definition fallbackResults (query : string) : list University :=
  let filtered := List.filter (matchesQuery query) FALLBACK_UNIVERSITIES in
  if (0 <? length filtered)%nat then filtered else firstn 10 FALLBACK_UNIVERSITIES.

(** What [await fetch(...)] followed by [await response.json()] comes to:
    an exception with the [name] of the error, a response that is not
    [ok], or the parsed body, [Some data] when it is an array. *)
Inductive FetchOutcome : Type :=
| Threw (errorName : option string)
| NotOk
| Parsed (data : option (list University)).

(** The state of the hook: three [useState] cells and the [useRef]. *)
Record Hook : Type := {
  universities : list University;
  loading : bool;
  error : option string;
  abortControllerRef : option nat
}.

(** A request that [fetch] has sent and that has not settled yet, with the
    time at which its three-second timer aborts. *)
Record Request : Type := {
  controller : nat;
  requestQuery : string;
  abortAt : Z
}.

(** The hook in its environment: the module-level [apiDisabled], a clock in
    milliseconds, the pending debounce timer of the last effect (its
    deadline and the query it closed over), whether the last effect returned
    a cleanup, the requests in flight and the controllers aborted so far. *)
Record World : Type := {
  hook : Hook;
  apiDisabled : bool;
  clock : Z;
  debounceTimer : option (Z * string);
  cleanupArmed : bool;
  inflight : list Request;
  aborted : gset nat;
  nextController : nat
}.

Definition initial : World :=
  {| hook := {| universities := []; loading := false; error := None;
                abortControllerRef := None |};
     apiDisabled := false;
     clock := 0;
     debounceTimer := None;
     cleanupArmed := false;
     inflight := [];
     aborted := ∅;
     nextController := 0 |}.

(** [if (abortControllerRef.current) abortControllerRef.current.abort()] *)
Definition abortCurrent (w : World) : gset nat :=
  match abortControllerRef (hook w) with
  | Some c => {[ c ]} ∪ aborted w
  | None => aborted w
  end.

(** The function the effect returns: [clearTimeout(timeoutId)] and the
    abort of the current controller. *)
Definition cleanup (w : World) : World :=
  {| hook := hook w;
     apiDisabled := apiDisabled w;
     clock := clock w;
     debounceTimer := None;
     cleanupArmed := false;
     inflight := inflight w;
     aborted := abortCurrent w;
     nextController := nextController w |}.

(** The body of the effect for the dependencies [query, debounceMs]. *)
Definition effect (query : string) (debounceMs : Z) (w : World) : World :=
  if negb (Js.truthy query) || (String.length query <? 2)%nat then
    {| hook := {| universities := [];
                  loading := loading (hook w);
                  error := error (hook w);
                  abortControllerRef := abortControllerRef (hook w) |};
       apiDisabled := apiDisabled w;
       clock := clock w;
       debounceTimer := debounceTimer w;
       cleanupArmed := false;
       inflight := inflight w;
       aborted := aborted w;
       nextController := nextController w |}
  else
    {| hook := hook w;
       apiDisabled := apiDisabled w;
       clock := clock w;
       debounceTimer := Some (clock w + debounceMs, query);
       cleanupArmed := true;
       inflight := inflight w;
       aborted := abortCurrent w;
       nextController := nextController w |}.

(** React re-runs the effect when [query] or [debounceMs] changes: the
    cleanup of the previous run, if it returned one, then the body. *)
Definition queryChange (query : string) (debounceMs : Z) (w : World) : World :=
  effect query debounceMs (if cleanupArmed w then cleanup w else w).

(** [setUniversities(results); setLoading(false)] *)
Definition finish (results : list University) (h : Hook) : Hook :=
  {| universities := results;
     loading := false;
     error := error h;
     abortControllerRef := abortControllerRef h |}.

(** The timer callback up to its [await fetch]. *)
Definition timerCallback (query : string) (w : World) : World :=
  let h1 := {| universities := universities (hook w);
               loading := true;
               error := None;
               abortControllerRef := abortControllerRef (hook w) |} in
  let useFallback := apiDisabled w || (String.length query <? 3)%nat in
  if negb useFallback && negb (apiDisabled w) then
    let c := nextController w in
    {| hook := {| universities := universities h1;
                  loading := loading h1;
                  error := error h1;
                  abortControllerRef := Some c |};
       apiDisabled := apiDisabled w;
       clock := clock w;
       debounceTimer := None;
       cleanupArmed := cleanupArmed w;
       inflight := inflight w ++ [{| controller := c; requestQuery := query;
                                     abortAt := clock w + 3000 |}];
       aborted := aborted w;
       nextController := S c |}
  else
    {| hook := finish (fallbackResults query) h1;
       apiDisabled := apiDisabled w;
       clock := clock w;
       debounceTimer := None;
       cleanupArmed := cleanupArmed w;
       inflight := inflight w;
       aborted := aborted w;
       nextController := nextController w |}.

(** The rest of the callback, once the request of [query] has settled. *)
Definition afterFetch (query : string) (outcome : FetchOutcome) (w : World)
  : Hook * bool :=
  match outcome with
  | Parsed (Some data) =>
      if (0 <? length data)%nat then (finish (firstn 10 data) (hook w), apiDisabled w)
      else (finish (fallbackResults query) (hook w), apiDisabled w)
  | Parsed None | NotOk => (finish (fallbackResults query) (hook w), apiDisabled w)
  | Threw errorName =>
      let disabled :=
        if bool_decide (errorName = Some "AbortError") then apiDisabled w else true in
      (finish (fallbackResults query) (hook w), disabled)
  end.

(** What the environment can do. *)
Inductive Event : Type :=
| QueryChange (query : string) (debounceMs : Z)
| Advance (ms : Z)
| Fire
| RequestTimeout (c : nat)
| Settle (c : nat) (outcome : FetchOutcome).

Definition findRequest (c : nat) (w : World) : option Request :=
  List.find (fun r => (controller r =? c)%nat) (inflight w).

(** A request whose signal was aborted rejects with an [AbortError]. *)
Definition observed (c : nat) (outcome : FetchOutcome) (w : World) : FetchOutcome :=
  if bool_decide (c ∈ aborted w) then Threw (Some "AbortError") else outcome.

Definition step (e : Event) (w : World) : option World :=
  match e with
  | QueryChange query debounceMs =>
      if 0 <=? debounceMs then Some (queryChange query debounceMs w) else None
  | Advance ms =>
      if 0 <=? ms then
        Some {| hook := hook w; apiDisabled := apiDisabled w;
                clock := clock w + ms;
                debounceTimer := debounceTimer w; cleanupArmed := cleanupArmed w;
                inflight := inflight w; aborted := aborted w;
                nextController := nextController w |}
      else None
  | Fire =>
      match debounceTimer w with
      | Some (deadline, query) =>
          if deadline <=? clock w then Some (timerCallback query w) else None
      | None => None
      end
  | RequestTimeout c =>
      match findRequest c w with
      | Some r =>
          if abortAt r <=? clock w then
            Some {| hook := hook w; apiDisabled := apiDisabled w; clock := clock w;
                    debounceTimer := debounceTimer w; cleanupArmed := cleanupArmed w;
                    inflight := inflight w; aborted := abortCurrent w;
                    nextController := nextController w |}
          else None
      | None => None
      end
  | Settle c outcome =>
      match findRequest c w with
      | Some r =>
          let '(h, disabled) := afterFetch (requestQuery r) (observed c outcome w) w in
          Some {| hook := h; apiDisabled := disabled; clock := clock w;
                  debounceTimer := debounceTimer w; cleanupArmed := cleanupArmed w;
                  inflight := List.filter (fun r' => negb (controller r' =? c)%nat) (inflight w);
                  aborted := aborted w;
                  nextController := nextController w |}
      | None => None
      end
  end.

Fixpoint run (events : list Event) (w : World) : option World :=
  match events with
  | [] => Some w
  | e :: rest =>
      match step e w with
      | Some w' => run rest w'
      | None => None
      end
  end.

(** The lookup of a request failed or brought nothing back. *)
Definition failedOrEmpty (outcome : FetchOutcome) : bool :=
  match outcome with
  | Threw _ | NotOk | Parsed None | Parsed (Some []) => true
  | Parsed (Some (_ :: _)) => false
  end.

End UniversitySearch.
(* ===================================================================== *)
(** * src/pages/Quiz.tsx *)
(* ===================================================================== *)

Module Quiz.

Record QuizQuestion : Type := {
  id : string;
  question : string;
  options : list string;
  answer : Z;
  explanation : string;
  skill : option string
}.

Record QuizResponse : Type := {
  r_id : string;
  selected : Z;
  correctIndex : Z;
  correctLabel : option string;
  r_explanation : string;
  r_skill : option string;
  isCorrect : bool;
  timeTaken : F64.double;
  timedOut : bool
}.

Inductive Mode : Type := concept | interview | rapid.
Inductive Difficulty : Type := beginner | intermediate | advanced.

Definition DEFAULT_TIME_LIMIT : F64.double := F64.Finite 60.

Record QuizMeta : Type := {
  timePerQuestion : F64.double;
  pointsPerCorrect : Z;
  totalAvailable : Z
}.

Record QuizSummary : Type := {
  score : Js.number;
  awarded_xp : option Z;
  badges : list string;
  strengths : list string;
  weaknesses : list string;
  recommendations : list Js.Json;
  suggested_next_steps : list Js.Json;
  total_points : Z;
  streak_bonus : Z;
  max_streak : Z;
  time_spent_seconds : Js.number;
  points_per_correct : Z
}.

(** The body of the answer to [GET /quiz].  The time allowed for a question
    is a number of seconds that need not be whole. *)
Record QuizData : Type := {
  items : option (list QuizQuestion);
  time_per_question : option F64.double;
  meta_points_per_correct : option Z;
  total_available : option Z
}.

(** The body of the answer to [POST /quiz/submit]; a field the server left
    out is [None]. *)
Record SubmitResult : Type := {
  res_awarded_xp : option Z;
  res_badges : option (list string);
  res_strengths : option (list string);
  res_weaknesses : option (list string);
  res_recommendations : option (list Js.Json);
  res_suggested_next_steps : option (list Js.Json);
  res_total_points : option Z;
  res_streak_bonus : option Z;
  res_max_streak : option Z;
  res_time_spent_seconds : option Z;
  res_points_per_correct : option Z
}.

(** One entry of [payload.responses], and the payload of [submitQuizResult]. *)
Record PayloadResponse : Type := {
  p_id : string;
  p_selected : Z;
  p_correct : Z;
  p_correctLabel : option string;
  p_explanation : string;
  p_skill : option string;
  p_time_taken : Js.number
}.

Record Payload : Type := {
  p_domain : string;
  p_mode : Mode;
  p_difficulty : Difficulty;
  p_score : Js.number;
  p_total_questions : nat;
  p_total_time_taken : Js.number;
  p_responses : list PayloadResponse
}.

(** The [useState] cells of the component. *)
Record QuizState : Type := {
  activeDomain : string;
  mode : Mode;
  difficulty : Difficulty;
  questions : list QuizQuestion;
  currentIndex : nat;
  selectedOption : option Z;
  isAnswerSubmitted : bool;
  responses : list QuizResponse;
  correctCount : Z;
  isLoading : bool;
  error : option string;
  summary : option QuizSummary;
  isSubmittingResults : bool;
  quizMeta : option QuizMeta;
  questionTimeLeft : F64.double;
  currentPoints : Z;
  currentStreak : Z;
  maxStreakLive : Z;
  totalTimeSpent : F64.double
}.

(** [setX(f)]: the functional update of one cell; [setX(v)] is
    [setX (const v)]. *)
Definition setActiveDomain (f : string -> string) (s : QuizState) : QuizState :=
  {| activeDomain := f (activeDomain s); mode := mode s; difficulty := difficulty s;
     questions := questions s; currentIndex := currentIndex s;
     selectedOption := selectedOption s; isAnswerSubmitted := isAnswerSubmitted s;
     responses := responses s; correctCount := correctCount s; isLoading := isLoading s;
     error := error s; summary := summary s; isSubmittingResults := isSubmittingResults s;
     quizMeta := quizMeta s; questionTimeLeft := questionTimeLeft s;
     currentPoints := currentPoints s; currentStreak := currentStreak s;
     maxStreakLive := maxStreakLive s; totalTimeSpent := totalTimeSpent s |}.

Definition setMode (f : Mode -> Mode) (s : QuizState) : QuizState :=
  {| activeDomain := activeDomain s; mode := f (mode s); difficulty := difficulty s;
     questions := questions s; currentIndex := currentIndex s;
     selectedOption := selectedOption s; isAnswerSubmitted := isAnswerSubmitted s;
     responses := responses s; correctCount := correctCount s; isLoading := isLoading s;
     error := error s; summary := summary s; isSubmittingResults := isSubmittingResults s;
     quizMeta := quizMeta s; questionTimeLeft := questionTimeLeft s;
     currentPoints := currentPoints s; currentStreak := currentStreak s;
     maxStreakLive := maxStreakLive s; totalTimeSpent := totalTimeSpent s |}.

Definition setDifficulty (f : Difficulty -> Difficulty) (s : QuizState) : QuizState :=
  {| activeDomain := activeDomain s; mode := mode s; difficulty := f (difficulty s);
     questions := questions s; currentIndex := currentIndex s;
     selectedOption := selectedOption s; isAnswerSubmitted := isAnswerSubmitted s;
     responses := responses s; correctCount := correctCount s; isLoading := isLoading s;
     error := error s; summary := summary s; isSubmittingResults := isSubmittingResults s;
     quizMeta := quizMeta s; questionTimeLeft := questionTimeLeft s;
     currentPoints := currentPoints s; currentStreak := currentStreak s;
     maxStreakLive := maxStreakLive s; totalTimeSpent := totalTimeSpent s |}.

Definition setQuestions (f : (list QuizQuestion) -> (list QuizQuestion)) (s : QuizState) : QuizState :=
  {| activeDomain := activeDomain s; mode := mode s; difficulty := difficulty s;
     questions := f (questions s); currentIndex := currentIndex s;
     selectedOption := selectedOption s; isAnswerSubmitted := isAnswerSubmitted s;
     responses := responses s; correctCount := correctCount s; isLoading := isLoading s;
     error := error s; summary := summary s; isSubmittingResults := isSubmittingResults s;
     quizMeta := quizMeta s; questionTimeLeft := questionTimeLeft s;
     currentPoints := currentPoints s; currentStreak := currentStreak s;
     maxStreakLive := maxStreakLive s; totalTimeSpent := totalTimeSpent s |}.

Definition setCurrentIndex (f : nat -> nat) (s : QuizState) : QuizState :=
  {| activeDomain := activeDomain s; mode := mode s; difficulty := difficulty s;
     questions := questions s; currentIndex := f (currentIndex s);
     selectedOption := selectedOption s; isAnswerSubmitted := isAnswerSubmitted s;
     responses := responses s; correctCount := correctCount s; isLoading := isLoading s;
     error := error s; summary := summary s; isSubmittingResults := isSubmittingResults s;
     quizMeta := quizMeta s; questionTimeLeft := questionTimeLeft s;
     currentPoints := currentPoints s; currentStreak := currentStreak s;
     maxStreakLive := maxStreakLive s; totalTimeSpent := totalTimeSpent s |}.

Definition setSelectedOption (f : (option Z) -> (option Z)) (s : QuizState) : QuizState :=
  {| activeDomain := activeDomain s; mode := mode s; difficulty := difficulty s;
     questions := questions s; currentIndex := currentIndex s;
     selectedOption := f (selectedOption s); isAnswerSubmitted := isAnswerSubmitted s;
     responses := responses s; correctCount := correctCount s; isLoading := isLoading s;
     error := error s; summary := summary s; isSubmittingResults := isSubmittingResults s;
     quizMeta := quizMeta s; questionTimeLeft := questionTimeLeft s;
     currentPoints := currentPoints s; currentStreak := currentStreak s;
     maxStreakLive := maxStreakLive s; totalTimeSpent := totalTimeSpent s |}.

Definition setIsAnswerSubmitted (f : bool -> bool) (s : QuizState) : QuizState :=
  {| activeDomain := activeDomain s; mode := mode s; difficulty := difficulty s;
     questions := questions s; currentIndex := currentIndex s;
     selectedOption := selectedOption s; isAnswerSubmitted := f (isAnswerSubmitted s);
     responses := responses s; correctCount := correctCount s; isLoading := isLoading s;
     error := error s; summary := summary s; isSubmittingResults := isSubmittingResults s;
     quizMeta := quizMeta s; questionTimeLeft := questionTimeLeft s;
     currentPoints := currentPoints s; currentStreak := currentStreak s;
     maxStreakLive := maxStreakLive s; totalTimeSpent := totalTimeSpent s |}.

Definition setResponses (f : (list QuizResponse) -> (list QuizResponse)) (s : QuizState) : QuizState :=
  {| activeDomain := activeDomain s; mode := mode s; difficulty := difficulty s;
     questions := questions s; currentIndex := currentIndex s;
     selectedOption := selectedOption s; isAnswerSubmitted := isAnswerSubmitted s;
     responses := f (responses s); correctCount := correctCount s; isLoading := isLoading s;
     error := error s; summary := summary s; isSubmittingResults := isSubmittingResults s;
     quizMeta := quizMeta s; questionTimeLeft := questionTimeLeft s;
     currentPoints := currentPoints s; currentStreak := currentStreak s;
     maxStreakLive := maxStreakLive s; totalTimeSpent := totalTimeSpent s |}.

Definition setCorrectCount (f : Z -> Z) (s : QuizState) : QuizState :=
  {| activeDomain := activeDomain s; mode := mode s; difficulty := difficulty s;
     questions := questions s; currentIndex := currentIndex s;
     selectedOption := selectedOption s; isAnswerSubmitted := isAnswerSubmitted s;
     responses := responses s; correctCount := f (correctCount s); isLoading := isLoading s;
     error := error s; summary := summary s; isSubmittingResults := isSubmittingResults s;
     quizMeta := quizMeta s; questionTimeLeft := questionTimeLeft s;
     currentPoints := currentPoints s; currentStreak := currentStreak s;
     maxStreakLive := maxStreakLive s; totalTimeSpent := totalTimeSpent s |}.

Definition setIsLoading (f : bool -> bool) (s : QuizState) : QuizState :=
  {| activeDomain := activeDomain s; mode := mode s; difficulty := difficulty s;
     questions := questions s; currentIndex := currentIndex s;
     selectedOption := selectedOption s; isAnswerSubmitted := isAnswerSubmitted s;
     responses := responses s; correctCount := correctCount s; isLoading := f (isLoading s);
     error := error s; summary := summary s; isSubmittingResults := isSubmittingResults s;
     quizMeta := quizMeta s; questionTimeLeft := questionTimeLeft s;
     currentPoints := currentPoints s; currentStreak := currentStreak s;
     maxStreakLive := maxStreakLive s; totalTimeSpent := totalTimeSpent s |}.

Definition setError (f : (option string) -> (option string)) (s : QuizState) : QuizState :=
  {| activeDomain := activeDomain s; mode := mode s; difficulty := difficulty s;
     questions := questions s; currentIndex := currentIndex s;
     selectedOption := selectedOption s; isAnswerSubmitted := isAnswerSubmitted s;
     responses := responses s; correctCount := correctCount s; isLoading := isLoading s;
     error := f (error s); summary := summary s; isSubmittingResults := isSubmittingResults s;
     quizMeta := quizMeta s; questionTimeLeft := questionTimeLeft s;
     currentPoints := currentPoints s; currentStreak := currentStreak s;
     maxStreakLive := maxStreakLive s; totalTimeSpent := totalTimeSpent s |}.

Definition setSummary (f : (option QuizSummary) -> (option QuizSummary)) (s : QuizState) : QuizState :=
  {| activeDomain := activeDomain s; mode := mode s; difficulty := difficulty s;
     questions := questions s; currentIndex := currentIndex s;
     selectedOption := selectedOption s; isAnswerSubmitted := isAnswerSubmitted s;
     responses := responses s; correctCount := correctCount s; isLoading := isLoading s;
     error := error s; summary := f (summary s); isSubmittingResults := isSubmittingResults s;
     quizMeta := quizMeta s; questionTimeLeft := questionTimeLeft s;
     currentPoints := currentPoints s; currentStreak := currentStreak s;
     maxStreakLive := maxStreakLive s; totalTimeSpent := totalTimeSpent s |}.

Definition setIsSubmittingResults (f : bool -> bool) (s : QuizState) : QuizState :=
  {| activeDomain := activeDomain s; mode := mode s; difficulty := difficulty s;
     questions := questions s; currentIndex := currentIndex s;
     selectedOption := selectedOption s; isAnswerSubmitted := isAnswerSubmitted s;
     responses := responses s; correctCount := correctCount s; isLoading := isLoading s;
     error := error s; summary := summary s; isSubmittingResults := f (isSubmittingResults s);
     quizMeta := quizMeta s; questionTimeLeft := questionTimeLeft s;
     currentPoints := currentPoints s; currentStreak := currentStreak s;
     maxStreakLive := maxStreakLive s; totalTimeSpent := totalTimeSpent s |}.

Definition setQuizMeta (f : (option QuizMeta) -> (option QuizMeta)) (s : QuizState) : QuizState :=
  {| activeDomain := activeDomain s; mode := mode s; difficulty := difficulty s;
     questions := questions s; currentIndex := currentIndex s;
     selectedOption := selectedOption s; isAnswerSubmitted := isAnswerSubmitted s;
     responses := responses s; correctCount := correctCount s; isLoading := isLoading s;
     error := error s; summary := summary s; isSubmittingResults := isSubmittingResults s;
     quizMeta := f (quizMeta s); questionTimeLeft := questionTimeLeft s;
     currentPoints := currentPoints s; currentStreak := currentStreak s;
     maxStreakLive := maxStreakLive s; totalTimeSpent := totalTimeSpent s |}.

Definition setQuestionTimeLeft (f : F64.double -> F64.double) (s : QuizState) : QuizState :=
  {| activeDomain := activeDomain s; mode := mode s; difficulty := difficulty s;
     questions := questions s; currentIndex := currentIndex s;
     selectedOption := selectedOption s; isAnswerSubmitted := isAnswerSubmitted s;
     responses := responses s; correctCount := correctCount s; isLoading := isLoading s;
     error := error s; summary := summary s; isSubmittingResults := isSubmittingResults s;
     quizMeta := quizMeta s; questionTimeLeft := f (questionTimeLeft s);
     currentPoints := currentPoints s; currentStreak := currentStreak s;
     maxStreakLive := maxStreakLive s; totalTimeSpent := totalTimeSpent s |}.

Definition setCurrentPoints (f : Z -> Z) (s : QuizState) : QuizState :=
  {| activeDomain := activeDomain s; mode := mode s; difficulty := difficulty s;
     questions := questions s; currentIndex := currentIndex s;
     selectedOption := selectedOption s; isAnswerSubmitted := isAnswerSubmitted s;
     responses := responses s; correctCount := correctCount s; isLoading := isLoading s;
     error := error s; summary := summary s; isSubmittingResults := isSubmittingResults s;
     quizMeta := quizMeta s; questionTimeLeft := questionTimeLeft s;
     currentPoints := f (currentPoints s); currentStreak := currentStreak s;
     maxStreakLive := maxStreakLive s; totalTimeSpent := totalTimeSpent s |}.

Definition setCurrentStreak (f : Z -> Z) (s : QuizState) : QuizState :=
  {| activeDomain := activeDomain s; mode := mode s; difficulty := difficulty s;
     questions := questions s; currentIndex := currentIndex s;
     selectedOption := selectedOption s; isAnswerSubmitted := isAnswerSubmitted s;
     responses := responses s; correctCount := correctCount s; isLoading := isLoading s;
     error := error s; summary := summary s; isSubmittingResults := isSubmittingResults s;
     quizMeta := quizMeta s; questionTimeLeft := questionTimeLeft s;
     currentPoints := currentPoints s; currentStreak := f (currentStreak s);
     maxStreakLive := maxStreakLive s; totalTimeSpent := totalTimeSpent s |}.

Definition setMaxStreakLive (f : Z -> Z) (s : QuizState) : QuizState :=
  {| activeDomain := activeDomain s; mode := mode s; difficulty := difficulty s;
     questions := questions s; currentIndex := currentIndex s;
     selectedOption := selectedOption s; isAnswerSubmitted := isAnswerSubmitted s;
     responses := responses s; correctCount := correctCount s; isLoading := isLoading s;
     error := error s; summary := summary s; isSubmittingResults := isSubmittingResults s;
     quizMeta := quizMeta s; questionTimeLeft := questionTimeLeft s;
     currentPoints := currentPoints s; currentStreak := currentStreak s;
     maxStreakLive := f (maxStreakLive s); totalTimeSpent := totalTimeSpent s |}.

Definition setTotalTimeSpent (f : F64.double -> F64.double) (s : QuizState) : QuizState :=
  {| activeDomain := activeDomain s; mode := mode s; difficulty := difficulty s;
     questions := questions s; currentIndex := currentIndex s;
     selectedOption := selectedOption s; isAnswerSubmitted := isAnswerSubmitted s;
     responses := responses s; correctCount := correctCount s; isLoading := isLoading s;
     error := error s; summary := summary s; isSubmittingResults := isSubmittingResults s;
     quizMeta := quizMeta s; questionTimeLeft := questionTimeLeft s;
     currentPoints := currentPoints s; currentStreak := currentStreak s;
     maxStreakLive := maxStreakLive s; totalTimeSpent := f (totalTimeSpent s) |}.

Definition const {A : Type} (v : A) : A -> A := fun _ => v.

(** [useState] initial values; [domain] is [domainLabelFromKey(domainKey)]. *)
Definition initialState (domain : string) : QuizState :=
  {| activeDomain := domain; mode := concept; difficulty := intermediate;
     questions := []; currentIndex := 0%nat; selectedOption := None;
     isAnswerSubmitted := false; responses := []; correctCount := 0;
     isLoading := false; error := None; summary := None;
     isSubmittingResults := false; quizMeta := None;
     questionTimeLeft := DEFAULT_TIME_LIMIT; currentPoints := 0;
     currentStreak := 0; maxStreakLive := 0; totalTimeSpent := F64.zero |}.

(** The component in its environment.  A callback that runs later (the
    continuation of an [await], the function given to [setTimeout]) reads
    the cells through the closure of the render that created it: the
    pending lists keep that render's state. *)
Record World : Type := {
  state : QuizState;
  toasts : list string;
  requests : list Payload;
  pendingLoads : nat;
  pendingSubmit : list QuizState;
  pendingAdvance : list QuizState;
  game : Gamification.GamificationState;
  confetti : nat
}.

Definition initial (domain : string) : World :=
  {| state := initialState domain; toasts := []; requests := [];
     pendingLoads := 0; pendingSubmit := []; pendingAdvance := [];
     game := Gamification.initial; confetti := 0 |}.

Definition onState (f : QuizState -> QuizState) (w : World) : World :=
  {| state := f (state w); toasts := toasts w; requests := requests w;
     pendingLoads := pendingLoads w; pendingSubmit := pendingSubmit w;
     pendingAdvance := pendingAdvance w; game := game w; confetti := confetti w |}.

(** [toast.error(msg)] *)
Definition toastError (msg : string) (w : World) : World :=
  {| state := state w; toasts := toasts w ++ [msg]; requests := requests w;
     pendingLoads := pendingLoads w; pendingSubmit := pendingSubmit w;
     pendingAdvance := pendingAdvance w; game := game w; confetti := confetti w |}.

(** [questions[currentIndex]] *)
Definition currentQuestion (s : QuizState) : option QuizQuestion :=
  questions s !! currentIndex s.

(** [currentQuestion.options[currentQuestion.answer]] *)
Definition answerLabel (q : QuizQuestion) : option string :=
  if 0 <=? answer q then options q !! Z.to_nat (answer q) else None.

(** [quizMeta?.timePerQuestion ?? DEFAULT_TIME_LIMIT] *)
Definition totalWindowOf (s : QuizState) : F64.double :=
  match quizMeta s with
  | Some meta => timePerQuestion meta
  | None => DEFAULT_TIME_LIMIT
  end.

(** [responses.some((resp) => resp.id === currentQuestion.id)] *)
Definition alreadyAnswered (s : QuizState) (q : QuizQuestion) : bool :=
  existsb (fun resp => String.eqb (r_id resp) (id q)) (responses s).

(** [currentIndex === questions.length - 1] *)
Definition onLastQuestion (s : QuizState) : bool :=
  Z.of_nat (currentIndex s) =? Z.of_nat (length (questions s)) - 1.

(** [Math.round((correctCount / questions.length) * 100)]: the division and
    the multiplication are those of binary64 numbers. *)
Definition percentage (correct : Z) (total : nat) : Js.number :=
  F64.Math_round
    (F64.mul (F64.div (F64.ofZ correct) (F64.ofZ (Z.of_nat total))) (F64.Finite 100)).

Definition payloadResponse (r : QuizResponse) : PayloadResponse :=
  {| p_id := r_id r; p_selected := selected r;
     p_correct := if isCorrect r then 1 else 0;
     p_correctLabel := correctLabel r; p_explanation := r_explanation r;
     p_skill := r_skill r; p_time_taken := F64.Math_round (timeTaken r) |}.

Definition payloadOf (s : QuizState) : Payload :=
  {| p_domain := activeDomain s; p_mode := mode s; p_difficulty := difficulty s;
     p_score := percentage (correctCount s) (length (questions s));
     p_total_questions := length (questions s);
     p_total_time_taken := F64.Math_round (totalTimeSpent s);
     p_responses := payloadResponse <$> responses s |}.

Definition handleSelectOption (snap : QuizState) (optionIdx : Z) (w : World) : World :=
  if isAnswerSubmitted snap then w
  else onState (setSelectedOption (const (Some optionIdx))) w.

Definition handleSubmitAnswer (snap : QuizState) (w : World) : World :=
  match selectedOption snap, currentQuestion snap with
  | Some sel, Some q =>
      if alreadyAnswered snap q then w
      else
        let totalWindow := totalWindowOf snap in
        let timeTakenRaw := F64.sub totalWindow (questionTimeLeft snap) in
        let timeTaken := F64.max F64.one (F64.min totalWindow timeTakenRaw) in
        let correct := sel =? answer q in
        let points :=
          match quizMeta snap with Some meta => pointsPerCorrect meta | None => 20 end in
        let scored (s : QuizState) : QuizState :=
          if correct then
            let next := currentStreak s + 1 in
            setMaxStreakLive (fun m => Z.max m next)
              (setCurrentStreak (const next)
                (setCurrentPoints (fun p => p + points)
                  (setCorrectCount (fun c => c + 1) s)))
          else setCurrentStreak (const 0) s in
        onState (fun s =>
          setResponses (fun prev => prev ++ [
              {| r_id := id q; selected := sel; correctIndex := answer q;
                 correctLabel := answerLabel q; r_explanation := explanation q;
                 r_skill := skill q; isCorrect := correct; timeTaken := timeTaken;
                 timedOut := false |}])
            (setTotalTimeSpent (fun prev => F64.add prev timeTaken)
              (scored (setIsAnswerSubmitted (const true) s)))) w
  | _, _ => toastError "Select an option first." w
  end.

(** [handleFinishQuiz] up to its [await submitQuizResult(payload)]. *)
Definition handleFinishQuiz (snap : QuizState) (w : World) : World :=
  if negb (length (responses snap) =? length (questions snap))%nat
  then toastError "Answer every question to finish." w
  else
    {| state := setIsSubmittingResults (const true) (state w);
       toasts := toasts w;
       requests := requests w ++ [payloadOf snap];
       pendingLoads := pendingLoads w;
       pendingSubmit := pendingSubmit w ++ [snap];
       pendingAdvance := pendingAdvance w;
       game := game w; confetti := confetti w |}.

(** [a || b] on optional numbers: [undefined] and [0] are falsy. *)
Definition orElse (a : option Z) (b : Z) : Z :=
  match a with
  | Some v => if v =? 0 then b else v
  | None => b
  end.

(** [a || b] where [b] is the result of a [Math.round]. *)
Definition orElseNumber (a : option Z) (b : Js.number) : Js.number :=
  match a with
  | Some v => if v =? 0 then b else Js.Num v
  | None => b
  end.

(** [handleFinishQuiz] after the request has been answered; [now1] and
    [now2] are the timestamps [addXp] and [mergeBadges] take. *)
Definition submitResolved (snap : QuizState) (result : SubmitResult)
    (now1 now2 : string) (w : World) : World :=
  let sc := percentage (correctCount snap) (length (questions snap)) in
  let pointsFallback :=
    match quizMeta snap with Some meta => orElse (Some (pointsPerCorrect meta)) 0 | None => 0 end in
  let s1 :=
    setSummary (const (Some
      {| score := sc;
         awarded_xp := res_awarded_xp result;
         badges := default [] (res_badges result);
         strengths := default [] (res_strengths result);
         weaknesses := default [] (res_weaknesses result);
         recommendations := default [] (res_recommendations result);
         suggested_next_steps := default [] (res_suggested_next_steps result);
         total_points := orElse (res_total_points result) 0;
         streak_bonus := orElse (res_streak_bonus result) 0;
         max_streak := orElse (res_max_streak result) 0;
         time_spent_seconds :=
           orElseNumber (res_time_spent_seconds result) (F64.Math_round (totalTimeSpent snap));
         points_per_correct := orElse (res_points_per_correct result) pointsFallback |}))
      (state w) in
  let g1 := Gamification.addXp (orElse (res_awarded_xp result) 0) now1 (game w) in
  let g2 :=
    match res_badges result with
    | Some bs => Gamification.mergeBadges bs now2 g1
    | None => g1
    end in
  let s2 :=
    setCurrentStreak (const 0)
      (setMaxStreakLive (fun prev => Z.max prev (default prev (res_max_streak result)))
        (setCurrentPoints (const (default (currentPoints snap) (res_total_points result))) s1)) in
  {| state := setIsSubmittingResults (const false) s2;
     toasts := toasts w; requests := requests w;
     pendingLoads := pendingLoads w; pendingSubmit := pendingSubmit w;
     pendingAdvance := pendingAdvance w;
     game := g2;
     confetti := match sc with
                 | Js.Num 100 => S (confetti w)
                 | _ => confetti w
                 end |}.

(** What a failed request carries: [err.response.data.detail] and
    [err.message]. *)
Record RequestError : Type := {
  detail : option string;
  errMessage : option string
}.

(** [err?.response?.data?.detail || err?.message || dflt] *)
Definition detailOf (err : RequestError) (dflt : string) : string :=
  match detail err with
  | Some d => if Js.truthy d then d
              else match errMessage err with
                   | Some m => if Js.truthy m then m else dflt
                   | None => dflt
                   end
  | None => match errMessage err with
            | Some m => if Js.truthy m then m else dflt
            | None => dflt
            end
  end.

(** The [catch] and [finally] of [handleFinishQuiz]. *)
Definition submitRejected (err : RequestError) (w : World) : World :=
  onState (setIsSubmittingResults (const false))
    (toastError (detailOf err "Could not save your results.") w).

(** The [else] branch shared by [handleNextQuestion] and the timeout of
    [handleTimeExpired]. *)
Definition advance (snap : QuizState) (s : QuizState) : QuizState :=
  setQuestionTimeLeft (const (totalWindowOf snap))
    (setIsAnswerSubmitted (const false)
      (setSelectedOption (const None)
        (setCurrentIndex (fun idx => S idx) s))).

Definition handleNextQuestion (snap : QuizState) (w : World) : World :=
  if negb (isAnswerSubmitted snap) then toastError "Submit your answer before continuing." w
  else if onLastQuestion snap then handleFinishQuiz snap w
  else onState (advance snap) w.

(** The function [handleTimeExpired] gives to [setTimeout(..., 1200)]: it
    calls the [handleFinishQuiz] of the render that created it. *)
Definition timeoutCallback (snap : QuizState) (w : World) : World :=
  if onLastQuestion snap then handleFinishQuiz snap w
  else onState (advance snap) w.

(** [handleTimeExpired], up to the registration of its timeout.  The toast,
    which the code defers with [setTimeout(..., 0)], is logged at once. *)
Definition handleTimeExpired (snap : QuizState) (w : World) : World :=
  match currentQuestion snap with
  | Some q =>
      if isAnswerSubmitted snap then w
      else if alreadyAnswered snap q then w
      else
        let totalWindow := totalWindowOf snap in
        let s' :=
          setQuestionTimeLeft (const F64.zero)
            (setResponses (fun prev => prev ++ [
                {| r_id := id q; selected := -1; correctIndex := answer q;
                   correctLabel := answerLabel q; r_explanation := explanation q;
                   r_skill := skill q; isCorrect := false; timeTaken := totalWindow;
                   timedOut := true |}])
              (setTotalTimeSpent (fun prev => F64.add prev totalWindow)
                (setCurrentStreak (const 0)
                  (setSelectedOption (const (Some (-1)))
                    (setIsAnswerSubmitted (const true) (state w)))))) in
        {| state := s';
           toasts := toasts w ++ ["Time's up!"];
           requests := requests w;
           pendingLoads := pendingLoads w;
           pendingSubmit := pendingSubmit w;
           pendingAdvance := pendingAdvance w ++ [snap];
           game := game w; confetti := confetti w |}
  | None => w
  end.

(** The countdown effect keeps an interval running exactly in these states. *)
Definition countdownActive (s : QuizState) : bool :=
  match quizMeta s, summary s with
  | Some _, None =>
      negb (isLoading s) && negb (length (questions s) =? 0)%nat
      && negb (isAnswerSubmitted s)
  | _, _ => false
  end.

(** The body of the countdown effect: the first update of the time left. *)
Definition countdownEffect (s : QuizState) : QuizState :=
  match quizMeta s with
  | Some meta =>
      if countdownActive s then
        setQuestionTimeLeft
          (fun prev => if F64.leb prev F64.zero || F64.ltb (timePerQuestion meta) prev
                       then timePerQuestion meta else prev) s
      else s
  | None => s
  end.

(** One run of the interval function.  The effect re-creates the interval
    whenever a cell that [handleTimeExpired] reads has changed, so the
    handler runs with the cells as they are. *)
Definition intervalTick (w : World) : World :=
  if F64.leb (questionTimeLeft (state w)) F64.one
  then onState (setQuestionTimeLeft (const F64.zero)) (handleTimeExpired (state w) w)
  else onState (setQuestionTimeLeft (fun prev => F64.sub prev F64.one)) w.

(** [loadQuiz] up to its [await getQuiz(...)]. *)
Definition loadQuiz (snap : QuizState) (w : World) : World :=
  if negb (Js.truthy (activeDomain snap)) then w
  else
    {| state :=
         setQuizMeta (const None)
          (setTotalTimeSpent (const F64.zero)
           (setMaxStreakLive (const 0)
            (setCurrentStreak (const 0)
             (setCurrentPoints (const 0)
              (setCorrectCount (const 0)
               (setIsAnswerSubmitted (const false)
                (setSelectedOption (const None)
                 (setCurrentIndex (const 0%nat)
                  (setResponses (const [])
                   (setQuestions (const [])
                    (setSummary (const None)
                     (setError (const None)
                      (setIsLoading (const true) (state w))))))))))))));
       toasts := toasts w; requests := requests w;
       pendingLoads := S (pendingLoads w);
       pendingSubmit := pendingSubmit w; pendingAdvance := pendingAdvance w;
       game := game w; confetti := confetti w |}.

Definition loadSettled (f : QuizState -> QuizState) (w : World) : World :=
  {| state := setIsLoading (const false) (f (state w));
     toasts := toasts w; requests := requests w;
     pendingLoads := Nat.pred (pendingLoads w);
     pendingSubmit := pendingSubmit w; pendingAdvance := pendingAdvance w;
     game := game w; confetti := confetti w |}.

(** [loadQuiz] once the questions have arrived. *)
Definition quizLoaded (data : QuizData) (w : World) : World :=
  match items data with
  | Some (q :: qs) =>
      let tpq := default DEFAULT_TIME_LIMIT (time_per_question data) in
      let ppc := default 20 (meta_points_per_correct data) in
      let total := default (Z.of_nat (length (q :: qs))) (total_available data) in
      loadSettled (fun s =>
        setQuestionTimeLeft (const tpq)
          (setQuizMeta (const (Some {| timePerQuestion := tpq; pointsPerCorrect := ppc;
                                       totalAvailable := total |}))
            (setQuestions (const (q :: qs)) s))) w
  | _ =>
      loadSettled
        (setError (const (Some "No questions available yet. Try a different mode or difficulty."))) w
  end.

(** The [catch] of [loadQuiz]. *)
Definition quizLoadFailed (err : RequestError) (w : World) : World :=
  loadSettled (setError (const (Some (detailOf err "Unable to load quiz.")))) w.

(** What the user, the timers and the network can do to the page. *)
Inductive Event : Type :=
| SetActiveDomain (domain : string)
| SetMode (m : Mode)
| SetDifficulty (d : Difficulty)
| LoadQuiz
| QuizLoaded (data : QuizData)
| QuizLoadFailed (err : RequestError)
| SelectOption (optionIdx : Z)
| SubmitAnswer
| NextQuestion
| CountdownEffect
| Tick
| TimeoutFires (i : nat)
| SubmitResolved (i : nat) (result : SubmitResult) (now1 now2 : string)
| SubmitRejected (i : nat) (err : RequestError).

Definition dropAdvance (i : nat) (w : World) : World :=
  {| state := state w; toasts := toasts w; requests := requests w;
     pendingLoads := pendingLoads w; pendingSubmit := pendingSubmit w;
     pendingAdvance := delete i (pendingAdvance w);
     game := game w; confetti := confetti w |}.

Definition dropSubmit (i : nat) (w : World) : World :=
  {| state := state w; toasts := toasts w; requests := requests w;
     pendingLoads := pendingLoads w; pendingSubmit := delete i (pendingSubmit w);
     pendingAdvance := pendingAdvance w;
     game := game w; confetti := confetti w |}.

(** An event handler set on a button reads the cells of the last render,
    which are the cells as they are. *)
Definition step (e : Event) (w : World) : option World :=
  match e with
  | SetActiveDomain domain => Some (onState (setActiveDomain (const domain)) w)
  | SetMode m => Some (onState (setMode (const m)) w)
  | SetDifficulty d => Some (onState (setDifficulty (const d)) w)
  | LoadQuiz => Some (loadQuiz (state w) w)
  | QuizLoaded data =>
      if (0 <? pendingLoads w)%nat then Some (quizLoaded data w) else None
  | QuizLoadFailed err =>
      if (0 <? pendingLoads w)%nat then Some (quizLoadFailed err w) else None
  | SelectOption optionIdx => Some (handleSelectOption (state w) optionIdx w)
  | SubmitAnswer => Some (handleSubmitAnswer (state w) w)
  | NextQuestion => Some (handleNextQuestion (state w) w)
  | CountdownEffect => Some (onState countdownEffect w)
  | Tick => if countdownActive (state w) then Some (intervalTick w) else None
  | TimeoutFires i =>
      match pendingAdvance w !! i with
      | Some snap => Some (timeoutCallback snap (dropAdvance i w))
      | None => None
      end
  | SubmitResolved i result now1 now2 =>
      match pendingSubmit w !! i with
      | Some snap => Some (submitResolved snap result now1 now2 (dropSubmit i w))
      | None => None
      end
  | SubmitRejected i err =>
      match pendingSubmit w !! i with
      | Some snap => Some (submitRejected err (dropSubmit i w))
      | None => None
      end
  end.

Fixpoint run (events : list Event) (w : World) : option World :=
  match events with
  | [] => Some w
  | e :: rest =>
      match step e w with
      | Some w' => run rest w'
      | None => None
      end
  end.

(** The identifiers of the recorded responses and of the questions. *)
Definition responseIds (s : QuizState) : list string := r_id <$> responses s.
Definition questionIds (s : QuizState) : list string := id <$> questions s.

(** The response [handleTimeExpired] records for question [q]. *)
Definition timedOutResponse (s : QuizState) (q : QuizQuestion) : QuizResponse :=
  {| r_id := id q; selected := -1; correctIndex := answer q;
     correctLabel := answerLabel q; r_explanation := explanation q;
     r_skill := skill q; isCorrect := false; timeTaken := totalWindowOf s;
     timedOut := true |}.

End Quiz.
(* ===================================================================== *)
(** * Sample inputs *)
(* ===================================================================== *)

Module Samples.

(** A request that never reached the server. *)
Definition networkError : Api.AxiosError :=
  {| Api.response := None; Api.errorMessage := "Network Error" |}.

(** The answer of a server that does not know the token. *)
Definition unauthorized : Api.AxiosError :=
  {| Api.response := Some {| Api.status := 401;
                             Api.data := Js.JObj [("detail", Js.JStr "Not authenticated")] |};
     Api.errorMessage := "Request failed with status code 401" |}.

(** A signed-in browser tab. *)
Definition tab : Auth.Window :=
  {| Auth.localStorage :=
       <["gg_token" := "abc"]> (<["gg_user" := "{}"]> (<["theme" := "dark"]> ∅));
     Auth.location_href := "/dashboard" |}.

Definition signedIn : Api.Client :=
  {| Api.runtime :=
       {| Auth.window := Some tab;
          Auth.auth :=
            {| Auth.token := Some "abc";
               Auth.user := Some {| Auth.id := 7; Auth.name := "Asha";
                                    Auth.email := "asha@example.com";
                                    Auth.domain := None; Auth.role := Some Auth.student;
                                    Auth.gpa := None; Auth.experience_years := None;
                                    Auth.demographic_group := None |} |} |};
     Api.console := [] |}.

(** A backend that is down, and mock constants. *)
Definition backendDown : EnhancedApi.BackendCall -> EnhancedApi.Outcome :=
  fun _ => Js.Rejected networkError.

Definition mocks : EnhancedApi.MockData :=
  {| EnhancedApi.mockUserProfile := Js.JObj [("name", Js.JStr "Demo User")];
     EnhancedApi.mockRecommendations_personalized := Js.JArr [];
     EnhancedApi.mockTrendingSkills := Js.JArr [];
     EnhancedApi.mockVideos := Js.JArr [];
     EnhancedApi.mockCourses := Js.JArr [];
     EnhancedApi.mockCertifications := Js.JArr [];
     EnhancedApi.mockBeginnerChecklist := Js.JArr [];
     EnhancedApi.mockUserStreak := Js.JObj [];
     EnhancedApi.mockQuizQuestions := Js.JArr [];
     EnhancedApi.mockCodingChallenge := Js.JObj [];
     EnhancedApi.mockPlaylist := Js.JArr [];
     EnhancedApi.mockRecentActivity := Js.JArr [] |}.

(** A quiz of one question, two seconds to answer it. *)
Definition onlyQuestion : Quiz.QuizQuestion :=
  {| Quiz.id := "q1"; Quiz.question := "2 + 2 ?"; Quiz.options := ["3"; "4"];
     Quiz.answer := 1; Quiz.explanation := "Addition."; Quiz.skill := None |}.

Definition oneQuestionQuiz : Quiz.QuizData :=
  {| Quiz.items := Some [onlyQuestion]; Quiz.time_per_question := Some (F64.Finite 2);
     Quiz.meta_points_per_correct := None; Quiz.total_available := None |}.

(** The page once that quiz is loaded and its countdown has started. *)
Definition loadedQuiz : Quiz.World :=
  default (Quiz.initial "Web Development")
    (Quiz.run [Quiz.LoadQuiz; Quiz.QuizLoaded oneQuestionQuiz; Quiz.CountdownEffect]
              (Quiz.initial "Web Development")).

(** The same page once the user has picked the right option and locked it. *)
Definition lockedQuiz : Quiz.World :=
  default loadedQuiz
    (Quiz.run [Quiz.SelectOption 1; Quiz.SubmitAnswer] loadedQuiz).

(** A quiz of forty questions, the first option being the right one. *)
Definition numbered (i : nat) : Quiz.QuizQuestion :=
  {| Quiz.id := String "q" (DecimalString.NilEmpty.string_of_uint (Nat.to_uint i));
     Quiz.question := "Pick the first option.";
     Quiz.options := ["first"; "second"];
     Quiz.answer := 0; Quiz.explanation := "The first one."; Quiz.skill := None |}.

Definition fortyQuestionQuiz : Quiz.QuizData :=
  {| Quiz.items := Some (numbered <$> seq 0 40);
     Quiz.time_per_question := Some (F64.Finite 30);
     Quiz.meta_points_per_correct := None; Quiz.total_available := None |}.

(** The user answers the first 23 questions right and the other 17 wrong,
    moving on after each but the last. *)
Definition answerNo (i : nat) : list Quiz.Event :=
  [Quiz.SelectOption (if (i <? 23)%nat then 0 else 1); Quiz.SubmitAnswer]
  ++ (if (i <? 39)%nat then [Quiz.NextQuestion; Quiz.CountdownEffect] else []).

Definition answers23of40 : list Quiz.Event :=
  [Quiz.LoadQuiz; Quiz.QuizLoaded fortyQuestionQuiz; Quiz.CountdownEffect]
  ++ mjoin (answerNo <$> seq 0 40).

Definition answered23of40 : Quiz.World :=
  default (Quiz.initial "Web Development")
    (Quiz.run answers23of40 (Quiz.initial "Web Development")).

(** What the user, the clock and the timer do for the query "delhi". *)
Definition typedDelhi : list UniversitySearch.Event :=
  [UniversitySearch.QueryChange "delhi" 500;
   UniversitySearch.Advance 500;
   UniversitySearch.Fire].

(** The hook while the request for "delhi" is in flight. *)
Definition searching : UniversitySearch.World :=
  default UniversitySearch.initial
    (UniversitySearch.run typedDelhi UniversitySearch.initial).

End Samples.
(* ===================================================================== *)
(** * Predicates used by the statements *)
(* ===================================================================== *)

Module Specs.

(** [query] occurs in [name] when the case of letters is ignored. *)
Definition containsIgnoringCase (name query : string) : Prop :=
  exists pre post : string,
    Js.toLowerCase name = pre +:+ Js.toLowerCase query +:+ post.

(** Every request in flight has had its signal aborted. *)
Definition allAborted (w : UniversitySearch.World) : Prop :=
  forall r, r ∈ UniversitySearch.inflight w ->
    UniversitySearch.controller r ∈ UniversitySearch.aborted w.

(** What holds of the hook between two events. *)
Record searchInvariant (w : UniversitySearch.World) : Prop := {
  inv_error : UniversitySearch.error (UniversitySearch.hook w) = None;
  inv_current :
    forall r, r ∈ UniversitySearch.inflight w ->
      UniversitySearch.controller r ∈ UniversitySearch.aborted w \/
      UniversitySearch.abortControllerRef (UniversitySearch.hook w) =
        Some (UniversitySearch.controller r);
  inv_idle :
    UniversitySearch.cleanupArmed w = false \/ UniversitySearch.debounceTimer w <> None ->
    allAborted w;
  inv_armed :
    UniversitySearch.debounceTimer w <> None -> UniversitySearch.cleanupArmed w = true;
  inv_query :
    forall deadline query, UniversitySearch.debounceTimer w = Some (deadline, query) ->
      (2 <= String.length query)%nat
}.

(** The recorded responses answer questions of the quiz, each at most once. *)
Definition responsesOfThisQuiz (s : Quiz.QuizState) : Prop :=
  NoDup (Quiz.responseIds s) /\
  (forall i, i ∈ Quiz.responseIds s -> i ∈ Quiz.questionIds s).

(** A score between 0 and 100. *)
Definition percent (n : Js.number) : Prop :=
  exists z, n = Js.Num z /\ 0 <= z <= 100.

(** What holds of the cells of the quiz page, in the store and in the
    closures that are still to run. *)
Definition countsAgree (s : Quiz.QuizState) : Prop :=
  0 <= Quiz.correctCount s <= Z.of_nat (length (Quiz.responses s)) /\
  (Quiz.isAnswerSubmitted s = true -> Quiz.responses s <> []).

Definition submittable (s : Quiz.QuizState) : Prop :=
  0 <= Quiz.correctCount s <= Z.of_nat (length (Quiz.responses s)) /\
  (length (Quiz.responses s) = length (Quiz.questions s) -> Quiz.questions s <> []).

(** A JavaScript array holds fewer than [2 ^ 32] elements. *)
Definition arrayLength (n : nat) : Prop := Z.of_nat n < 2 ^ 32.

Definition payloadComplete (p : Quiz.Payload) : Prop :=
  (arrayLength (Quiz.p_total_questions p) -> percent (Quiz.p_score p)) /\
  length (Quiz.p_responses p) = Quiz.p_total_questions p /\
  (0 < Quiz.p_total_questions p)%nat.

(** [z] is the exact percentage [x] rounded, a half going up; or [x] lies
    half-way between two integers and [z] is the one below. *)
Definition roundedOrLowerHalf (z : Z) (x : Q) : Prop :=
  z = Js.Math_round x \/ (z = Js.Math_round x - 1 /\ (x == inject_Z z + (1 # 2))%Q).

Record quizInvariant (w : Quiz.World) : Prop := {
  inv_state : countsAgree (Quiz.state w);
  inv_advance : Forall submittable (Quiz.pendingAdvance w);
  inv_requests : Forall payloadComplete (Quiz.requests w)
}.

End Specs.
(* ===================================================================== *)
(** * Predicates on the characters of a string *)
(* ===================================================================== *)

Module Chars.

(** Every code unit of [s] satisfies [p]; some code unit of [s] does. *)
Definition allChars (p : ascii -> bool) (s : string) : bool :=
  forallb p (String.list_ascii_of_string s).

Definition someChar (p : ascii -> bool) (s : string) : bool :=
  existsb p (String.list_ascii_of_string s).

Definition isLetter (ch : ascii) : bool := Js.isLower ch || Js.isUpper ch.

Definition notPeriod (ch : ascii) : bool := negb (Ascii.eqb ch ".").

End Chars.

(* ===================================================================== *)
(** * src/lib/validation.ts: validateName *)
(* ===================================================================== *)

Module NameValidation.

(** [\s] on code units below 256: tab, line feed, vertical tab, form feed,
    carriage return, space and the no-break space. *)
Definition isSpace (ch : ascii) : bool :=
  let n := nat_of_ascii ch in
  ((9 <=? n)%nat && (n <=? 13)%nat) || (n =? 32)%nat || (n =? 160)%nat.

(** [[a-zA-Z\s]] *)
Definition nameClass (ch : ascii) : bool :=
  Js.isLower ch || Js.isUpper ch || isSpace ch.

(** [/^[a-zA-Z\s]+$/] *)
Definition nameRegex : Regex.regex := Regex.plus (Regex.Class nameClass).

Definition validateName (name : string) : Validation.ValidationResult :=
  if negb (Js.truthy name) then Validation.invalid "Name is required"
  else if (String.length name <? 3)%nat
       then Validation.invalid "Name must be at least 3 characters"
  else if negb (Regex.test nameRegex name)
       then Validation.invalid "Name must contain only alphabets and spaces"
  else Validation.ok.

End NameValidation.

(* ===================================================================== *)
(** * What the pages show for a validated field *)
(* ===================================================================== *)

Module Forms.

(** [validation.valid ? '' : validation.message || ''] *)
Definition fieldError (v : Validation.ValidationResult) : string :=
  if Validation.valid v then ""
  else match Validation.message v with
       | Some m => m
       | None => ""
       end.

(** The error shown while the user types: none for an empty field. *)
Definition liveError (validate : string -> Validation.ValidationResult) (value : string) : string :=
  if Js.truthy value then fieldError (validate value) else "".

(** [s.trim()]: white space and line terminators leave both ends. *)
Fixpoint trimStart (s : string) : string :=
  match s with
  | EmptyString => EmptyString
  | String c s' => if NameValidation.isSpace c then trimStart s' else s
  end.

Definition trimEnd (s : string) : string :=
  String.rev (trimStart (String.rev s)).

Definition trim (s : string) : string := trimEnd (trimStart s).

(** Truthiness of a JSON value. *)
Definition truthyJson (j : Js.Json) : bool :=
  match j with
  | Js.JNull => false
  | Js.JBool b => b
  | Js.JNum z => negb (z =? 0)
  | Js.JStr s => Js.truthy s
  | Js.JArr _ | Js.JObj _ => true
  end.

(** What an error caught around a request carries:
    [e.response.data.detail] and [e.message]. *)
Record CaughtError : Type := {
  detail : option Js.Json;
  errMessage : option string
}.

(** [e?.response?.data?.detail || e?.message || dflt] *)
Definition describe (e : CaughtError) (dflt : string) : Js.Json :=
  match detail e with
  | Some d =>
      if truthyJson d then d
      else match errMessage e with
           | Some m => if Js.truthy m then Js.JStr m else Js.JStr dflt
           | None => Js.JStr dflt
           end
  | None =>
      match errMessage e with
      | Some m => if Js.truthy m then Js.JStr m else Js.JStr dflt
      | None => Js.JStr dflt
      end
  end.

End Forms.

(* ===================================================================== *)
(** * src/pages/Login.tsx *)
(* ===================================================================== *)

Module Login.

(** The [useState] cells of the page. *)
Record LoginState : Type := {
  email : string;
  password : string;
  emailError : string;
  passwordError : string;
  loading : bool
}.

Definition setEmail (f : string -> string) (s : LoginState) : LoginState :=
  {| email := f (email s); password := password s; emailError := emailError s;
     passwordError := passwordError s; loading := loading s |}.

Definition setPassword (f : string -> string) (s : LoginState) : LoginState :=
  {| email := email s; password := f (password s); emailError := emailError s;
     passwordError := passwordError s; loading := loading s |}.

Definition setEmailError (f : string -> string) (s : LoginState) : LoginState :=
  {| email := email s; password := password s; emailError := f (emailError s);
     passwordError := passwordError s; loading := loading s |}.

Definition setPasswordError (f : string -> string) (s : LoginState) : LoginState :=
  {| email := email s; password := password s; emailError := emailError s;
     passwordError := f (passwordError s); loading := loading s |}.

Definition setLoading (f : bool -> bool) (s : LoginState) : LoginState :=
  {| email := email s; password := password s; emailError := emailError s;
     passwordError := passwordError s; loading := f (loading s) |}.

Definition const {A : Type} (v : A) : A -> A := fun _ => v.

Definition initialState : LoginState :=
  {| email := ""; password := ""; emailError := ""; passwordError := ""; loading := false |}.

(** What [handleLogin] writes with [console.log] before the request. *)
Record Attempt : Type := {
  attemptEmail : string;
  passwordLength : nat
}.

(** The payload of [loginUser]. *)
Record Credentials : Type := {
  c_email : string;
  c_password : string
}.

Record World : Type := {
  form : LoginState;
  console : list Attempt;
  requests : list Credentials
}.

Definition initial : World := {| form := initialState; console := []; requests := [] |}.

Definition handleEmailChange (value : string) (w : World) : World :=
  {| form := setEmailError (const (Forms.liveError Validation.validateEmail value))
               (setEmail (const value) (form w));
     console := console w; requests := requests w |}.

Definition handlePasswordChange (value : string) (w : World) : World :=
  {| form := setPasswordError (const (Forms.liveError Validation.validatePassword value))
               (setPassword (const value) (form w));
     console := console w; requests := requests w |}.

(** [handleLogin] up to its [await loginUser(...)]; [snap] holds the cells
    of the render whose form was submitted. *)
Definition handleLogin (snap : LoginState) (w : World) : World :=
  let emailValidation := Validation.validateEmail (email snap) in
  let passwordValidation := Validation.validatePassword (password snap) in
  let shown :=
    setPasswordError (const (Forms.fieldError passwordValidation))
      (setEmailError (const (Forms.fieldError emailValidation)) (form w)) in
  if negb (Validation.valid emailValidation) || negb (Validation.valid passwordValidation)
  then {| form := shown; console := console w; requests := requests w |}
  else
    {| form := setLoading (const true) shown;
       console := console w ++ [{| attemptEmail := email snap;
                                   passwordLength := String.length (password snap) |}];
       requests := requests w ++ [{| c_email := email snap; c_password := password snap |}] |}.

(** What the user can do on the page. *)
Inductive Event : Type :=
| EmailChange (value : string)
| PasswordChange (value : string)
| SubmitForm.

Definition react (e : Event) (w : World) : World :=
  match e with
  | EmailChange value => handleEmailChange value w
  | PasswordChange value => handlePasswordChange value w
  | SubmitForm => handleLogin (form w) w
  end.

Definition run (events : list Event) : World :=
  fold_left (fun w e => react e w) events initial.

End Login.

(* ===================================================================== *)
(** * pages/Register.tsx: the three-step registration form *)
(* ===================================================================== *)

Module Register.

Definition DOMAINS : list string :=
  ["AI/ML"; "Cybersecurity"; "Data Science"; "Web Development"; "Cloud Computing";
   "IoT"; "Robotics"].

(** The [useState] cells of the page. *)
Record RegisterState : Type := {
  step : Z;
  name : string;
  email : string;
  password : string;
  confirmPassword : string;
  institutionType : string;
  college : string;
  collegeQuery : string;
  year : string;
  domain : string;
  role : Auth.Role;
  loading : bool;
  showDropdown : bool;
  nameError : string;
  emailError : string;
  passwordError : string;
  confirmPasswordError : string;
  collegeError : string;
  yearError : string;
  domainError : string
}.

Definition setStep (f : Z -> Z) (s : RegisterState) : RegisterState :=
  {| step := f (step s); name := name s; email := email s; password := password s;
     confirmPassword := confirmPassword s; institutionType := institutionType s;
     college := college s; collegeQuery := collegeQuery s; year := year s; domain := domain s;
     role := role s; loading := loading s; showDropdown := showDropdown s;
     nameError := nameError s; emailError := emailError s; passwordError := passwordError s;
     confirmPasswordError := confirmPasswordError s; collegeError := collegeError s;
     yearError := yearError s; domainError := domainError s |}.

Definition setName (f : string -> string) (s : RegisterState) : RegisterState :=
  {| step := step s; name := f (name s); email := email s; password := password s;
     confirmPassword := confirmPassword s; institutionType := institutionType s;
     college := college s; collegeQuery := collegeQuery s; year := year s; domain := domain s;
     role := role s; loading := loading s; showDropdown := showDropdown s;
     nameError := nameError s; emailError := emailError s; passwordError := passwordError s;
     confirmPasswordError := confirmPasswordError s; collegeError := collegeError s;
     yearError := yearError s; domainError := domainError s |}.

Definition setEmail (f : string -> string) (s : RegisterState) : RegisterState :=
  {| step := step s; name := name s; email := f (email s); password := password s;
     confirmPassword := confirmPassword s; institutionType := institutionType s;
     college := college s; collegeQuery := collegeQuery s; year := year s; domain := domain s;
     role := role s; loading := loading s; showDropdown := showDropdown s;
     nameError := nameError s; emailError := emailError s; passwordError := passwordError s;
     confirmPasswordError := confirmPasswordError s; collegeError := collegeError s;
     yearError := yearError s; domainError := domainError s |}.

Definition setPassword (f : string -> string) (s : RegisterState) : RegisterState :=
  {| step := step s; name := name s; email := email s; password := f (password s);
     confirmPassword := confirmPassword s; institutionType := institutionType s;
     college := college s; collegeQuery := collegeQuery s; year := year s; domain := domain s;
     role := role s; loading := loading s; showDropdown := showDropdown s;
     nameError := nameError s; emailError := emailError s; passwordError := passwordError s;
     confirmPasswordError := confirmPasswordError s; collegeError := collegeError s;
     yearError := yearError s; domainError := domainError s |}.

Definition setConfirmPassword (f : string -> string) (s : RegisterState) : RegisterState :=
  {| step := step s; name := name s; email := email s; password := password s;
     confirmPassword := f (confirmPassword s); institutionType := institutionType s;
     college := college s; collegeQuery := collegeQuery s; year := year s; domain := domain s;
     role := role s; loading := loading s; showDropdown := showDropdown s;
     nameError := nameError s; emailError := emailError s; passwordError := passwordError s;
     confirmPasswordError := confirmPasswordError s; collegeError := collegeError s;
     yearError := yearError s; domainError := domainError s |}.

Definition setInstitutionType (f : string -> string) (s : RegisterState) : RegisterState :=
  {| step := step s; name := name s; email := email s; password := password s;
     confirmPassword := confirmPassword s; institutionType := f (institutionType s);
     college := college s; collegeQuery := collegeQuery s; year := year s; domain := domain s;
     role := role s; loading := loading s; showDropdown := showDropdown s;
     nameError := nameError s; emailError := emailError s; passwordError := passwordError s;
     confirmPasswordError := confirmPasswordError s; collegeError := collegeError s;
     yearError := yearError s; domainError := domainError s |}.

Definition setCollege (f : string -> string) (s : RegisterState) : RegisterState :=
  {| step := step s; name := name s; email := email s; password := password s;
     confirmPassword := confirmPassword s; institutionType := institutionType s;
     college := f (college s); collegeQuery := collegeQuery s; year := year s;
     domain := domain s; role := role s; loading := loading s; showDropdown := showDropdown s;
     nameError := nameError s; emailError := emailError s; passwordError := passwordError s;
     confirmPasswordError := confirmPasswordError s; collegeError := collegeError s;
     yearError := yearError s; domainError := domainError s |}.

Definition setCollegeQuery (f : string -> string) (s : RegisterState) : RegisterState :=
  {| step := step s; name := name s; email := email s; password := password s;
     confirmPassword := confirmPassword s; institutionType := institutionType s;
     college := college s; collegeQuery := f (collegeQuery s); year := year s;
     domain := domain s; role := role s; loading := loading s; showDropdown := showDropdown s;
     nameError := nameError s; emailError := emailError s; passwordError := passwordError s;
     confirmPasswordError := confirmPasswordError s; collegeError := collegeError s;
     yearError := yearError s; domainError := domainError s |}.

Definition setYear (f : string -> string) (s : RegisterState) : RegisterState :=
  {| step := step s; name := name s; email := email s; password := password s;
     confirmPassword := confirmPassword s; institutionType := institutionType s;
     college := college s; collegeQuery := collegeQuery s; year := f (year s);
     domain := domain s; role := role s; loading := loading s; showDropdown := showDropdown s;
     nameError := nameError s; emailError := emailError s; passwordError := passwordError s;
     confirmPasswordError := confirmPasswordError s; collegeError := collegeError s;
     yearError := yearError s; domainError := domainError s |}.

Definition setDomain (f : string -> string) (s : RegisterState) : RegisterState :=
  {| step := step s; name := name s; email := email s; password := password s;
     confirmPassword := confirmPassword s; institutionType := institutionType s;
     college := college s; collegeQuery := collegeQuery s; year := year s;
     domain := f (domain s); role := role s; loading := loading s;
     showDropdown := showDropdown s; nameError := nameError s; emailError := emailError s;
     passwordError := passwordError s; confirmPasswordError := confirmPasswordError s;
     collegeError := collegeError s; yearError := yearError s; domainError := domainError s |}.

Definition setRole (f : Auth.Role -> Auth.Role) (s : RegisterState) : RegisterState :=
  {| step := step s; name := name s; email := email s; password := password s;
     confirmPassword := confirmPassword s; institutionType := institutionType s;
     college := college s; collegeQuery := collegeQuery s; year := year s; domain := domain s;
     role := f (role s); loading := loading s; showDropdown := showDropdown s;
     nameError := nameError s; emailError := emailError s; passwordError := passwordError s;
     confirmPasswordError := confirmPasswordError s; collegeError := collegeError s;
     yearError := yearError s; domainError := domainError s |}.

Definition setLoading (f : bool -> bool) (s : RegisterState) : RegisterState :=
  {| step := step s; name := name s; email := email s; password := password s;
     confirmPassword := confirmPassword s; institutionType := institutionType s;
     college := college s; collegeQuery := collegeQuery s; year := year s; domain := domain s;
     role := role s; loading := f (loading s); showDropdown := showDropdown s;
     nameError := nameError s; emailError := emailError s; passwordError := passwordError s;
     confirmPasswordError := confirmPasswordError s; collegeError := collegeError s;
     yearError := yearError s; domainError := domainError s |}.

Definition setShowDropdown (f : bool -> bool) (s : RegisterState) : RegisterState :=
  {| step := step s; name := name s; email := email s; password := password s;
     confirmPassword := confirmPassword s; institutionType := institutionType s;
     college := college s; collegeQuery := collegeQuery s; year := year s; domain := domain s;
     role := role s; loading := loading s; showDropdown := f (showDropdown s);
     nameError := nameError s; emailError := emailError s; passwordError := passwordError s;
     confirmPasswordError := confirmPasswordError s; collegeError := collegeError s;
     yearError := yearError s; domainError := domainError s |}.

Definition setNameError (f : string -> string) (s : RegisterState) : RegisterState :=
  {| step := step s; name := name s; email := email s; password := password s;
     confirmPassword := confirmPassword s; institutionType := institutionType s;
     college := college s; collegeQuery := collegeQuery s; year := year s; domain := domain s;
     role := role s; loading := loading s; showDropdown := showDropdown s;
     nameError := f (nameError s); emailError := emailError s;
     passwordError := passwordError s; confirmPasswordError := confirmPasswordError s;
     collegeError := collegeError s; yearError := yearError s; domainError := domainError s |}.

Definition setEmailError (f : string -> string) (s : RegisterState) : RegisterState :=
  {| step := step s; name := name s; email := email s; password := password s;
     confirmPassword := confirmPassword s; institutionType := institutionType s;
     college := college s; collegeQuery := collegeQuery s; year := year s; domain := domain s;
     role := role s; loading := loading s; showDropdown := showDropdown s;
     nameError := nameError s; emailError := f (emailError s);
     passwordError := passwordError s; confirmPasswordError := confirmPasswordError s;
     collegeError := collegeError s; yearError := yearError s; domainError := domainError s |}.

Definition setPasswordError (f : string -> string) (s : RegisterState) : RegisterState :=
  {| step := step s; name := name s; email := email s; password := password s;
     confirmPassword := confirmPassword s; institutionType := institutionType s;
     college := college s; collegeQuery := collegeQuery s; year := year s; domain := domain s;
     role := role s; loading := loading s; showDropdown := showDropdown s;
     nameError := nameError s; emailError := emailError s;
     passwordError := f (passwordError s); confirmPasswordError := confirmPasswordError s;
     collegeError := collegeError s; yearError := yearError s; domainError := domainError s |}.

Definition setConfirmPasswordError (f : string -> string) (s : RegisterState) : RegisterState :=
  {| step := step s; name := name s; email := email s; password := password s;
     confirmPassword := confirmPassword s; institutionType := institutionType s;
     college := college s; collegeQuery := collegeQuery s; year := year s; domain := domain s;
     role := role s; loading := loading s; showDropdown := showDropdown s;
     nameError := nameError s; emailError := emailError s; passwordError := passwordError s;
     confirmPasswordError := f (confirmPasswordError s); collegeError := collegeError s;
     yearError := yearError s; domainError := domainError s |}.

Definition setCollegeError (f : string -> string) (s : RegisterState) : RegisterState :=
  {| step := step s; name := name s; email := email s; password := password s;
     confirmPassword := confirmPassword s; institutionType := institutionType s;
     college := college s; collegeQuery := collegeQuery s; year := year s; domain := domain s;
     role := role s; loading := loading s; showDropdown := showDropdown s;
     nameError := nameError s; emailError := emailError s; passwordError := passwordError s;
     confirmPasswordError := confirmPasswordError s; collegeError := f (collegeError s);
     yearError := yearError s; domainError := domainError s |}.

Definition setYearError (f : string -> string) (s : RegisterState) : RegisterState :=
  {| step := step s; name := name s; email := email s; password := password s;
     confirmPassword := confirmPassword s; institutionType := institutionType s;
     college := college s; collegeQuery := collegeQuery s; year := year s; domain := domain s;
     role := role s; loading := loading s; showDropdown := showDropdown s;
     nameError := nameError s; emailError := emailError s; passwordError := passwordError s;
     confirmPasswordError := confirmPasswordError s; collegeError := collegeError s;
     yearError := f (yearError s); domainError := domainError s |}.

Definition setDomainError (f : string -> string) (s : RegisterState) : RegisterState :=
  {| step := step s; name := name s; email := email s; password := password s;
     confirmPassword := confirmPassword s; institutionType := institutionType s;
     college := college s; collegeQuery := collegeQuery s; year := year s; domain := domain s;
     role := role s; loading := loading s; showDropdown := showDropdown s;
     nameError := nameError s; emailError := emailError s; passwordError := passwordError s;
     confirmPasswordError := confirmPasswordError s; collegeError := collegeError s;
     yearError := yearError s; domainError := f (domainError s) |}.

Definition const {A : Type} (v : A) : A -> A := fun _ => v.

Definition initialState : RegisterState :=
  {| step := 1; name := ""; email := ""; password := ""; confirmPassword := "";
     institutionType := "University"; college := ""; collegeQuery := ""; year := "";
     domain := ""; role := Auth.student; loading := false; showDropdown := false;
     nameError := ""; emailError := ""; passwordError := ""; confirmPasswordError := "";
     collegeError := ""; yearError := ""; domainError := "" |}.

(** The payload of [registerUser]. *)
Record Registration : Type := {
  r_name : string;
  r_email : string;
  r_password : string;
  r_domain : string;
  r_college : string;
  r_year : string;
  r_role : Auth.Role
}.

(** What the success path leaves for later: the second toast after one
    second, the move to the login page a second and a half after it. *)
Inductive Timer : Type :=
| RedirectNotice
| GoToLogin.

Inductive Toast : Type :=
| Success (msg : string)
| Failure (body : Js.Json).

Record World : Type := {
  form : RegisterState;
  toasts : list Toast;
  requests : list Registration;
  awaiting : nat;
  timers : list Timer;
  location : option string
}.

Definition initial : World :=
  {| form := initialState; toasts := []; requests := []; awaiting := 0%nat;
     timers := []; location := None |}.

Definition onForm (f : RegisterState -> RegisterState) (w : World) : World :=
  {| form := f (form w); toasts := toasts w; requests := requests w;
     awaiting := awaiting w; timers := timers w; location := location w |}.

(** [validateStep1]: the cells it writes, and what it returns. *)
Definition validateStep1 (snap s : RegisterState) : RegisterState * bool :=
  let nameVal := NameValidation.validateName (name snap) in
  let emailVal := Validation.validateEmail (email snap) in
  let passwordVal := Validation.validatePassword (password snap) in
  let confirmVal := Validation.validateConfirmPassword (password snap) (confirmPassword snap) in
  (setConfirmPasswordError (const (Forms.fieldError confirmVal))
     (setPasswordError (const (Forms.fieldError passwordVal))
        (setEmailError (const (Forms.fieldError emailVal))
           (setNameError (const (Forms.fieldError nameVal)) s))),
   Validation.valid nameVal && Validation.valid emailVal &&
   Validation.valid passwordVal && Validation.valid confirmVal).

Definition validateStep2 (snap s : RegisterState) : RegisterState * bool :=
  if negb (Js.truthy (Forms.trim (college snap)))
  then (setCollegeError (const "Institution is required") s, false)
  else if negb (Js.truthy (year snap))
  then (setYearError (const "Graduation year is required") (setCollegeError (const "") s), false)
  else (setYearError (const "") (setCollegeError (const "") s), true).

Definition validateStep3 (snap s : RegisterState) : RegisterState * bool :=
  if negb (Js.truthy (domain snap))
  then (setDomainError (const "Please select a domain") s, false)
  else (setDomainError (const "") s, true).

Definition handleNameChange (value : string) (s : RegisterState) : RegisterState :=
  setNameError (const (Forms.liveError NameValidation.validateName value))
    (setName (const value) s).

Definition handleEmailChange (value : string) (s : RegisterState) : RegisterState :=
  setEmailError (const (Forms.liveError Validation.validateEmail value))
    (setEmail (const value) s).

Definition handlePasswordChange (snap : RegisterState) (value : string) (s : RegisterState)
  : RegisterState :=
  let s1 :=
    setPasswordError (const (Forms.liveError Validation.validatePassword value))
      (setPassword (const value) s) in
  if Js.truthy (confirmPassword snap)
  then setConfirmPasswordError
         (const (Forms.fieldError
                   (Validation.validateConfirmPassword value (confirmPassword snap)))) s1
  else s1.

Definition handleConfirmPasswordChange (snap : RegisterState) (value : string)
    (s : RegisterState) : RegisterState :=
  setConfirmPasswordError
    (const (Forms.liveError (Validation.validateConfirmPassword (password snap)) value))
    (setConfirmPassword (const value) s).

(** The [onChange] of the institution field. *)
Definition handleCollegeInput (value : string) (s : RegisterState) : RegisterState :=
  setCollege (const value) (setShowDropdown (const true) (setCollegeQuery (const value) s)).

Definition handleCollegeSelect (uniName : string) (s : RegisterState) : RegisterState :=
  setCollegeError (const "")
    (setShowDropdown (const false)
       (setCollegeQuery (const uniName) (setCollege (const uniName) s))).

(** The [onChange] of the year field. *)
Definition handleYearChange (value : string) (s : RegisterState) : RegisterState :=
  setYearError (const "") (setYear (const value) s).

(** The [onClick] of a domain tile. *)
Definition handleDomainPick (d : string) (s : RegisterState) : RegisterState :=
  setDomainError (const "") (setDomain (const d) s).

(** The [onClick] of the two Next buttons. *)
Definition next1 (snap : RegisterState) (s : RegisterState) : RegisterState :=
  let '(s1, passed) := validateStep1 snap s in
  if passed then setStep (const 2) s1 else s1.

Definition next2 (snap : RegisterState) (s : RegisterState) : RegisterState :=
  let '(s1, passed) := validateStep2 snap s in
  if passed then setStep (const 3) s1 else s1.

(** [handleSubmit] up to its [await registerUser(...)]. *)
Definition handleSubmit (snap : RegisterState) (w : World) : World :=
  let '(s1, passed) := validateStep3 snap (form w) in
  if negb passed
  then {| form := s1; toasts := toasts w; requests := requests w;
          awaiting := awaiting w; timers := timers w; location := location w |}
  else
    {| form := setLoading (const true) s1;
       toasts := toasts w;
       requests := requests w ++ [{| r_name := name snap; r_email := email snap;
                                     r_password := password snap; r_domain := domain snap;
                                     r_college := college snap; r_year := year snap;
                                     r_role := role snap |}];
       awaiting := S (awaiting w);
       timers := timers w; location := location w |}.

(** The rest of [handleSubmit]: the request succeeded, or it failed. *)
Definition registered (w : World) : World :=
  {| form := setLoading (const false) (form w);
     toasts := toasts w ++ [Success "Registration successful!"];
     requests := requests w;
     awaiting := Nat.pred (awaiting w);
     timers := timers w ++ [RedirectNotice];
     location := location w |}.

Definition registrationFailed (e : Forms.CaughtError) (w : World) : World :=
  {| form := setLoading (const false) (form w);
     toasts := toasts w ++ [Failure (Forms.describe e "Registration failed")];
     requests := requests w;
     awaiting := Nat.pred (awaiting w);
     timers := timers w;
     location := location w |}.

Definition fire (t : Timer) (w : World) : World :=
  match t with
  | RedirectNotice =>
      {| form := form w; toasts := toasts w ++ [Success "Redirecting to login..."];
         requests := requests w; awaiting := awaiting w;
         timers := timers w ++ [GoToLogin]; location := location w |}
  | GoToLogin =>
      {| form := form w; toasts := toasts w; requests := requests w;
         awaiting := awaiting w; timers := timers w; location := Some "/login" |}
  end.

(** What the user, the network and the timers can do.  The controls of a
    step exist only while that step is rendered. *)
Inductive Event : Type :=
| NameChange (value : string)
| EmailChange (value : string)
| PasswordChange (value : string)
| ConfirmPasswordChange (value : string)
| Next1
| InstitutionTypeChange (value : string)
| CollegeInput (value : string)
| CollegeFocus
| CollegeSelect (uniName : string)
| ClickOutside
| YearChange (value : string)
| Back2
| Next2
| DomainPick (d : string)
| RolePick (r : Auth.Role)
| Back3
| Submit
| Registered
| RegistrationFailed (e : Forms.CaughtError)
| TimerFires (i : nat).

Definition onStep (n : Z) (w : World) (w' : World) : option World :=
  if step (form w) =? n then Some w' else None.

Definition dropTimer (i : nat) (w : World) : World :=
  {| form := form w; toasts := toasts w; requests := requests w;
     awaiting := awaiting w; timers := delete i (timers w); location := location w |}.

Definition react (e : Event) (w : World) : option World :=
  let s := form w in
  match e with
  | NameChange value => onStep 1 w (onForm (handleNameChange value) w)
  | EmailChange value => onStep 1 w (onForm (handleEmailChange value) w)
  | PasswordChange value => onStep 1 w (onForm (handlePasswordChange s value) w)
  | ConfirmPasswordChange value => onStep 1 w (onForm (handleConfirmPasswordChange s value) w)
  | Next1 => onStep 1 w (onForm (next1 s) w)
  | InstitutionTypeChange value => onStep 2 w (onForm (setInstitutionType (const value)) w)
  | CollegeInput value => onStep 2 w (onForm (handleCollegeInput value) w)
  | CollegeFocus =>
      onStep 2 w (onForm (setShowDropdown
                            (const (2 <=? String.length (collegeQuery s))%nat)) w)
  | CollegeSelect uniName =>
      if showDropdown s && (2 <=? String.length (collegeQuery s))%nat
      then onStep 2 w (onForm (handleCollegeSelect uniName) w)
      else None
  | ClickOutside =>
      if (step s =? 2) && showDropdown s && (2 <=? String.length (collegeQuery s))%nat
      then Some (onForm (setShowDropdown (const false)) w)
      else Some w
  | YearChange value => onStep 2 w (onForm (handleYearChange value) w)
  | Back2 => onStep 2 w (onForm (setStep (const 1)) w)
  | Next2 => onStep 2 w (onForm (next2 s) w)
  | DomainPick d =>
      if bool_decide (d ∈ DOMAINS) then onStep 3 w (onForm (handleDomainPick d) w) else None
  | RolePick r => onStep 3 w (onForm (setRole (const r)) w)
  | Back3 => onStep 3 w (onForm (setStep (const 2)) w)
  | Submit =>
      if negb (loading s) && Js.truthy (domain s)
      then onStep 3 w (handleSubmit s w)
      else None
  | Registered => if (0 <? awaiting w)%nat then Some (registered w) else None
  | RegistrationFailed e =>
      if (0 <? awaiting w)%nat then Some (registrationFailed e w) else None
  | TimerFires i =>
      match timers w !! i with
      | Some t => Some (fire t (dropTimer i w))
      | None => None
      end
  end.

Fixpoint run (events : list Event) (w : World) : option World :=
  match events with
  | [] => Some w
  | e :: rest =>
      match react e w with
      | Some w' => run rest w'
      | None => None
      end
  end.

End Register.
(* ===================================================================== *)
(** * The session: store creation, the request interceptor, the route guards *)
(* ===================================================================== *)

Module Session.

(** Truthiness of [string | null], and the value a truthy one has. *)
Definition truthyOpt (o : option string) : bool :=
  match o with
  | Some s => Js.truthy s
  | None => false
  end.

Definition effective (o : option string) : option string :=
  if truthyOpt o then o else None.

(** [typeof window !== 'undefined' ? localStorage.getItem('gg_token') : null] *)
Definition initialToken (w : option Auth.Window) : option string :=
  match w with
  | Some b => Auth.localStorage b !! "gg_token"
  | None => None
  end.

Section Json.

(** [JSON.parse] and [JSON.stringify] on users; [JSON_parse] gives [None]
    where [JSON.parse] throws and [Some None] for the text [null]. *)
Variable JSON_parse : string -> option (option Auth.User).
Variable JSON_stringify : Auth.User -> string.

(** [JSON.parse(localStorage.getItem('gg_user') || 'null')] *)
Definition initialUser (w : option Auth.Window) : option (option Auth.User) :=
  match w with
  | Some b =>
      match Auth.localStorage b !! "gg_user" with
      | Some text => if Js.truthy text then JSON_parse text else JSON_parse "null"
      | None => JSON_parse "null"
      end
  | None => Some None
  end.

(** The initial state of the store; [None] when the module fails to load. *)
Definition create (w : option Auth.Window) : option Auth.AuthState :=
  match initialUser w with
  | Some u => Some {| Auth.token := initialToken w; Auth.user := u |}
  | None => None
  end.

Definition setUser (u : option Auth.User) (rt : Auth.Runtime) : Auth.Runtime :=
  let rt1 :=
    match u with
    | Some v => Auth.withStorage (insert "gg_user" (JSON_stringify v)) rt
    | None => Auth.withStorage (delete "gg_user") rt
    end in
  {| Auth.window := Auth.window rt1;
     Auth.auth := {| Auth.token := Auth.token (Auth.auth rt1); Auth.user := u |} |}.

(** What can happen to the session: the setters of the store, and a failed
    response passing through the response interceptor. *)
Inductive Op : Type :=
| SetToken (t : option string)
| SetUser (u : option Auth.User)
| Logout
| ResponseError (err : Api.AxiosError).

Definition apply (op : Op) (rt : Auth.Runtime) : Auth.Runtime :=
  match op with
  | SetToken t => Auth.setToken t rt
  | SetUser u => setUser u rt
  | Logout => Auth.logout rt
  | ResponseError err =>
      Api.runtime (fst (Api.onRejected err {| Api.runtime := rt; Api.console := [] |}))
  end.

Definition applyAll (ops : list Op) (rt : Auth.Runtime) : Auth.Runtime :=
  fold_left (fun acc op => apply op acc) ops rt.

End Json.

(** The part of an axios request configuration the interceptor touches. *)
Record RequestConfig : Type := {
  url : string;
  headers : option (gmap string string)
}.

(** [api.interceptors.request.use((config) => ...)] *)
Definition onRequest (token : option string) (config : RequestConfig) : RequestConfig :=
  match token with
  | Some t =>
      if Js.truthy t then
        {| url := url config;
           headers := Some (<["Authorization" := "Bearer " +:+ t]>
                              (default ∅ (headers config))) |}
      else config
  | None => config
  end.

(** The token in the store and the token in the storage of the tab agree. *)
Definition inSync (rt : Auth.Runtime) : Prop :=
  exists w, Auth.window rt = Some w /\
            effective (Auth.token (Auth.auth rt)) =
            effective (Auth.localStorage w !! "gg_token").

(** What a route guard renders. *)
Inductive Element : Type :=
| Navigate (to : string) (from : option string)
| Children.

(** [components/PrivateRoute.tsx] and [components/Protected.tsx] *)
Definition PrivateRoute (token : option string) (location : string) : Element :=
  if negb (truthyOpt token) then Navigate "/login" (Some location) else Children.

Definition Protected (token : option string) : Element :=
  if negb (truthyOpt token) then Navigate "/auth" None else Children.

End Session.

(* ===================================================================== *)
(** * Predicates on the books of the quiz page *)
(* ===================================================================== *)

Module Books.

(** The time spent as the page adds it up: one binary64 addition for each
    response, in the order of the responses. *)
Definition sumTimes (rs : list Quiz.QuizResponse) : F64.double :=
  fold_left (fun acc r => F64.add acc (Quiz.timeTaken r)) rs F64.zero.

Definition countCorrect (rs : list Quiz.QuizResponse) : Z :=
  Z.of_nat (length (List.filter Quiz.isCorrect rs)).

(** A timed-out response has no selection and is wrong; the time of an
    answer the user locked is never below one second. *)
Definition responseSane (r : Quiz.QuizResponse) : Prop :=
  (Quiz.timedOut r = true -> Quiz.selected r = -1 /\ Quiz.isCorrect r = false) /\
  (Quiz.timedOut r = false -> F64.ltb (Quiz.timeTaken r) F64.one = false).

(** The counters of the page agree with the recorded responses. *)
Record balanced (s : Quiz.QuizState) : Prop := {
  bal_ids : NoDup (Quiz.responseIds s);
  bal_correct : Quiz.correctCount s = countCorrect (Quiz.responses s);
  bal_time : Quiz.totalTimeSpent s = sumTimes (Quiz.responses s);
  bal_streak : 0 <= Quiz.currentStreak s <= Quiz.maxStreakLive s;
  bal_sane : Forall responseSane (Quiz.responses s)
}.

(** A payload agrees with the responses it carries. *)
Record payloadBalanced (p : Quiz.Payload) : Prop := {
  pb_ids : NoDup (Quiz.p_id <$> Quiz.p_responses p);
  pb_score :
    Quiz.p_score p =
      Quiz.percentage (fold_right (fun r acc => Quiz.p_correct r + acc) 0 (Quiz.p_responses p))
                      (Quiz.p_total_questions p)
}.

Record audited (w : Quiz.World) : Prop := {
  aud_state : balanced (Quiz.state w);
  aud_advance : Forall balanced (Quiz.pendingAdvance w);
  aud_requests : Forall payloadBalanced (Quiz.requests w)
}.

(** A whole number of seconds, small enough to be counted exactly. *)
Definition wholeSeconds (x : F64.double) : Prop :=
  exists k : Z, 0 <= k < 2 ^ 53 /\ x = F64.Finite (inject_Z k).

(** The server allows a whole number of seconds for each question. *)
Definition wholeSecondEvent (e : Quiz.Event) : Prop :=
  match e with
  | Quiz.QuizLoaded data =>
      match Quiz.time_per_question data with
      | Some t => wholeSeconds t
      | None => True
      end
  | _ => True
  end.

(** The seconds a payload reports for a response or for the whole quiz. *)
Definition reported (n : Js.number) : Z :=
  match n with
  | Js.Num z => z
  | _ => 0
  end.

Definition reportedSum (rs : list Quiz.PayloadResponse) : Z :=
  fold_right (fun r acc => reported (Quiz.p_time_taken r) + acc) 0 rs.

(** The times of a payload add up. *)
Definition timesAddUp (p : Quiz.Payload) : Prop :=
  Forall (fun r => exists k, 0 <= k /\ Quiz.p_time_taken r = Js.Num k) (Quiz.p_responses p) /\
  (reportedSum (Quiz.p_responses p) < 2 ^ 53 ->
   Quiz.p_total_time_taken p = Js.Num (reportedSum (Quiz.p_responses p))).

(** The seconds of a recorded response, when they are whole. *)
Definition seconds (x : F64.double) : Z :=
  match x with
  | F64.Finite q => Qfloor q
  | _ => 0
  end.

Definition exactSum (rs : list Quiz.QuizResponse) : Z :=
  fold_right (fun r acc => seconds (Quiz.timeTaken r) + acc) 0 rs.

(** Every clock of the page shows whole seconds. *)
Record clocked (s : Quiz.QuizState) : Prop := {
  clk_left : wholeSeconds (Quiz.questionTimeLeft s);
  clk_window : wholeSeconds (Quiz.totalWindowOf s);
  clk_taken : Forall (fun r => wholeSeconds (Quiz.timeTaken r)) (Quiz.responses s);
  clk_total :
    exactSum (Quiz.responses s) < 2 ^ 53 ->
    Quiz.totalTimeSpent s = F64.Finite (inject_Z (exactSum (Quiz.responses s)))
}.

Record timed (w : Quiz.World) : Prop := {
  tm_state : clocked (Quiz.state w);
  tm_advance : Forall clocked (Quiz.pendingAdvance w);
  tm_requests : Forall timesAddUp (Quiz.requests w)
}.

End Books.

(* ===================================================================== *)
(** * Predicates on the registration form *)
(* ===================================================================== *)

Module Wizard.

(** The fields of the first step pass their validators. *)
Definition step1Valid (name email password : string) : Prop :=
  NameValidation.validateName name = Validation.ok /\
  Validation.validateEmail email = Validation.ok /\
  Validation.validatePassword password = Validation.ok.

(** The fields of the second step are filled in. *)
Definition step2Valid (college year : string) : Prop :=
  Forms.trim college <> EmptyString /\ year <> EmptyString.

Definition registrationValid (r : Register.Registration) : Prop :=
  step1Valid (Register.r_name r) (Register.r_email r) (Register.r_password r) /\
  step2Valid (Register.r_college r) (Register.r_year r) /\
  Register.r_domain r ∈ Register.DOMAINS.

Record guarded (w : Register.World) : Prop := {
  g_step : 1 <= Register.step (Register.form w) <= 3;
  g_first :
    2 <= Register.step (Register.form w) ->
    step1Valid (Register.name (Register.form w)) (Register.email (Register.form w))
               (Register.password (Register.form w)) /\
    Register.confirmPassword (Register.form w) = Register.password (Register.form w);
  g_second :
    Register.step (Register.form w) = 3 ->
    step2Valid (Register.college (Register.form w)) (Register.year (Register.form w));
  g_domain :
    Register.domain (Register.form w) = EmptyString \/
    Register.domain (Register.form w) ∈ Register.DOMAINS;
  g_requests : Forall registrationValid (Register.requests w)
}.

End Wizard.

(* ===================================================================== *)
(** * More sample inputs *)
(* ===================================================================== *)

Module Walkthrough.

(** A visitor fills in the three steps of the registration form. *)
Definition signUp : list Register.Event :=
  [Register.NameChange "Asha Rao";
   Register.EmailChange "asha@example.com";
   Register.PasswordChange "Abcdef1!";
   Register.ConfirmPasswordChange "Abcdef1!";
   Register.Next1;
   Register.CollegeInput "Delhi University";
   Register.YearChange "2027";
   Register.Next2;
   Register.DomainPick "IoT";
   Register.Submit].

Definition signedUp : Register.World :=
  default Register.initial (Register.run signUp Register.initial).

(** The same visitor signs in. *)
Definition signIn : list Login.Event :=
  [Login.EmailChange "asha@example.com"; Login.PasswordChange "Abcdef1!"; Login.SubmitForm].

(** A user object as the profile endpoint returns it. *)
Definition asha : Auth.User :=
  {| Auth.id := 7; Auth.name := "Asha"; Auth.email := "asha@example.com";
     Auth.domain := None; Auth.role := Some Auth.student; Auth.gpa := None;
     Auth.experience_years := None; Auth.demographic_group := None |}.

(** A tab whose storage holds a token and nothing else. *)
Definition returningTab : Auth.Window :=
  {| Auth.localStorage := <["gg_token" := "abc"]> ∅;
     Auth.location_href := "/dashboard" |}.

(** Stand-ins for [JSON.parse] and [JSON.stringify] on users: only the text
    [null] and the text that stands for [asha] are understood. *)
Definition parseUser (text : string) : option (option Auth.User) :=
  if String.eqb text "null" then Some None
  else if String.eqb text "<asha>" then Some (Some asha)
  else None.

Definition printUser (u : Auth.User) : string := "<asha>".

(** A quiz of two questions, one second for each, loaded and counting. *)
Definition secondQuestion : Quiz.QuizQuestion :=
  {| Quiz.id := "q2"; Quiz.question := "3 * 3 ?"; Quiz.options := ["6"; "9"];
     Quiz.answer := 1; Quiz.explanation := "Multiplication."; Quiz.skill := None |}.

Definition twoQuestionQuiz : Quiz.QuizData :=
  {| Quiz.items := Some [Samples.onlyQuestion; secondQuestion];
     Quiz.time_per_question := Some F64.one;
     Quiz.meta_points_per_correct := None; Quiz.total_available := None |}.

(** Three questions with a second and a half for each. *)
Definition thirdQuestion : Quiz.QuizQuestion :=
  {| Quiz.id := "q3"; Quiz.question := "7 - 2 ?"; Quiz.options := ["4"; "5"];
     Quiz.answer := 1; Quiz.explanation := "Subtraction."; Quiz.skill := None |}.

Definition hurriedQuiz : Quiz.QuizData :=
  {| Quiz.items := Some [Samples.onlyQuestion; secondQuestion; thirdQuestion];
     Quiz.time_per_question := Some (F64.Finite (3 # 2));
     Quiz.meta_points_per_correct := None; Quiz.total_available := None |}.

(** The first two questions run out of time, the third is answered at once. *)
Definition hurriedRun : list Quiz.Event :=
  [Quiz.LoadQuiz; Quiz.QuizLoaded hurriedQuiz; Quiz.CountdownEffect;
   Quiz.Tick; Quiz.Tick; Quiz.TimeoutFires 0; Quiz.CountdownEffect;
   Quiz.Tick; Quiz.Tick; Quiz.TimeoutFires 0; Quiz.CountdownEffect;
   Quiz.SelectOption 1; Quiz.SubmitAnswer; Quiz.NextQuestion].

Definition loadedPair : Quiz.World :=
  default (Quiz.initial "Web Development")
    (Quiz.run [Quiz.LoadQuiz; Quiz.QuizLoaded twoQuestionQuiz; Quiz.CountdownEffect]
              (Quiz.initial "Web Development")).

End Walkthrough.
(* ===================================================================== *)
(** * Properties *)
(* ===================================================================== *)

(** ** validation.ts *)

Example validateEmail_upper_tld :
  Validation.validateEmail "a@b.COM" = Validation.invalid "Email must end with .com or .in".
Proof. vm_compute. reflexivity. Qed.

Example validatePassword_strong :
  Validation.validatePassword "Abcdef1!" = Validation.ok.
Proof. vm_compute. reflexivity. Qed.

Example validatePassword_no_digit :
  Validation.valid (Validation.validatePassword "Abcdefg!") = false.
Proof. vm_compute. reflexivity. Qed.

(** C7: [validateEmail('a@b.com')] is valid and carries no message. *)
Theorem validateEmail_a_at_b_com :
  Validation.validateEmail "a@b.com" = {| Validation.valid := true; Validation.message := None |}.
Proof. vm_compute. reflexivity. Qed.

Lemma truthy_nonempty (s : string) : s <> EmptyString -> Js.truthy s = true.
Proof. destruct s; [congruence | reflexivity]. Qed.

Lemma emailRegex_rejects_empty : Regex.test Validation.emailRegex EmptyString = false.
Proof. vm_compute. reflexivity. Qed.

(** C8: an address that matches the general e-mail pattern but ends neither
    in [.com] nor in [.in] is refused with the message about the ending. *)
Theorem validateEmail_requires_com_or_in (email : string) :
  Regex.test Validation.emailRegex email = true ->
  Js.endsWith email ".com" = false ->
  Js.endsWith email ".in" = false ->
  Validation.validateEmail email =
    {| Validation.valid := false;
       Validation.message := Some "Email must end with .com or .in" |}.
Proof.
  intros Hre Hcom Hin. unfold Validation.validateEmail.
  destruct email as [|c rest].
  - rewrite emailRegex_rejects_empty in Hre. discriminate.
  - cbn [Js.truthy negb]. rewrite Hre, Hcom, Hin. reflexivity.
Qed.

Lemma validateEmail_requires_com_or_in_witness :
  Validation.validateEmail "a@b.org" =
    {| Validation.valid := false;
       Validation.message := Some "Email must end with .com or .in" |}.
Proof.
  apply (validateEmail_requires_com_or_in "a@b.org"); vm_compute; reflexivity.
Defined.

(** C6: a password that is not empty and has fewer than eight characters is
    refused with the message about the minimum length; ['short'] is one. *)
Theorem validatePassword_short (password : string) :
  password <> EmptyString ->
  (String.length password < 8)%nat ->
  Validation.validatePassword password =
    {| Validation.valid := false;
       Validation.message := Some "Password must be at least 8 characters" |}.
Proof.
  intros Hne Hlen. unfold Validation.validatePassword.
  rewrite (truthy_nonempty _ Hne). cbn [negb].
  destruct (Nat.ltb_spec (String.length password) 8) as [_|Hge]; [reflexivity | lia].
Qed.

Lemma validatePassword_short_witness :
  Validation.validatePassword "short" =
    {| Validation.valid := false;
       Validation.message := Some "Password must be at least 8 characters" |}.
Proof.
  apply (validatePassword_short "short"); [discriminate | vm_compute; lia].
Defined.

(** C4, as the code has it: when the confirmation is not empty and equals the
    password, [validateConfirmPassword] is valid and carries no message. *)
Theorem validateConfirmPassword_same (password confirmPassword : string) :
  confirmPassword <> EmptyString ->
  password = confirmPassword ->
  Validation.validateConfirmPassword password confirmPassword =
    {| Validation.valid := true; Validation.message := None |}.
Proof.
  intros Hne ->. unfold Validation.validateConfirmPassword.
  rewrite (truthy_nonempty _ Hne), String.eqb_refl. reflexivity.
Qed.

Lemma validateConfirmPassword_same_witness :
  Validation.validateConfirmPassword "Abcdef1!" "Abcdef1!" =
    {| Validation.valid := true; Validation.message := None |}.
Proof.
  apply (validateConfirmPassword_same "Abcdef1!" "Abcdef1!"); [discriminate | reflexivity].
Defined.

(** C4 as stated fails at the empty string: the confirmation is asked for. *)
Lemma validateConfirmPassword_empty_invalid :
  Validation.validateConfirmPassword "" "" =
    {| Validation.valid := false;
       Validation.message := Some "Please confirm your password" |}.
Proof. reflexivity. Qed.

(** ** store/auth.ts and the response interceptor *)

Lemma logout_clears_session (rt : Auth.Runtime) :
  Auth.token (Auth.auth (Auth.logout rt)) = None /\
  Auth.user (Auth.auth (Auth.logout rt)) = None.
Proof. split; reflexivity. Qed.

(** C2: a 401 that reaches the response interceptor of a browser tab sets
    token and user to null, removes both entries from the storage (and no
    other), sends the tab to the login screen, and the error is still
    rejected to the caller. *)
Theorem interceptor_401_clears_session
    (err : Api.AxiosError) (c : Api.Client) (w : Auth.Window) :
  Api.status <$> Api.response err = Some 401 ->
  Auth.window (Api.runtime c) = Some w ->
  let c' := fst (Api.onRejected err c) in
  Auth.token (Auth.auth (Api.runtime c')) = None /\
  Auth.user (Auth.auth (Api.runtime c')) = None /\
  (exists w', Auth.window (Api.runtime c') = Some w' /\
     Auth.localStorage w' !! "gg_token" = None /\
     Auth.localStorage w' !! "gg_user" = None /\
     (forall k : string, k <> "gg_token" -> k <> "gg_user" ->
        Auth.localStorage w' !! k = Auth.localStorage w !! k) /\
     Auth.location_href w' = "/login") /\
  snd (Api.onRejected err c) = Js.Rejected err.
Proof.
  intros Hst Hwin. unfold Api.onRejected. cbn [fst snd Api.runtime].
  rewrite bool_decide_eq_true_2 by exact Hst.
  unfold Api.navigate, Auth.logout, Auth.withStorage. cbn.
  rewrite Hwin. cbn.
  repeat split.
  eexists. split; [reflexivity |]. cbn.
  split; [| split; [| split; [| reflexivity]]].
  - rewrite lookup_delete_ne by discriminate. apply lookup_delete_eq.
  - apply lookup_delete_eq.
  - intros k Ht Hu. rewrite !lookup_delete_ne by congruence. reflexivity.
Qed.

Lemma interceptor_401_clears_session_witness :
  let c' := fst (Api.onRejected Samples.unauthorized Samples.signedIn) in
  Auth.token (Auth.auth (Api.runtime c')) = None /\
  Auth.user (Auth.auth (Api.runtime c')) = None /\
  (exists w', Auth.window (Api.runtime c') = Some w' /\
     Auth.localStorage w' !! "gg_token" = None /\
     Auth.localStorage w' !! "gg_user" = None /\
     (forall k : string, k <> "gg_token" -> k <> "gg_user" ->
        Auth.localStorage w' !! k = Auth.localStorage Samples.tab !! k) /\
     Auth.location_href w' = "/login") /\
  snd (Api.onRejected Samples.unauthorized Samples.signedIn) = Js.Rejected Samples.unauthorized.
Proof.
  apply (interceptor_401_clears_session Samples.unauthorized Samples.signedIn Samples.tab);
    reflexivity.
Defined.

(** A status other than 401 leaves the session alone. *)
Lemma interceptor_other_status_keeps_session (err : Api.AxiosError) (c : Api.Client) :
  Api.status <$> Api.response err <> Some 401 ->
  Api.runtime (fst (Api.onRejected err c)) = Api.runtime c.
Proof.
  intros Hst. unfold Api.onRejected. cbn [fst Api.runtime].
  rewrite bool_decide_eq_false_2 by exact Hst. reflexivity.
Qed.

(** ** store/gamification.ts *)

Section ArrayFromSet.

Lemma setAdd_NoDup (seen : list string) (x : string) :
  NoDup seen -> NoDup (Js.setAdd seen x).
Proof.
  intros Hnd. unfold Js.setAdd. case_bool_decide as Hin; [exact Hnd |].
  apply NoDup_app. split; [exact Hnd |]. split.
  - intros y Hy Hy'. apply list_elem_of_singleton in Hy'. subst. contradiction.
  - apply NoDup_singleton.
Qed.

Lemma fold_setAdd_NoDup (xs seen : list string) :
  NoDup seen -> NoDup (fold_left Js.setAdd xs seen).
Proof.
  revert seen. induction xs as [|x xs IH]; intros seen Hnd; cbn; [exact Hnd |].
  apply IH, setAdd_NoDup, Hnd.
Qed.

Lemma arrayFromSet_NoDup (xs : list string) : NoDup (Js.arrayFromSet xs).
Proof. apply fold_setAdd_NoDup, NoDup_nil_2. Qed.

(** Adding values that the set already holds changes nothing. *)
Lemma fold_setAdd_absorb (xs seen : list string) :
  (forall x, x ∈ xs -> x ∈ seen) -> fold_left Js.setAdd xs seen = seen.
Proof.
  induction xs as [|x xs IH]; intros Hsub; cbn; [reflexivity |].
  unfold Js.setAdd at 2. rewrite bool_decide_eq_true_2.
  - apply IH. intros y Hy. apply Hsub. now right.
  - apply Hsub. now left.
Qed.

(** Adding pairwise distinct new values appends them in order. *)
Lemma fold_setAdd_fresh (xs seen : list string) :
  NoDup (seen ++ xs) -> fold_left Js.setAdd xs seen = seen ++ xs.
Proof.
  revert seen. induction xs as [|x xs IH]; intros seen Hnd; cbn.
  - now rewrite app_nil_r.
  - assert (Hx : x ∉ seen).
    { apply NoDup_app in Hnd as (_ & Hdisj & _). intros Hin.
      apply (Hdisj x Hin). now left. }
    unfold Js.setAdd at 2. rewrite bool_decide_eq_false_2 by exact Hx.
    replace (seen ++ x :: xs) with ((seen ++ [x]) ++ xs) in *
      by (now rewrite <- app_assoc).
    apply IH, Hnd.
Qed.

Lemma elem_of_fold_setAdd (xs seen : list string) (y : string) :
  y ∈ fold_left Js.setAdd xs seen <-> y ∈ seen \/ y ∈ xs.
Proof.
  revert seen. induction xs as [|x xs IH]; intros seen; cbn.
  - split; [now left | intros [H|H]; [exact H | inversion H]].
  - rewrite IH. unfold Js.setAdd. case_bool_decide as Hin.
    + rewrite elem_of_cons. split; [tauto |].
      intros [H|[->|H]]; tauto.
    + rewrite elem_of_app, list_elem_of_singleton, elem_of_cons. tauto.
Qed.

Lemma arrayFromSet_fixed (xs : list string) : NoDup xs -> Js.arrayFromSet xs = xs.
Proof. intros Hnd. unfold Js.arrayFromSet. now rewrite fold_setAdd_fresh. Qed.

Lemma arrayFromSet_absorb (xs ys : list string) :
  Js.arrayFromSet (Js.arrayFromSet (xs ++ ys) ++ ys) = Js.arrayFromSet (xs ++ ys).
Proof.
  unfold Js.arrayFromSet at 1. rewrite fold_left_app.
  fold (Js.arrayFromSet (Js.arrayFromSet (xs ++ ys))).
  rewrite (arrayFromSet_fixed _ (arrayFromSet_NoDup _)).
  apply fold_setAdd_absorb. intros y Hy.
  apply elem_of_fold_setAdd. right. apply elem_of_app. now right.
Qed.

End ArrayFromSet.

Example arrayFromSet_keeps_first :
  Js.arrayFromSet ["gold"; "silver"; "gold"; "bronze"; "silver"] = ["gold"; "silver"; "bronze"].
Proof. reflexivity. Qed.

Lemma dispatch_keeps_badges_distinct (a : Gamification.Action) (s : Gamification.GamificationState) :
  NoDup (Gamification.badges s) -> NoDup (Gamification.badges (Gamification.dispatch a s)).
Proof.
  intros Hnd. destruct a; cbn.
  - exact Hnd.
  - apply arrayFromSet_NoDup.
  - apply NoDup_nil_2.
Qed.

Lemma fold_dispatch_keeps_badges_distinct
    (actions : list Gamification.Action) (s : Gamification.GamificationState) :
  NoDup (Gamification.badges s) ->
  NoDup (Gamification.badges
           (fold_left (fun state a => Gamification.dispatch a state) actions s)).
Proof.
  revert s. induction actions as [|a actions IH]; intros s Hnd; cbn; [exact Hnd |].
  apply IH, dispatch_keeps_badges_distinct, Hnd.
Qed.

(** C10: the badges of the store are pairwise distinct at the start and after
    every operation, hence in every store the operations lead to; merging the
    same badges a second time leaves the badges as they are; [addXp] leaves
    them as they are. *)
Theorem badges_never_duplicated :
  NoDup (Gamification.badges Gamification.initial) /\
  (forall (a : Gamification.Action) (s : Gamification.GamificationState),
     NoDup (Gamification.badges s) ->
     NoDup (Gamification.badges (Gamification.dispatch a s))) /\
  (forall actions : list Gamification.Action,
     NoDup (Gamification.badges (Gamification.run actions))) /\
  (forall (incoming : list string) (now1 now2 : string) (s : Gamification.GamificationState),
     Gamification.badges
       (Gamification.mergeBadges incoming now2 (Gamification.mergeBadges incoming now1 s)) =
     Gamification.badges (Gamification.mergeBadges incoming now1 s)) /\
  (forall (amount : Z) (now : string) (s : Gamification.GamificationState),
     Gamification.badges (Gamification.addXp amount now s) = Gamification.badges s).
Proof.
  split; [apply NoDup_nil_2 |].
  split; [exact dispatch_keeps_badges_distinct |].
  split.
  { intros actions. apply fold_dispatch_keeps_badges_distinct, NoDup_nil_2. }
  split.
  - intros incoming now1 now2 s. cbn. apply arrayFromSet_absorb.
  - intros amount now s. reflexivity.
Qed.

Lemma badges_never_duplicated_witness :
  NoDup (Gamification.badges
           (Gamification.dispatch (Gamification.MergeBadges ["gold"; "gold"; "silver"] "2024-05-01T10:00:00.000Z")
              (Gamification.dispatch (Gamification.AddXp 40 "2024-05-01T09:59:00.000Z")
                 Gamification.initial))).
Proof.
  apply (proj1 (proj2 badges_never_duplicated)).
  apply (proj1 (proj2 badges_never_duplicated)).
  apply (proj1 badges_never_duplicated).
Defined.

(** ** lib/enhancedApi.ts *)

Lemma tryBackend_rejected (self : EnhancedApi.EnhancedDomainApi) (error : Api.AxiosError)
    (warning : string) (fallback : Js.Json) :
  EnhancedApi.tryBackend self (Js.Rejected error) warning fallback =
    if EnhancedApi.useMockData self then (Js.Fulfilled fallback, [warning])
    else (Js.Rejected error, []).
Proof. unfold EnhancedApi.tryBackend. destruct (EnhancedApi.useMockData self); reflexivity. Qed.

(** C1, as the code has it: when the backend call of an operation fails, the
    wrapper answers with the mock or default value of that operation if the
    mock flag of the instance is on, and rethrows the error if it is off. *)
Theorem enhanced_fallback_follows_flag
    (domainAwareApi : EnhancedApi.BackendCall -> EnhancedApi.Outcome)
    (mock : EnhancedApi.MockData) (op : EnhancedApi.Operation)
    (self : EnhancedApi.EnhancedDomainApi) (error : Api.AxiosError) :
  domainAwareApi (EnhancedApi.backendCall op) = Js.Rejected error ->
  fst (EnhancedApi.invoke domainAwareApi mock op self) =
    if EnhancedApi.useMockData self
    then Js.Fulfilled (EnhancedApi.fallbackOf mock op)
    else Js.Rejected error.
Proof.
  intros Hfail.
  destruct op; cbn in Hfail |- *;
    unfold EnhancedApi.getUserProfile, EnhancedApi.getPersonalizedRecommendations,
      EnhancedApi.getTrendingSkills, EnhancedApi.getVideos, EnhancedApi.getCourses,
      EnhancedApi.getCertificationRoadmap, EnhancedApi.getBeginnerChecklist,
      EnhancedApi.getUserStreak, EnhancedApi.getQuizQuestions,
      EnhancedApi.getCodingChallenge, EnhancedApi.getUserPlaylist,
      EnhancedApi.getRecentActivity, EnhancedApi.trackProgress,
      EnhancedApi.addToPlaylist, EnhancedApi.removeFromPlaylist,
      EnhancedApi.updatePlaylistProgress, EnhancedApi.submitCode,
      EnhancedApi.exportRoadmap;
    rewrite Hfail, tryBackend_rejected;
    destruct (EnhancedApi.useMockData self); reflexivity.
Qed.

Lemma enhanced_fallback_follows_flag_witness :
  fst (EnhancedApi.invoke Samples.backendDown Samples.mocks
         (EnhancedApi.SubmitCode (Js.JStr "print(1)"))
         (EnhancedApi.enableMockData true EnhancedApi.enhancedDomainApi)) =
    Js.Fulfilled EnhancedApi.mockSubmitFeedback.
Proof.
  apply (enhanced_fallback_follows_flag Samples.backendDown Samples.mocks
           (EnhancedApi.SubmitCode (Js.JStr "print(1)"))
           (EnhancedApi.enableMockData true EnhancedApi.enhancedDomainApi)
           Samples.networkError).
  reflexivity.
Defined.

(** C1 as stated fails on the exported instance: its flag is off, and the
    error of a failed [getUserProfile] reaches the caller. *)
Lemma enhanced_default_rethrows :
  EnhancedApi.getUserProfile Samples.backendDown Samples.mocks EnhancedApi.enhancedDomainApi =
    (Js.Rejected Samples.networkError, []).
Proof. reflexivity. Qed.

(** ** hooks/useUniversitySearch.ts *)

Module UniversitySearchFacts.
Import UniversitySearch.

Section Strings.

Lemma startsWith_spec (s p : string) :
  Js.startsWith s p = true <-> exists post, s = p +:+ post.
Proof.
  revert s. induction p as [|a p IH]; intros s.
  - destruct s; (split; [intros _; eexists; reflexivity | reflexivity]).
  - destruct s as [|b s]; cbn [Js.startsWith].
    + split; [discriminate | intros [post H]; discriminate].
    + destruct (Ascii.eqb_spec a b) as [->|Hne].
      * rewrite IH. split; intros [post H]; exists post.
        -- cbn. now rewrite H.
        -- now injection H.
      * split; [discriminate |]. intros [post H]. injection H as H1 H2. congruence.
Qed.

Lemma includes_spec (s sub : string) :
  Js.includes s sub = true <-> exists pre post, s = pre +:+ sub +:+ post.
Proof.
  induction s as [|c s IH]; cbn [Js.includes].
  - rewrite orb_false_r, startsWith_spec. split.
    + intros [post H]. now exists EmptyString, post.
    + intros [[|a pre] [post H]]; [now exists post | discriminate].
  - rewrite orb_true_iff, startsWith_spec, IH. split.
    + intros [[post H] | (pre & post & H)].
      * now exists EmptyString, post.
      * exists (String c pre), post. cbn. now rewrite H.
    + intros ([|a pre] & post & H).
      * left. now exists post.
      * right. injection H as _ H. now exists pre, post.
Qed.

Lemma matchesQuery_spec (query : string) (u : University) :
  matchesQuery query u = true <->
  Specs.containsIgnoringCase (name u) query.
Proof. apply includes_spec. Qed.

End Strings.

Example fallback_for_delhi :
  name <$> fallbackResults "deLHi"
  = ["Indian Institute of Technology Delhi"; "Delhi University"].
Proof. vm_compute. reflexivity. Qed.

Example fallback_for_unknown :
  fallbackResults "zzz" = firstn 10 FALLBACK_UNIVERSITIES.
Proof. vm_compute. reflexivity. Qed.

Lemma abortCurrent_mono (w : World) (c : nat) : c ∈ aborted w -> c ∈ abortCurrent w.
Proof. unfold abortCurrent. destruct (abortControllerRef (hook w)); set_solver. Qed.

Lemma abortCurrent_current (w : World) (c : nat) :
  abortControllerRef (hook w) = Some c -> c ∈ abortCurrent w.
Proof. unfold abortCurrent. intros ->. set_solver. Qed.

Lemma cleanup_allAborted (w : World) :
  Specs.searchInvariant w -> Specs.allAborted (cleanup w).
Proof.
  intros Hinv r Hr. cbn in *.
  destruct (Specs.inv_current w Hinv r Hr) as [H|H].
  - now apply abortCurrent_mono.
  - now apply abortCurrent_current.
Qed.

Lemma queryChange_allAborted (query : string) (debounceMs : Z) (w : World) :
  Specs.searchInvariant w -> Specs.allAborted (queryChange query debounceMs w).
Proof.
  intros Hinv r Hr. unfold queryChange, effect in *.
  destruct (cleanupArmed w) eqn:Harmed.
  - pose proof (cleanup_allAborted w Hinv) as Hall.
    destruct (negb (Js.truthy query) || (String.length query <? 2)%nat); cbn in *.
    + apply (Hall r Hr).
    + apply (abortCurrent_mono (cleanup w)), (Hall r Hr).
  - pose proof (Specs.inv_idle w Hinv (or_introl Harmed)) as Hall.
    destruct (negb (Js.truthy query) || (String.length query <? 2)%nat); cbn in *.
    + apply (Hall r Hr).
    + apply abortCurrent_mono, (Hall r Hr).
Qed.

Lemma queryChange_invariant (query : string) (debounceMs : Z) (w : World) :
  Specs.searchInvariant w -> Specs.searchInvariant (queryChange query debounceMs w).
Proof.
  intros Hinv. pose proof (queryChange_allAborted query debounceMs w Hinv) as Hall.
  split.
  - unfold queryChange, effect.
    destruct (cleanupArmed w), (negb (Js.truthy query) || (String.length query <? 2)%nat);
      cbn; apply Hinv.
  - intros r Hr. left. apply (Hall r Hr).
  - intros _. exact Hall.
  - unfold queryChange, effect.
    destruct (cleanupArmed w) eqn:Harmed,
             (negb (Js.truthy query) || (String.length query <? 2)%nat); cbn; try tauto.
    intros Ht. exfalso. 
    destruct (debounceTimer w) eqn:Hd; [|tauto].
    assert (debounceTimer w <> None) as Hn by congruence.
    rewrite (Specs.inv_armed w Hinv Hn) in Harmed. discriminate.
  - unfold queryChange, effect. intros deadline q.
    destruct (cleanupArmed w) eqn:Harmed,
             (negb (Js.truthy query) || (String.length query <? 2)%nat) eqn:Hshort; cbn.
    + discriminate.
    + intros [= _ <-]. apply orb_false_iff in Hshort as [_ Hlen].
      apply Nat.ltb_ge in Hlen. exact Hlen.
    + intros Hd. apply (Specs.inv_query w Hinv _ _ Hd).
    + intros [= _ <-]. apply orb_false_iff in Hshort as [_ Hlen].
      apply Nat.ltb_ge in Hlen. exact Hlen.
Qed.

Lemma timerCallback_invariant (deadline : Z) (query : string) (w : World) :
  Specs.searchInvariant w ->
  debounceTimer w = Some (deadline, query) ->
  Specs.searchInvariant (timerCallback query w).
Proof.
  intros Hinv Hd.
  assert (Hn : debounceTimer w <> None) by congruence.
  pose proof (Specs.inv_idle w Hinv (or_intror Hn)) as Hall.
  pose proof (Specs.inv_armed w Hinv Hn) as Harmed.
  unfold timerCallback.
  destruct (negb (apiDisabled w || (String.length query <? 3)%nat) && negb (apiDisabled w));
    split; cbn; try reflexivity; try congruence.
  - intros r Hr. apply elem_of_app in Hr as [Hr|Hr].
    + left. apply (Hall r Hr).
    + apply list_elem_of_singleton in Hr. subst r. now right.
  - intros [H|H]; congruence.
  - intros r Hr. left. apply (Hall r Hr).
  - intros _. exact Hall.
Qed.

Lemma findRequest_elem (c : nat) (w : World) (r : Request) :
  findRequest c w = Some r -> r ∈ inflight w /\ controller r = c.
Proof.
  unfold findRequest. intros H. apply find_some in H as [Hin Hc].
  split; [now apply list_elem_of_In | now apply Nat.eqb_eq].
Qed.

Lemma afterFetch_hook (query : string) (outcome : FetchOutcome) (w : World) :
  error (fst (afterFetch query outcome w)) = error (hook w) /\
  abortControllerRef (fst (afterFetch query outcome w)) = abortControllerRef (hook w) /\
  loading (fst (afterFetch query outcome w)) = false.
Proof.
  destruct outcome as [n| |[[|u d]|]]; cbn; repeat split; reflexivity.
Qed.

Lemma afterFetch_failed (query : string) (outcome : FetchOutcome) (w : World) :
  failedOrEmpty outcome = true ->
  universities (fst (afterFetch query outcome w)) = fallbackResults query.
Proof.
  destruct outcome as [n| |[[|u d]|]]; cbn; intros H; try reflexivity. discriminate.
Qed.

Lemma observed_failed (c : nat) (outcome : FetchOutcome) (w : World) :
  failedOrEmpty outcome = true -> failedOrEmpty (observed c outcome w) = true.
Proof. unfold observed. case_bool_decide; [reflexivity | tauto]. Qed.

Lemma search_step_invariant (e : Event) (w w' : World) :
  Specs.searchInvariant w -> step e w = Some w' -> Specs.searchInvariant w'.
Proof.
  intros Hinv Hstep. destruct e as [query d | ms | | c | c outcome]; cbn in Hstep.
  - destruct (0 <=? d); [|discriminate]. injection Hstep as <-.
    now apply queryChange_invariant.
  - destruct (0 <=? ms); [|discriminate]. injection Hstep as <-.
    destruct Hinv. split; cbn; assumption.
  - destruct (debounceTimer w) as [[deadline query]|] eqn:Hd; [|discriminate].
    destruct (deadline <=? clock w); [|discriminate]. injection Hstep as <-.
    now apply (timerCallback_invariant deadline).
  - destruct (findRequest c w) as [r|]; [|discriminate].
    destruct (abortAt r <=? clock w); [|discriminate]. injection Hstep as <-.
    destruct Hinv as [He Hc Hi Ha Hq]. split; cbn; try assumption.
    + intros r' Hr'. destruct (Hc r' Hr') as [H|H].
      * left. now apply abortCurrent_mono.
      * now right.
    + intros H r' Hr'. apply abortCurrent_mono. apply (Hi H r' Hr').
  - destruct (findRequest c w) as [r|]; [|discriminate].
    pose proof (afterFetch_hook (requestQuery r) (observed c outcome w) w) as (He' & Hc' & _).
    destruct (afterFetch (requestQuery r) (observed c outcome w) w) as [h disabled].
    injection Hstep as <-. cbn in He', Hc'.
    destruct Hinv as [He Hc Hi Ha Hq]. split; cbn; try assumption.
    + congruence.
    + intros r' Hr'. apply list_elem_of_In, filter_In in Hr' as [Hr' _].
      apply list_elem_of_In in Hr'. rewrite Hc'. apply (Hc r' Hr').
    + intros H r' Hr'. apply list_elem_of_In, filter_In in Hr' as [Hr' _].
      apply list_elem_of_In in Hr'. apply (Hi H r' Hr').
Qed.

Lemma search_initial_invariant : Specs.searchInvariant initial.
Proof.
  split; cbn; try reflexivity; try congruence.
  - intros r Hr. inversion Hr.
  - intros _ r Hr. inversion Hr.
Qed.

Lemma search_run_invariant (events : list Event) (w w' : World) :
  Specs.searchInvariant w -> run events w = Some w' -> Specs.searchInvariant w'.
Proof.
  revert w. induction events as [|e events IH]; intros w Hinv Hrun; cbn in Hrun.
  - now injection Hrun as <-.
  - destruct (step e w) as [w1|] eqn:Hstep; [|discriminate].
    apply (IH w1); [now apply (search_step_invariant e w) | exact Hrun].
Qed.

Lemma fallbackResults_spec (query : string) :
  (forall u, u ∈ fallbackResults query -> u ∈ FALLBACK_UNIVERSITIES) /\
  ((exists u, u ∈ FALLBACK_UNIVERSITIES /\ Specs.containsIgnoringCase (name u) query) ->
   forall u, u ∈ fallbackResults query <->
             u ∈ FALLBACK_UNIVERSITIES /\ Specs.containsIgnoringCase (name u) query) /\
  ((forall u, u ∈ FALLBACK_UNIVERSITIES -> ~ Specs.containsIgnoringCase (name u) query) ->
   fallbackResults query = firstn 10 FALLBACK_UNIVERSITIES) /\
  fallbackResults query <> [].
Proof.
  unfold fallbackResults.
  set (filtered := List.filter (matchesQuery query) FALLBACK_UNIVERSITIES).
  assert (Hmem : forall u, u ∈ filtered <->
            u ∈ FALLBACK_UNIVERSITIES /\ Specs.containsIgnoringCase (name u) query).
  { intros u. unfold filtered.
    rewrite list_elem_of_In, filter_In, <- list_elem_of_In.
    unfold Specs.containsIgnoringCase, matchesQuery. now rewrite includes_spec. }
  destruct filtered as [|u0 rest] eqn:Hf; cbn [length Nat.ltb Nat.leb];
    (split; [| split; [| split]]).
  - intros u Hu. now apply (subseteq_take 10) in Hu.
  - intros (u & Hu). apply Hmem in Hu. inversion Hu.
  - reflexivity.
  - discriminate.
  - intros u Hu. now apply Hmem in Hu.
  - intros _ u. apply Hmem.
  - intros Hnone. exfalso. assert (Hu : u0 ∈ u0 :: rest) by now left.
    apply Hmem in Hu as [Hu1 Hu2]. apply (Hnone u0 Hu1 Hu2).
  - discriminate.
Qed.


Example delhi_lookup_fails :
  (fun w => name <$> universities (hook w))
    <$> run (Samples.typedDelhi ++ [Settle 0 (Threw (Some "TypeError"))]) initial
  = Some ["Indian Institute of Technology Delhi"; "Delhi University"].
Proof. vm_compute. reflexivity. Qed.


End UniversitySearchFacts.
(** ** Binary64 arithmetic *)

Module F64Facts.
Import F64.

(** Linear arithmetic over [Q] with powers of two and injected integers as
    atoms. *)
Ltac atoms :=
  repeat match goal with
         | |- context [pow2 ?e] =>
             let P := fresh "P" in set (P := pow2 e) in *; clearbody P
         | H : context [pow2 ?e] |- _ =>
             let P := fresh "P" in set (P := pow2 e) in *; clearbody P
         | |- context [inject_Z ?z] =>
             let P := fresh "Z" in set (P := inject_Z z) in *; clearbody P
         | H : context [inject_Z ?z] |- _ =>
             let P := fresh "Z" in set (P := inject_Z z) in *; clearbody P
         end.
Ltac qlra := atoms; lra.

Lemma pow2_pos (e : Z) : (0 < pow2 e)%Q.
Proof. apply Qpower_0_lt. reflexivity. Qed.

Lemma pow2_add (a b : Z) : (pow2 (a + b) == pow2 a * pow2 b)%Q.
Proof. apply Qpower_plus. discriminate. Qed.

Lemma pow2_le (a b : Z) : a <= b -> (pow2 a <= pow2 b)%Q.
Proof. intros H. apply Qpower_le_compat_l; [exact H | discriminate]. Qed.

Lemma pow2_lt (a b : Z) : a < b -> (pow2 a < pow2 b)%Q.
Proof. intros H. apply Qpower_lt_compat_l; [exact H | reflexivity]. Qed.

Lemma pow2_lt_inv (a b : Z) : (pow2 a < pow2 b)%Q -> a < b.
Proof. intros H. apply (Qpower_lt_compat_l_inv 2); [exact H | reflexivity]. Qed.

Lemma pow2_Z (e : Z) : 0 <= e -> (pow2 e == inject_Z (2 ^ e))%Q.
Proof. intros H. unfold pow2. now rewrite Zpower_Qpower. Qed.

Lemma pow2_succ (e : Z) : (pow2 (e + 1) == 2 * pow2 e)%Q.
Proof. rewrite pow2_add. change (pow2 1) with 2%Q. ring. Qed.

Lemma pow2_pred (e : Z) : (pow2 (e - 1) == pow2 e / 2)%Q.
Proof.
  assert (H := pow2_succ (e - 1)). replace (e - 1 + 1) with e in H by lia.
  rewrite H. field.
Qed.

(** What [Z.log2] says of a positive integer, read in [Q]. *)
Lemma log2_bounds (n : Z) :
  0 < n -> (pow2 (Z.log2 n) <= inject_Z n)%Q /\ (inject_Z n < pow2 (Z.log2 n + 1))%Q.
Proof.
  intros Hn. destruct (Z.log2_spec n Hn) as [Hlo Hhi].
  pose proof (Z.log2_nonneg n) as H0.
  rewrite !pow2_Z by lia. split.
  - now rewrite <- Zle_Qle.
  - rewrite <- Zlt_Qlt. replace (Z.log2 n + 1) with (Z.succ (Z.log2 n)) by lia. exact Hhi.
Qed.

Lemma ilog2_spec (q : Q) :
  (0 < q)%Q -> (pow2 (ilog2 q) <= q)%Q /\ (q < pow2 (ilog2 q + 1))%Q.
Proof.
  intros Hq. destruct q as [n d]. 
  assert (Hn : 0 < n) by (unfold Qlt in Hq; cbn in Hq; lia).
  destruct (log2_bounds n Hn) as [Hn1 Hn2].
  destruct (log2_bounds (Zpos d) eq_refl) as [Hd1 Hd2].
  unfold ilog2. cbn [Qnum Qden].
  set (a := Z.log2 n) in *. set (b := Z.log2 (Zpos d)) in *.
  assert (Hd0 : (0 < inject_Z (Zpos d))%Q) by reflexivity.
  assert (E : (n # d == inject_Z n / inject_Z (Zpos d))%Q) by apply Qmake_Qdiv.
  assert (Hup : (n # d < pow2 (a - b + 1))%Q).
  { rewrite E. apply Qlt_shift_div_r; [exact Hd0 |].
    apply (Qlt_le_trans _ (pow2 (a + 1))); [exact Hn2 |].
    replace (a + 1) with ((a - b + 1) + b) by lia. rewrite pow2_add.
    apply Qmult_le_l; [apply pow2_pos | exact Hd1]. }
  assert (Hlow : (pow2 (a - b - 1) <= n # d)%Q).
  { rewrite E. apply Qle_shift_div_l; [exact Hd0 |].
    apply (Qle_trans _ (pow2 a)); [| exact Hn1].
    replace a with ((a - b - 1) + (b + 1)) at 2 by lia. rewrite pow2_add.
    apply Qmult_le_l; [apply pow2_pos | apply Qlt_le_weak, Hd2]. }
  destruct (Qle_bool (pow2 (a - b)) (n # d)) eqn:Ht.
  - apply Qle_bool_iff in Ht. split; assumption.
  - split; [exact Hlow |]. replace (a - b - 1 + 1) with (a - b) by lia.
    apply Qnot_le_lt. intros H. apply Qle_bool_iff in H. congruence.
Qed.

Lemma ilog2_lt (q : Q) (k : Z) : (0 < q)%Q -> (q < pow2 k)%Q -> ilog2 q < k.
Proof.
  intros Hq Hk. destruct (ilog2_spec q Hq) as [Hlo _].
  apply pow2_lt_inv. now apply (Qle_lt_trans _ q).
Qed.

Lemma ilog2_ge (q : Q) (k : Z) : (pow2 k <= q)%Q -> k <= ilog2 q.
Proof.
  intros Hk. assert (Hq : (0 < q)%Q) by (apply (Qlt_le_trans _ (pow2 k)); [apply pow2_pos | exact Hk]).
  destruct (ilog2_spec q Hq) as [_ Hhi].
  assert (k < ilog2 q + 1); [| lia].
  apply pow2_lt_inv. now apply (Qle_lt_trans _ q).
Qed.


Lemma roundHalfEven_comp (p q : Q) : (p == q)%Q -> roundHalfEven p = roundHalfEven q.
Proof.
  intros E. unfold roundHalfEven. rewrite (Qfloor_comp _ _ E).
  assert (E' : (p - inject_Z (Qfloor q) == q - inject_Z (Qfloor q))%Q) by now rewrite E.
  now rewrite (Qcompare_comp _ _ E' _ _ (Qeq_refl (1 # 2))).
Qed.

Lemma roundHalfEven_Z (z : Z) : roundHalfEven (inject_Z z) = z.
Proof.
  unfold roundHalfEven. rewrite Qfloor_Z.
  assert (E : (inject_Z z - inject_Z z ?= 1 # 2)%Q = Lt).
  { apply (proj1 (Qlt_alt _ _)). lra. }
  now rewrite E.
Qed.

Lemma roundHalfEven_error (q : Q) :
  (inject_Z (roundHalfEven q) - (1 # 2) <= q)%Q /\ (q <= inject_Z (roundHalfEven q) + (1 # 2))%Q.
Proof.
  unfold roundHalfEven. pose proof (Qfloor_le q) as Hlo. pose proof (Qlt_floor q) as Hhi.
  rewrite inject_Z_plus in Hhi. change (inject_Z 1) with 1%Q in Hhi.
  destruct (q - inject_Z (Qfloor q) ?= 1 # 2)%Q eqn:Hc.
  - apply (proj2 (Qeq_alt _ _)) in Hc. destruct (Z.even (Qfloor q));
      rewrite ?inject_Z_plus; change (inject_Z 1) with 1%Q; lra.
  - apply (proj2 (Qlt_alt _ _)) in Hc. lra.
  - apply (proj2 (Qgt_alt _ _)) in Hc. rewrite inject_Z_plus. change (inject_Z 1) with 1%Q. lra.
Qed.

Lemma roundHalfEven_nonneg (q : Q) : (0 <= q)%Q -> 0 <= roundHalfEven q.
Proof.
  intros Hq. destruct (roundHalfEven_error q) as [Hlo Hhi].
  assert (H : (-1 < inject_Z (roundHalfEven q))%Q) by lra.
  change (-1)%Q with (inject_Z (-1)) in H. rewrite <- Zlt_Qlt in H. lia.
Qed.

(** The rounding of a positive rational below [pow2 (K + 1)], in the normal
    range: the result is finite and off by at most [pow2 (K - 53)]. *)
Lemma roundPos_error (q : Q) (K : Z) :
  (0 < q)%Q -> (q < pow2 (K + 1))%Q -> -1022 <= K <= 1022 ->
  exists v, roundPos q = Some v /\ (q - pow2 (K - 53) <= v)%Q /\ (v <= q + pow2 (K - 53))%Q.
Proof.
  intros Hq HK Hrange.
  pose proof (ilog2_lt q (K + 1) Hq HK) as Hlog.
  unfold roundPos. set (e := ulpExp q).
  assert (He : e <= K - 52) by (unfold e, ulpExp; lia).
  pose proof (pow2_pos e) as Hpe.
  destruct (roundHalfEven_error (q / pow2 e)) as [Hlo Hhi].
  set (m := roundHalfEven (q / pow2 e)) in *.
  assert (Hhalf : (pow2 e / 2 <= pow2 (K - 53))%Q).
  { rewrite <- pow2_pred. apply pow2_le. lia. }
  assert (Hq' : (q == q / pow2 e * pow2 e)%Q) by (field; lra).
  pose proof (Qmult_le_compat_r _ _ (pow2 e) Hlo (Qlt_le_weak _ _ Hpe)) as Hlo'.
  pose proof (Qmult_le_compat_r _ _ (pow2 e) Hhi (Qlt_le_weak _ _ Hpe)) as Hhi'.
  rewrite <- Hq' in Hlo', Hhi'. clear Hq' Hlo Hhi.
  assert (Hhalf' : (pow2 e / 2 == (1 # 2) * pow2 e)%Q) by field.
  assert (Hover : Qle_bool (pow2 1024) (inject_Z m * pow2 e) = false).
  { apply not_true_iff_false. intros H. apply Qle_bool_iff in H.
    assert (H1 : (pow2 (K + 1) <= pow2 1023)%Q) by (apply pow2_le; lia).
    assert (H2 : (pow2 (K - 53) <= pow2 1023)%Q) by (apply pow2_le; lia).
    assert (H3 : (pow2 1024 == 2 * pow2 1023)%Q) by (apply (pow2_succ 1023)).
    lra. }
  rewrite Hover. eexists. split; [reflexivity |]. rewrite Qred_correct. clear Hover. split; qlra.
Qed.

Lemma round_comp (p q : Q) : (p == q)%Q -> round p = round q.
Proof. intros E. unfold round. now rewrite (Qred_complete p q E). Qed.

Lemma Qred_inject_Z (z : Z) : Qred (inject_Z z) = inject_Z z.
Proof.
  unfold Qred, inject_Z. pose proof (Z.ggcd_gcd z 1) as Hg.
  pose proof (Z.ggcd_correct_divisors z 1) as Hd.
  destruct (Z.ggcd z 1) as [g [a b]]. cbn [fst snd] in *.
  rewrite Z.gcd_1_r in Hg. subst g.
  destruct Hd as [Ha Hb]. assert (b = 1) by lia. subst b.
  f_equal. lia.
Qed.

(** An integer of at most 53 bits is a binary64 number. *)
Lemma roundPos_Z (z : Z) : 0 < z < 2 ^ 53 -> roundPos (inject_Z z) = Some (inject_Z z).
Proof.
  intros [Hlo Hhi].
  assert (Hq : (0 < inject_Z z)%Q) by (change 0%Q with (inject_Z 0); now rewrite <- Zlt_Qlt).
  assert (Hlog : ilog2 (inject_Z z) < 53).
  { apply ilog2_lt; [exact Hq |]. rewrite pow2_Z by lia. now rewrite <- Zlt_Qlt. }
  unfold roundPos. set (e := ulpExp (inject_Z z)).
  assert (He : -1074 <= e <= 0) by (unfold e, ulpExp; lia).
  pose proof (pow2_pos e) as Hpe.
  assert (Hs : (pow2 e * pow2 (- e) == 1)%Q).
  { rewrite <- pow2_add. now replace (e + - e) with 0 by lia. }
  assert (Hr : (pow2 (- e) == / pow2 e)%Q).
  { rewrite <- (Qmult_1_l (/ pow2 e)), <- Hs. field. intros H. rewrite H in Hpe. discriminate. }
  assert (Hm : (inject_Z z / pow2 e == inject_Z (z * 2 ^ (- e)))%Q).
  { rewrite inject_Z_mult, <- pow2_Z by lia. now rewrite Hr. }
  rewrite (roundHalfEven_comp _ _ Hm), roundHalfEven_Z.
  assert (Hv : (inject_Z (z * 2 ^ (- e)) * pow2 e == inject_Z z)%Q).
  { rewrite inject_Z_mult, <- pow2_Z by lia.
    rewrite <- Qmult_assoc, (Qmult_comm (pow2 (- e))), Hs. apply Qmult_1_r. }
  assert (Hover : Qle_bool (pow2 1024) (inject_Z (z * 2 ^ (- e)) * pow2 e) = false).
  { apply not_true_iff_false. intros H. apply Qle_bool_iff in H. rewrite Hv in H.
    assert (H1 : (inject_Z z < pow2 53)%Q) by (rewrite pow2_Z by lia; now rewrite <- Zlt_Qlt).
    assert (H2 : (pow2 53 < pow2 1024)%Q) by (apply pow2_lt; lia).
    clear Hm Hv Hr Hs. qlra. }
  rewrite Hover. f_equal. rewrite (Qred_complete _ _ Hv). apply Qred_inject_Z.
Qed.

Lemma round_Z (z : Z) : Z.abs z < 2 ^ 53 -> round (inject_Z z) = Finite (inject_Z z).
Proof.
  intros Hz. unfold round. rewrite Qred_inject_Z.
  destruct (Z.compare_spec z 0) as [-> | Hneg | Hpos].
  - reflexivity.
  - assert (E : (inject_Z z ?= 0)%Q = Lt) by (apply (proj1 (Qlt_alt _ _)); change 0%Q with (inject_Z 0); now rewrite <- Zlt_Qlt).
    rewrite E. change (- inject_Z z)%Q with (inject_Z (- z)).
    rewrite roundPos_Z by lia. change (- inject_Z (- z))%Q with (inject_Z (- - z)).
    now rewrite Z.opp_involutive.
  - assert (E : (inject_Z z ?= 0)%Q = Gt) by (apply (proj1 (Qgt_alt _ _)); change 0%Q with (inject_Z 0); now rewrite <- Zlt_Qlt).
    rewrite E. rewrite roundPos_Z by lia. reflexivity.
Qed.

Lemma ofZ_exact (z : Z) : Z.abs z < 2 ^ 53 -> ofZ z = Finite (inject_Z z).
Proof. apply round_Z. Qed.


(** What [round] does to a positive rational of the normal range. *)
Lemma round_error (x : Q) (K : Z) :
  (0 < x)%Q -> (x < pow2 (K + 1))%Q -> -1022 <= K <= 1022 ->
  exists v, round x = Finite v /\ (x - pow2 (K - 53) <= v)%Q /\ (v <= x + pow2 (K - 53))%Q.
Proof.
  intros Hx HK Hrange. unfold round.
  pose proof (Qred_correct x) as E.
  assert (Hx' : (0 < Qred x)%Q) by now rewrite E.
  assert (HK' : (Qred x < pow2 (K + 1))%Q) by now rewrite E.
  rewrite (proj1 (Qgt_alt _ _) Hx').
  destruct (roundPos_error (Qred x) K Hx' HK' Hrange) as (v & -> & Hlo & Hhi).
  exists v. rewrite E in Hlo, Hhi. now split.
Qed.

Lemma round_zero (x : Q) : (x == 0)%Q -> round x = Finite 0.
Proof. intros E. now rewrite (round_comp _ _ E). Qed.

(** [Math.round] on rationals: the floor of [x + 1/2]. *)
Lemma Math_round_bounds (y : Q) :
  (inject_Z (Js.Math_round y) <= y + (1 # 2))%Q /\
  (y + (1 # 2) < inject_Z (Js.Math_round y) + 1)%Q.
Proof.
  unfold Js.Math_round. split; [apply Qfloor_le |].
  pose proof (Qlt_floor (y + (1 # 2))) as H. now rewrite inject_Z_plus in H.
Qed.

(** An integer that is nearest to [x] is its rounding, or, when [x] lies
    half-way between two integers, the one below. *)
Lemma nearest_is_round (x : Q) (z : Z) :
  (inject_Z z - (1 # 2) <= x)%Q -> (x <= inject_Z z + (1 # 2))%Q ->
  z = Js.Math_round x \/
  (z = Js.Math_round x - 1 /\ (x == inject_Z z + (1 # 2))%Q).
Proof.
  intros Hlo Hhi. destruct (Math_round_bounds x) as [Hk1 Hk2].
  set (k := Js.Math_round x) in *.
  assert (H1 : z <= k).
  { assert (H : (inject_Z z < inject_Z k + 1)%Q) by qlra.
    change 1%Q with (inject_Z 1) in H. rewrite <- inject_Z_plus, <- Zlt_Qlt in H. lia. }
  assert (H2 : k <= z + 1).
  { assert (H : (inject_Z k <= inject_Z z + 1)%Q) by qlra.
    change 1%Q with (inject_Z 1) in H. rewrite <- inject_Z_plus, <- Zle_Qle in H. lia. }
  destruct (Z.eq_dec z k) as [E | E]; [now left | right].
  assert (Hk : k = z + 1) by lia. split; [lia |].
  rewrite Hk, inject_Z_plus in Hk1. change (inject_Z 1) with 1%Q in Hk1.
  apply Qle_antisym; [exact Hhi | qlra].
Qed.

(** Two different multiples of [1 / (2 n)] are at least [1 / (2 n)] apart:
    a fraction [a / n] that is not within [1/2] of the integer [z] misses
    that by [1 / (2 n)] at least. *)
Lemma fraction_gap (a n z : Z) :
  0 < n ->
  ((inject_Z z + (1 # 2)) * inject_Z n < inject_Z a ->
   (inject_Z z + (1 # 2)) * inject_Z n + (1 # 2) <= inject_Z a)%Q /\
  (inject_Z a < (inject_Z z - (1 # 2)) * inject_Z n ->
   inject_Z a <= (inject_Z z - (1 # 2)) * inject_Z n - (1 # 2))%Q.
Proof.
  intros Hn. split; intros H.
  - assert (Hz : (2 * z + 1) * n < 2 * a).
    { rewrite Zlt_Qlt, !inject_Z_mult, inject_Z_plus, inject_Z_mult.
      change (inject_Z 2) with 2%Q. change (inject_Z 1) with 1%Q. qlra. }
    assert (Hz' : (2 * z + 1) * n + 1 <= 2 * a) by lia.
    rewrite Zle_Qle, inject_Z_plus, !inject_Z_mult, inject_Z_plus, inject_Z_mult in Hz'.
    change (inject_Z 2) with 2%Q in Hz'. change (inject_Z 1) with 1%Q in Hz'. qlra.
  - assert (Hz : 2 * a < (2 * z - 1) * n).
    { rewrite Zlt_Qlt, !inject_Z_mult. unfold Z.sub. rewrite inject_Z_plus, inject_Z_mult.
      change (inject_Z 2) with 2%Q. change (inject_Z (- (1))) with (-1)%Q. qlra. }
    assert (Hz' : 2 * a + 1 <= (2 * z - 1) * n) by lia.
    unfold Z.sub in Hz'.
    rewrite Zle_Qle, inject_Z_plus, !inject_Z_mult, inject_Z_plus, inject_Z_mult in Hz'.
    change (inject_Z 2) with 2%Q in Hz'. change (inject_Z 1) with 1%Q in Hz'.
    change (inject_Z (- (1))) with (-1)%Q in Hz'. qlra.
Qed.


(** A number within [pow2 (-45)] of a fraction [a / n] whose denominator is
    below [2 ^ 32] rounds to an integer nearest to the fraction. *)
Lemma close_rounds_to_nearest (a n : Z) (y : Q) :
  0 < n < 2 ^ 32 ->
  (inject_Z a / inject_Z n - pow2 (-45) <= y)%Q ->
  (y <= inject_Z a / inject_Z n + pow2 (-45))%Q ->
  (inject_Z (Js.Math_round y) - (1 # 2) <= inject_Z a / inject_Z n)%Q /\
  (inject_Z a / inject_Z n <= inject_Z (Js.Math_round y) + (1 # 2))%Q.
Proof.
  intros [Hn0 Hn] Hlo Hhi. destruct (Math_round_bounds y) as [Hz1 Hz2].
  set (z := Js.Math_round y) in *.
  assert (HN : (0 < inject_Z n)%Q) by (change 0%Q with (inject_Z 0); now rewrite <- Zlt_Qlt).
  assert (HN' : (inject_Z n < inject_Z (2 ^ 32))%Q) by now rewrite <- Zlt_Qlt.
  assert (Hx : (inject_Z a / inject_Z n * inject_Z n == inject_Z a)%Q).
  { field. intros H. rewrite H in HN. discriminate. }
  set (x := (inject_Z a / inject_Z n)%Q) in *.
  pose proof (fraction_gap a n z Hn0) as [Hup Hdown].
  assert (Hd : (pow2 (-45) * inject_Z n < 1 # 2)%Q).
  { apply (Qlt_trans _ (pow2 (-45) * inject_Z (2 ^ 32))); [| reflexivity].
    apply Qmult_lt_l; [apply pow2_pos | exact HN']. }
  split.
  - destruct (Qlt_le_dec x (inject_Z z - (1 # 2))) as [Hbad | Hok]; [exfalso | exact Hok].
    assert (H1 : (inject_Z a < (inject_Z z - (1 # 2)) * inject_Z n)%Q).
    { rewrite <- Hx. apply Qmult_lt_compat_r; assumption. }
    specialize (Hdown H1).
    assert (H2 : ((inject_Z z - (1 # 2) - pow2 (-45)) * inject_Z n <= x * inject_Z n)%Q).
    { apply Qmult_le_compat_r; [| apply Qlt_le_weak, HN]. clear Hx Hd H1 Hdown Hup. qlra. }
    rewrite Hx in H2. clear Hx Hup. qlra.
  - destruct (Qlt_le_dec (inject_Z z + (1 # 2)) x) as [Hbad | Hok]; [exfalso | exact Hok].
    assert (H1 : ((inject_Z z + (1 # 2)) * inject_Z n < inject_Z a)%Q).
    { rewrite <- Hx. apply Qmult_lt_compat_r; assumption. }
    specialize (Hup H1).
    assert (H2 : (x * inject_Z n <= (inject_Z z + (1 # 2) + pow2 (-45)) * inject_Z n)%Q).
    { apply Qmult_le_compat_r; [| apply Qlt_le_weak, HN]. clear Hx Hd H1 Hdown Hup. qlra. }
    rewrite Hx in H2. clear Hx Hdown. qlra.
Qed.

(** The score of [c] correct answers out of [n], as a number: off the exact
    percentage by at most [pow2 (-45)]. *)
Lemma percent_product_close (c : Z) (n : Z) :
  0 <= c <= n -> 0 < n < 2 ^ 32 ->
  exists y, F64.mul (F64.div (F64.ofZ c) (F64.ofZ n)) (F64.Finite 100) = Finite y /\
            (inject_Z (100 * c) / inject_Z n - pow2 (-45) <= y)%Q /\
            (y <= inject_Z (100 * c) / inject_Z n + pow2 (-45))%Q.
Proof.
  intros [Hc0 Hcn] [Hn0 Hn].
  assert (HN : (0 < inject_Z n)%Q) by (change 0%Q with (inject_Z 0); now rewrite <- Zlt_Qlt).
  assert (HNne : ~ (inject_Z n == 0)%Q) by (intros H; rewrite H in HN; discriminate).
  rewrite !ofZ_exact by lia. unfold div.
  rewrite (proj1 (Qgt_alt _ _) HN).
  assert (Hx : (inject_Z (100 * c) / inject_Z n == 100 * (inject_Z c / inject_Z n))%Q).
  { rewrite inject_Z_mult. change (inject_Z 100) with 100%Q. now field. }
  destruct (Z.eq_dec c 0) as [-> | Hc].
  - rewrite (round_zero (inject_Z 0 / inject_Z n)) by apply Qmult_0_l.
    exists 0%Q. split; [reflexivity |].
    assert (E : (inject_Z (100 * 0) / inject_Z n == 0)%Q) by apply Qmult_0_l.
    rewrite E. split; [| apply Qlt_le_weak, pow2_pos ].
    pose proof (pow2_pos (-45)). qlra.
  - assert (Hq1 : (0 < inject_Z c / inject_Z n)%Q).
    { apply Qlt_shift_div_l; [exact HN |]. rewrite Qmult_0_l.
      change 0%Q with (inject_Z 0). rewrite <- Zlt_Qlt. lia. }
    assert (Hq2 : (inject_Z c / inject_Z n <= 1)%Q).
    { apply Qle_shift_div_r; [exact HN |]. rewrite Qmult_1_l. now rewrite <- Zle_Qle. }
    assert (Hq3 : (/ inject_Z (2 ^ 32) < inject_Z c / inject_Z n)%Q).
    { apply Qlt_shift_div_l; [exact HN |].
      apply (Qlt_le_trans _ 1).
      - apply (Qlt_le_trans _ (/ inject_Z (2 ^ 32) * inject_Z (2 ^ 32))); [| discriminate].
        apply Qmult_lt_l; [reflexivity | now rewrite <- Zlt_Qlt].
      - change 1%Q with (inject_Z 1). rewrite <- Zle_Qle. lia. }
    destruct (round_error (inject_Z c / inject_Z n) 0 Hq1) as (r1 & -> & Hr1 & Hr1').
    { apply (Qle_lt_trans _ 1); [exact Hq2 | reflexivity]. }
    { lia. }
    unfold mul.
    assert (Hp1 : (0 < r1 * 100)%Q).
    { assert (H : (pow2 (0 - 53) < / inject_Z (2 ^ 32))%Q) by reflexivity.
      clear Hx. qlra. }
    assert (Hp2 : (r1 * 100 < pow2 (6 + 1))%Q).
    { assert (H : (pow2 (0 - 53) < 1 # 100)%Q) by reflexivity.
      change (pow2 (6 + 1)) with 128%Q. clear Hx. qlra. }
    destruct (round_error (r1 * 100) 6 Hp1 Hp2) as (r2 & -> & Hr2 & Hr2'); [lia |].
    exists r2. split; [reflexivity |]. rewrite Hx.
    assert (H : (pow2 (6 - 53) + 100 * pow2 (0 - 53) <= pow2 (-45))%Q) by discriminate.
    clear Hq3 Hp1 Hp2 Hx. qlra.
Qed.


(** Sums, differences and comparisons of integers of at most 53 bits are
    exact. *)
Lemma add_Z (a b : Z) :
  Z.abs (a + b) < 2 ^ 53 ->
  add (Finite (inject_Z a)) (Finite (inject_Z b)) = Finite (inject_Z (a + b)).
Proof.
  intros H. unfold add. rewrite (round_comp _ (inject_Z (a + b))).
  - now apply round_Z.
  - now rewrite inject_Z_plus.
Qed.

Lemma sub_Z (a b : Z) :
  Z.abs (a - b) < 2 ^ 53 ->
  sub (Finite (inject_Z a)) (Finite (inject_Z b)) = Finite (inject_Z (a - b)).
Proof.
  intros H. unfold sub, neg, add. rewrite (round_comp _ (inject_Z (a - b))).
  - now apply round_Z.
  - unfold Z.sub. now rewrite inject_Z_plus, inject_Z_opp.
Qed.

Lemma leb_Z (a b : Z) : leb (Finite (inject_Z a)) (Finite (inject_Z b)) = (a <=? b).
Proof.
  unfold leb. destruct (Z.leb_spec a b) as [H | H].
  - apply Qle_bool_iff. now rewrite <- Zle_Qle.
  - apply not_true_iff_false. intros H'. apply Qle_bool_iff in H'.
    rewrite <- Zle_Qle in H'. lia.
Qed.

Lemma ltb_Z (a b : Z) : ltb (Finite (inject_Z a)) (Finite (inject_Z b)) = (a <? b).
Proof.
  unfold ltb. change (Qle_bool (inject_Z b) (inject_Z a)) with (leb (Finite (inject_Z b)) (Finite (inject_Z a))).
  rewrite leb_Z. destruct (Z.leb_spec b a), (Z.ltb_spec a b); try reflexivity; lia.
Qed.

Lemma max_Z (a b : Z) : max (Finite (inject_Z a)) (Finite (inject_Z b)) = Finite (inject_Z (Z.max a b)).
Proof.
  unfold max. rewrite leb_Z. destruct (Z.leb_spec a b).
  - now rewrite Z.max_r by lia.
  - now rewrite Z.max_l by lia.
Qed.

Lemma min_Z (a b : Z) : min (Finite (inject_Z a)) (Finite (inject_Z b)) = Finite (inject_Z (Z.min a b)).
Proof.
  unfold min. rewrite leb_Z. destruct (Z.leb_spec a b).
  - now rewrite Z.min_l by lia.
  - now rewrite Z.min_r by lia.
Qed.

Lemma Math_round_Z (z : Z) : Math_round (Finite (inject_Z z)) = Js.Num z.
Proof.
  unfold Math_round, Js.Math_round. f_equal.
  change (1 # 2)%Q with (inject_Z 1 / inject_Z 2)%Q.
  assert (E : (inject_Z z + inject_Z 1 / inject_Z 2 == inject_Z (2 * z + 1) / inject_Z 2)%Q).
  { rewrite inject_Z_plus, inject_Z_mult. field. }
  rewrite (Qfloor_comp _ _ E), <- Zdiv_Qdiv.
  rewrite Z.mul_comm, Z.div_add_l by lia. change (1 / 2) with 0. lia.
Qed.

(** [Math.max(1, x)] is never below 1. *)
Lemma max_one_not_below (x : double) : ltb (max one x) one = false.
Proof.
  destruct x as [q| | |]; try reflexivity.
  unfold max, one. cbn [leb]. destruct (Qle_bool 1 q) eqn:H; cbn [ltb].
  - now rewrite H.
  - reflexivity.
Qed.

(** The model agrees with the floats of the machine: [(c / n) * 100] for
    every count [c <= n] and every [n] up to 150. *)
Lemma percent_product_on_machine :
  forallb (fun n =>
    forallb (fun c =>
      eqb (mul (div (ofZ (Z.of_nat c)) (ofZ (Z.of_nat n))) (Finite 100))
          (ofPrim (PrimFloat.mul
                     (PrimFloat.div (primOfZ (Z.of_nat c)) (primOfZ (Z.of_nat n)))
                     (primOfZ 100))))
      (seq 0 (S n)))
    (seq 0 151) = true.
Proof. vm_compute. reflexivity. Qed.

(** Sums, differences, products and quotients of the numbers [a / 7] and
    [b / 10], in the model and on the machine. *)
Lemma operations_on_machine :
  forallb (fun a =>
    forallb (fun b =>
      let x := primFraction (Z.of_nat a) 7 in
      let y := primFraction (Z.of_nat b) 10 in
      eqb (add (ofPrim x) (ofPrim y)) (ofPrim (PrimFloat.add x y))
      && eqb (sub (ofPrim x) (ofPrim y)) (ofPrim (PrimFloat.sub x y))
      && eqb (mul (ofPrim x) (ofPrim y)) (ofPrim (PrimFloat.mul x y))
      && eqb (div (ofPrim x) (add (ofPrim y) one))
             (ofPrim (PrimFloat.div x (PrimFloat.add y (primOfZ 1)))))
      (seq 0 30))
    (seq 0 30) = true.
Proof. vm_compute. reflexivity. Qed.

Example tenths_on_machine :
  let tenth := primFraction 1 10 in
  let fifth := primFraction 2 10 in
  add (ofPrim tenth) (ofPrim fifth) = ofPrim (PrimFloat.add tenth fifth) /\
  add (ofPrim tenth) (ofPrim fifth) <> ofPrim (primFraction 3 10).
Proof. vm_compute. split; [reflexivity | discriminate]. Qed.

(** Past 53 bits, at the top of the range and at its bottom. *)
Example extremes_on_machine :
  let big := FloatOps.Z.ldexp (primOfZ 1) 1023 in
  let tiny := FloatOps.Z.ldexp (primOfZ 1) (-1074) in
  sub (ofZ (2 ^ 53 + 2)) one = ofZ (2 ^ 53) /\
  ofPrim (PrimFloat.sub (primOfZ (2 ^ 53 + 2)) (primOfZ 1)) = ofZ (2 ^ 53) /\
  ofPrim big = Finite (pow2 1023) /\
  add (ofPrim big) (ofPrim big) = PosInf /\
  ofPrim (PrimFloat.add big big) = PosInf /\
  sub (ofPrim big) one = ofPrim (PrimFloat.sub big (primOfZ 1)) /\
  div (ofPrim tiny) (ofZ 2) = Finite 0 /\
  ofPrim (PrimFloat.div tiny (primOfZ 2)) = Finite 0 /\
  div (ofPrim (PrimFloat.mul tiny (primOfZ 3))) (ofZ 2) =
    ofPrim (PrimFloat.div (PrimFloat.mul tiny (primOfZ 3)) (primOfZ 2)) /\
  div (ofZ 0) (ofZ 0) = ofPrim (PrimFloat.div (primOfZ 0) (primOfZ 0)) /\
  div (ofZ 5) (ofZ 0) = ofPrim (PrimFloat.div (primOfZ 5) (primOfZ 0)).
Proof. vm_compute. repeat split. Qed.

End F64Facts.


(** ** pages/Quiz.tsx *)

Module QuizFacts.
Import Quiz.

(** The score is an integer nearest to the exact percentage. *)
Lemma percentage_nearest (c : Z) (n : nat) :
  0 <= c <= Z.of_nat n -> 0 < Z.of_nat n < 2 ^ 32 ->
  exists z, percentage c n = Js.Num z /\
            (inject_Z z - (1 # 2) <= inject_Z (100 * c) / inject_Z (Z.of_nat n))%Q /\
            (inject_Z (100 * c) / inject_Z (Z.of_nat n) <= inject_Z z + (1 # 2))%Q.
Proof.
  intros Hc Hn.
  destruct (F64Facts.percent_product_close c (Z.of_nat n) Hc Hn) as (y & Hy & Hlo & Hhi).
  unfold percentage. rewrite Hy. exists (Js.Math_round y). split; [reflexivity |].
  now apply F64Facts.close_rounds_to_nearest.
Qed.

Lemma exact_percentage (c : Z) (n : nat) :
  (0 < n)%nat ->
  (inject_Z (100 * c) / inject_Z (Z.of_nat n) ==
   100 * inject_Z c / inject_Z (Z.of_nat n))%Q.
Proof. intros _. now rewrite inject_Z_mult. Qed.

Lemma exact_percentage_bounds (c : Z) (n : nat) :
  0 <= c <= Z.of_nat n -> (0 < n)%nat ->
  (0 <= inject_Z (100 * c) / inject_Z (Z.of_nat n))%Q /\
  (inject_Z (100 * c) / inject_Z (Z.of_nat n) <= 100)%Q.
Proof.
  intros [Hlo Hhi] Hpos.
  assert (Hn : (0 < inject_Z (Z.of_nat n))%Q).
  { change 0%Q with (inject_Z 0). rewrite <- Zlt_Qlt. lia. }
  split.
  - apply Qle_shift_div_l; [exact Hn |]. rewrite Qmult_0_l.
    change 0%Q with (inject_Z 0). rewrite <- Zle_Qle. lia.
  - apply Qle_shift_div_r; [exact Hn |]. change 100%Q with (inject_Z 100).
    rewrite <- inject_Z_mult, <- Zle_Qle. lia.
Qed.

Lemma Math_round_comp (x y : Q) : (x == y)%Q -> Js.Math_round x = Js.Math_round y.
Proof. intros E. unfold Js.Math_round. apply Qfloor_comp. now rewrite E. Qed.

Lemma roundedOrLowerHalf_comp (z : Z) (x y : Q) :
  (x == y)%Q -> Specs.roundedOrLowerHalf z x -> Specs.roundedOrLowerHalf z y.
Proof.
  intros E. unfold Specs.roundedOrLowerHalf. rewrite (Math_round_comp x y E).
  intros [H | [H1 H2]]; [now left | right]. split; [exact H1 |]. now rewrite <- E.
Qed.

(** The score of a count that does not exceed the number of questions: the
    exact percentage rounded, or the integer below a half-way percentage;
    between 0 and 100 in either case. *)
Lemma percentage_rounded (c : Z) (n : nat) :
  0 <= c <= Z.of_nat n -> 0 < Z.of_nat n < 2 ^ 32 ->
  exists z, percentage c n = Js.Num z /\
            Specs.roundedOrLowerHalf z (100 * inject_Z c / inject_Z (Z.of_nat n))%Q /\
            0 <= z <= 100.
Proof.
  intros Hc Hn. destruct (percentage_nearest c n Hc Hn) as (z & Hz & Hlo & Hhi).
  assert (Hpos : (0 < n)%nat) by lia.
  destruct (exact_percentage_bounds c n Hc Hpos) as [H0 H100].
  exists z. split; [exact Hz |]. split.
  - apply (roundedOrLowerHalf_comp z _ _ (exact_percentage c n Hpos)).
    exact (F64Facts.nearest_is_round _ z Hlo Hhi).
  - split.
    + assert (H : (inject_Z (-1) < inject_Z z)%Q).
      { change (inject_Z (-1)) with (-1)%Q. F64Facts.qlra. }
      rewrite <- Zlt_Qlt in H. lia.
    + assert (H : (inject_Z z < inject_Z 101)%Q).
      { change (inject_Z 101) with 101%Q. F64Facts.qlra. }
      rewrite <- Zlt_Qlt in H. lia.
Qed.

Lemma percentage_percent (correct : Z) (total : nat) :
  0 <= correct <= Z.of_nat total -> (0 < total)%nat -> Specs.arrayLength total ->
  Specs.percent (percentage correct total).
Proof.
  intros Hc Hpos Hlen.
  destruct (percentage_rounded correct total Hc) as (z & Hz & _ & Hb).
  - unfold Specs.arrayLength in Hlen. lia.
  - exists z. now split.
Qed.

Example percentage_two_of_three : percentage 2 3 = Js.Num 67.
Proof. vm_compute. reflexivity. Qed.

(** A half that the binary64 product reaches exactly goes up. *)
Example percentage_one_of_eight : percentage 1 8 = Js.Num 13.
Proof. vm_compute. reflexivity. Qed.

(** A half that the binary64 product misses from below goes down:
    [23 / 40] is rounded to a number below 0.575, and one hundred times that
    number to 57.49999999999999. *)
Example percentage_23_of_40 :
  percentage 23 40 = Js.Num 57 /\
  F64.mul (F64.div (F64.ofZ 23) (F64.ofZ 40)) (F64.Finite 100) =
    F64.Finite (8092405580431359 # 140737488355328) /\
  Js.Math_round (100 * inject_Z 23 / inject_Z 40) = 58.
Proof. vm_compute. repeat split. Qed.

Example percentage_of_no_questions : percentage 0 0 = Js.NaN.
Proof. vm_compute. reflexivity. Qed.

Lemma app_singleton_nonempty {A : Type} (l : list A) (x : A) : l ++ [x] <> [].
Proof. destruct l; discriminate. Qed.

Lemma payloadOf_complete (snap : QuizState) :
  Specs.submittable snap ->
  length (responses snap) = length (questions snap) ->
  Specs.payloadComplete (payloadOf snap).
Proof.
  intros [Hc Hne] Hlen. specialize (Hne Hlen).
  assert (Hpos : (0 < length (questions snap))%nat).
  { destruct (questions snap); [congruence | cbn; lia]. }
  split; [| split]; cbn.
  - intros Harr. apply percentage_percent; [rewrite <- Hlen; exact Hc | exact Hpos | exact Harr].
  - now rewrite length_fmap.
  - exact Hpos.
Qed.

Lemma handleFinishQuiz_invariant (snap : QuizState) (w : World) :
  Specs.quizInvariant w -> Specs.submittable snap ->
  Specs.quizInvariant (handleFinishQuiz snap w).
Proof.
  intros [Hs Ha Hr] Hsnap. unfold handleFinishQuiz.
  destruct (Nat.eqb_spec (length (responses snap)) (length (questions snap))) as [Hlen|Hlen];
    cbn [negb]; split; cbn; try assumption.
  apply Forall_app. split; [exact Hr |].
  apply Forall_singleton. now apply payloadOf_complete.
Qed.

Lemma countsAgree_submittable (s : QuizState) :
  Specs.countsAgree s -> isAnswerSubmitted s = true -> Specs.submittable s.
Proof.
  intros [Hc Hne] Hsub. split; [exact Hc |]. intros Hlen Hq.
  apply (Hne Hsub). rewrite Hq in Hlen. now destruct (responses s).
Qed.

Lemma countsAgree_current_submittable (s : QuizState) (q : QuizQuestion) :
  Specs.countsAgree s -> currentQuestion s = Some q -> Specs.submittable s.
Proof.
  intros [Hc _] Hq. split; [exact Hc |]. intros _ Hnil.
  unfold currentQuestion in Hq. rewrite Hnil in Hq. discriminate.
Qed.

Lemma advance_countsAgree (snap s : QuizState) :
  Specs.countsAgree s -> Specs.countsAgree (advance snap s).
Proof. intros [Hc _]. split; [exact Hc | discriminate]. Qed.

Lemma handleTimeExpired_invariant (w : World) :
  Specs.quizInvariant w -> Specs.quizInvariant (handleTimeExpired (state w) w).
Proof.
  intros Hinv. unfold handleTimeExpired.
  destruct (currentQuestion (state w)) as [q|] eqn:Hq; [| exact Hinv].
  destruct (isAnswerSubmitted (state w)); [exact Hinv |].
  destruct (alreadyAnswered (state w) q); [exact Hinv |].
  pose proof Hinv as [[Hc Hne] Ha Hr]. split; cbn; try assumption.
  - split; cbn.
    + rewrite length_app. cbn. lia.
    + intros _. apply app_singleton_nonempty.
  - apply Forall_app. split; [exact Ha |]. apply Forall_singleton.
    apply (countsAgree_current_submittable _ q); [split; assumption | exact Hq].
Qed.

Lemma handleSubmitAnswer_invariant (w : World) :
  Specs.quizInvariant w -> Specs.quizInvariant (handleSubmitAnswer (state w) w).
Proof.
  intros Hinv. unfold handleSubmitAnswer.
  destruct (selectedOption (state w)) as [sel|]; [| destruct Hinv; split; assumption].
  destruct (currentQuestion (state w)) as [q|]; [| destruct Hinv; split; assumption].
  destruct (alreadyAnswered (state w) q); [exact Hinv |].
  destruct Hinv as [[Hc Hne] Ha Hr]. split; cbn; try assumption.
  split.
  - destruct (sel =? answer q); cbn; rewrite length_app; cbn; lia.
  - intros _. destruct (sel =? answer q); cbn; apply app_singleton_nonempty.
Qed.

Lemma onState_invariant (f : QuizState -> QuizState) (w : World) :
  Specs.quizInvariant w ->
  Specs.countsAgree (f (state w)) ->
  Specs.quizInvariant (onState f w).
Proof. intros [Hs Ha Hr] Hf. split; assumption. Qed.

Lemma quiz_step_invariant (e : Event) (w w' : World) :
  Specs.quizInvariant w -> step e w = Some w' -> Specs.quizInvariant w'.
Proof.
  intros Hinv Hstep. pose proof Hinv as [Hs Ha Hr].
  destruct e; unfold step in Hstep.
  - injection Hstep as <-. apply onState_invariant; assumption.
  - injection Hstep as <-. apply onState_invariant; assumption.
  - injection Hstep as <-. apply onState_invariant; assumption.
  - injection Hstep as <-. unfold loadQuiz.
    destruct (Js.truthy (activeDomain (state w))); cbn [negb]; [| exact Hinv].
    split; cbn; try assumption. split; cbn; unfold const; cbn; [lia | discriminate].
  - destruct (0 <? pendingLoads w)%nat; [| discriminate]. injection Hstep as <-.
    unfold quizLoaded. destruct (items data) as [[|q qs]|]; split; cbn; assumption.
  - destruct (0 <? pendingLoads w)%nat; [| discriminate]. injection Hstep as <-.
    split; cbn; assumption.
  - injection Hstep as <-. unfold handleSelectOption.
    destruct (isAnswerSubmitted (state w)) eqn:Hsub; [exact Hinv |].
    apply onState_invariant; [exact Hinv |]. destruct Hs as [Hc Hne].
    split; cbn; [exact Hc | congruence].
  - injection Hstep as <-. now apply handleSubmitAnswer_invariant.
  - injection Hstep as <-. unfold handleNextQuestion.
    destruct (isAnswerSubmitted (state w)) eqn:Hsub; cbn [negb].
    + destruct (onLastQuestion (state w)).
      * apply handleFinishQuiz_invariant; [exact Hinv |].
        now apply countsAgree_submittable.
      * apply onState_invariant; [exact Hinv |]. now apply advance_countsAgree.
    + split; assumption.
  - injection Hstep as <-. apply onState_invariant; [exact Hinv |].
    unfold countdownEffect. destruct (quizMeta (state w)); [| exact Hs].
    destruct (countdownActive (state w)); exact Hs.
  - destruct (countdownActive (state w)); [| discriminate]. injection Hstep as <-.
    unfold intervalTick. destruct (F64.leb (questionTimeLeft (state w)) F64.one).
    + pose proof (handleTimeExpired_invariant w Hinv) as [Hs' Ha' Hr'].
      split; assumption.
    + apply onState_invariant; assumption.
  - destruct (pendingAdvance w !! i) as [snap|] eqn:Hi; [| discriminate].
    injection Hstep as <-.
    assert (Hsnap : Specs.submittable snap).
    { apply (Forall_lookup_1 _ _ i snap Ha Hi). }
    assert (Hinv' : Specs.quizInvariant (dropAdvance i w)).
    { split; cbn; try assumption.
      apply (Forall_delete _ _ i), Ha. }
    unfold timeoutCallback. destruct (onLastQuestion snap).
    + now apply handleFinishQuiz_invariant.
    + apply onState_invariant; [exact Hinv' |]. now apply advance_countsAgree.
  - destruct (pendingSubmit w !! i) as [snap|]; [| discriminate].
    injection Hstep as <-. split; cbn; assumption.
  - destruct (pendingSubmit w !! i) as [snap|]; [| discriminate].
    injection Hstep as <-. split; cbn; assumption.
Qed.

Lemma quiz_initial_invariant (domain : string) : Specs.quizInvariant (initial domain).
Proof.
  split; cbn; try apply Forall_nil_2.
  split; cbn; [lia | discriminate].
Qed.

Lemma quiz_run_invariant (events : list Event) (w w' : World) :
  Specs.quizInvariant w -> run events w = Some w' -> Specs.quizInvariant w'.
Proof.
  revert w. induction events as [|e events IH]; intros w Hinv Hrun; cbn in Hrun.
  - now injection Hrun as <-.
  - destruct (step e w) as [w1|] eqn:Hstep; [| discriminate].
    apply (IH w1); [now apply (quiz_step_invariant e w) | exact Hrun].
Qed.



Lemma length_lt_of_fresh (ids all : list string) (x : string) :
  NoDup ids -> (forall i, i ∈ ids -> i ∈ all) -> x ∈ all -> x ∉ ids ->
  (length ids < length all)%nat.
Proof.
  intros Hnd Hsub Hx Hfresh.
  assert (Hnd' : NoDup (x :: ids)) by (apply NoDup_cons; split; assumption).
  assert (Hincl : x :: ids ⊆ all).
  { intros y Hy. apply elem_of_cons in Hy as [->|Hy]; [exact Hx | now apply Hsub]. }
  pose proof (submseteq_length _ _ (NoDup_submseteq _ _ Hnd' Hincl)) as Hlen.
  cbn in Hlen. lia.
Qed.

Lemma alreadyAnswered_false (s : QuizState) (q : QuizQuestion) :
  alreadyAnswered s q = false -> id q ∉ responseIds s.
Proof.
  unfold alreadyAnswered, responseIds. intros Hex Hin.
  apply list_elem_of_fmap in Hin as (r & Hr & Hin).
  apply not_true_iff_false in Hex. apply Hex.
  apply existsb_exists. exists r. split; [now apply list_elem_of_In |].
  apply String.eqb_eq. congruence.
Qed.

Lemma stale_responses_short (s : QuizState) (q : QuizQuestion) :
  Specs.responsesOfThisQuiz s -> currentQuestion s = Some q ->
  alreadyAnswered s q = false ->
  (length (responses s) < length (questions s))%nat.
Proof.
  intros [Hnd Hsub] Hq Hfresh.
  pose proof (length_lt_of_fresh (responseIds s) (questionIds s) (id q) Hnd Hsub) as H.
  unfold responseIds, questionIds in H. rewrite !length_fmap in H. apply H.
  - apply list_elem_of_fmap. exists q. split; [reflexivity |].
    now apply list_elem_of_lookup_2 in Hq.
  - now apply alreadyAnswered_false.
Qed.

Lemma countdownActive_unanswered (s : QuizState) :
  countdownActive s = true -> isAnswerSubmitted s = false.
Proof.
  unfold countdownActive. destruct (quizMeta s), (summary s); try discriminate.
  intros H. apply andb_true_iff in H as [_ H]. now apply negb_true_iff in H.
Qed.

(** What a run of the interval does when the time is up and the current
    question has no answer yet. *)
Lemma intervalTick_records_timeout (w : World) (q : QuizQuestion) :
  countdownActive (state w) = true ->
  F64.leb (questionTimeLeft (state w)) F64.one = true ->
  currentQuestion (state w) = Some q ->
  alreadyAnswered (state w) q = false ->
  responses (state (intervalTick w)) = responses (state w) ++ [timedOutResponse (state w) q] /\
  isAnswerSubmitted (state (intervalTick w)) = true /\
  selectedOption (state (intervalTick w)) = Some (-1) /\
  currentStreak (state (intervalTick w)) = 0 /\
  questionTimeLeft (state (intervalTick w)) = F64.zero /\
  totalTimeSpent (state (intervalTick w)) =
    F64.add (totalTimeSpent (state w)) (totalWindowOf (state w)) /\
  correctCount (state (intervalTick w)) = correctCount (state w) /\
  currentIndex (state (intervalTick w)) = currentIndex (state w) /\
  questions (state (intervalTick w)) = questions (state w) /\
  pendingAdvance (intervalTick w) = pendingAdvance w ++ [state w] /\
  toasts (intervalTick w) = toasts w ++ ["Time's up!"] /\
  requests (intervalTick w) = requests w /\
  pendingSubmit (intervalTick w) = pendingSubmit w.
Proof.
  intros Hactive Htime Hq Hfresh.
  pose proof (countdownActive_unanswered _ Hactive) as Hsub.
  unfold intervalTick. rewrite Htime.
  unfold handleTimeExpired. rewrite Hq, Hsub, Hfresh. cbn.
  repeat split; reflexivity.
Qed.

(** C3: when the countdown runs out on an unanswered question, the interval
    records the timed-out response.  On the last question the claim has the
    results submitted; the function given to [setTimeout] calls the
    [handleFinishQuiz] of the render in which the response was not recorded
    yet, which counts one response too few, refuses with its toast and sends
    nothing. *)
Theorem timeout_on_last_question_does_not_submit (w : World) (q : QuizQuestion) :
  countdownActive (state w) = true ->
  F64.leb (questionTimeLeft (state w)) F64.one = true ->
  currentQuestion (state w) = Some q ->
  alreadyAnswered (state w) q = false ->
  onLastQuestion (state w) = true ->
  Specs.responsesOfThisQuiz (state w) ->
  let expired := intervalTick w in
  let later := timeoutCallback (state w) expired in
  responses (state expired) = responses (state w) ++ [timedOutResponse (state w) q] /\
  pendingAdvance expired = pendingAdvance w ++ [state w] /\
  requests later = requests w /\
  pendingSubmit later = pendingSubmit w /\
  state later = state expired /\
  summary (state later) = None /\
  toasts later = toasts w ++ ["Time's up!"; "Answer every question to finish."].
Proof.
  intros Hactive Htime Hq Hfresh Hlast Hresp expired later.
  pose proof (intervalTick_records_timeout w q Hactive Htime Hq Hfresh)
    as (Hr & _ & _ & _ & _ & _ & _ & _ & _ & Hpa & Ht & Hreq & Hps).
  pose proof (stale_responses_short _ q Hresp Hq Hfresh) as Hshort.
  assert (Hlater : later = toastError "Answer every question to finish." expired).
  { unfold later, timeoutCallback. rewrite Hlast. unfold handleFinishQuiz.
    destruct (Nat.eqb_spec (length (responses (state w))) (length (questions (state w))));
      [lia | reflexivity]. }
  assert (Hsum : summary (state expired) = None).
  { unfold expired, intervalTick. rewrite Htime.
    unfold handleTimeExpired.
    rewrite Hq, (countdownActive_unanswered _ Hactive), Hfresh. cbn.
    unfold countdownActive in Hactive.
    destruct (quizMeta (state w)); [| discriminate].
    destruct (summary (state w)); [discriminate | reflexivity]. }
  rewrite Hlater. cbn. fold expired in Hr, Hpa, Ht, Hreq, Hps.
  rewrite Hr, Hpa, Ht, Hreq, Hps, Hsum, <- app_assoc. cbn.
  repeat split; reflexivity.
Qed.

(** On a question that is not the last one the timeout moves on. *)
Lemma timeout_advances_to_next_question (w : World) (q : QuizQuestion) :
  countdownActive (state w) = true ->
  F64.leb (questionTimeLeft (state w)) F64.one = true ->
  currentQuestion (state w) = Some q ->
  alreadyAnswered (state w) q = false ->
  onLastQuestion (state w) = false ->
  let later := timeoutCallback (state w) (intervalTick w) in
  currentIndex (state later) = S (currentIndex (state w)) /\
  selectedOption (state later) = None /\
  isAnswerSubmitted (state later) = false /\
  questionTimeLeft (state later) = totalWindowOf (state w) /\
  responses (state later) = responses (state w) ++ [timedOutResponse (state w) q] /\
  currentStreak (state later) = 0 /\
  requests later = requests w.
Proof.
  intros Hactive Htime Hq Hfresh Hlast later.
  pose proof (intervalTick_records_timeout w q Hactive Htime Hq Hfresh)
    as (Hr & _ & _ & Hst & _ & _ & _ & Hidx & _ & _ & _ & Hreq & _).
  unfold later, timeoutCallback. rewrite Hlast. cbn.
  rewrite Hr, Hst, Hidx, Hreq. repeat split; reflexivity.
Qed.

Example one_question_quiz_times_out :
  (fun w => (requests w, toasts w, length (responses (state w)), summary (state w)))
    <$> run [Tick; Tick; TimeoutFires 0] Samples.loadedQuiz
  = Some ([], ["Time's up!"; "Answer every question to finish."], 1%nat, None).
Proof. vm_compute. reflexivity. Qed.

Lemma timeout_on_last_question_does_not_submit_witness :
  let w := default Samples.loadedQuiz (run [Tick] Samples.loadedQuiz) in
  requests (timeoutCallback (state w) (intervalTick w)) = [].
Proof.
  cbv zeta.
  apply (timeout_on_last_question_does_not_submit
           (default Samples.loadedQuiz (run [Tick] Samples.loadedQuiz)) Samples.onlyQuestion).
  - vm_compute. reflexivity.
  - vm_compute. reflexivity.
  - vm_compute. reflexivity.
  - vm_compute. reflexivity.
  - vm_compute. reflexivity.
  - split.
    + vm_compute. apply NoDup_nil_2.
    + intros i Hi. vm_compute in Hi. inversion Hi.
Defined.

Example answered_quiz_submits_full_score :
  (fun w => p_score <$> requests w) <$> run [NextQuestion] Samples.lockedQuiz
  = Some [Js.Num 100].
Proof. vm_compute. reflexivity. Qed.


End QuizFacts.

(** ** validation.ts: the strings each validator accepts *)

Module RegexFacts.
Import Regex Chars.

Lemma append_nil_l (s : string) : EmptyString +:+ s = s.
Proof. reflexivity. Qed.

Lemma append_cons_l (c : ascii) (s1 s2 : string) : String c s1 +:+ s2 = String c (s1 +:+ s2).
Proof. reflexivity. Qed.

Lemma test_Void (s : string) : test Void s = false.
Proof. induction s as [|c s IH]; [reflexivity | exact IH]. Qed.

Lemma test_Eps (s : string) : test Eps s = true <-> s = EmptyString.
Proof.
  destruct s as [|c s]; cbn; [tauto |]. rewrite test_Void. split; discriminate.
Qed.

Lemma test_Alt (r1 r2 : regex) (s : string) :
  test (Alt r1 r2) s = test r1 s || test r2 s.
Proof. revert r1 r2. induction s as [|c s IH]; intros r1 r2; cbn; [reflexivity | apply IH]. Qed.

Lemma test_And (r1 r2 : regex) (s : string) :
  test (And r1 r2) s = test r1 s && test r2 s.
Proof. revert r1 r2. induction s as [|c s IH]; intros r1 r2; cbn; [reflexivity | apply IH]. Qed.

(** Concatenation: the string splits into a part for each factor. *)
Lemma test_Cat (r1 r2 : regex) (s : string) :
  test (Cat r1 r2) s = true <->
  exists s1 s2, s = s1 +:+ s2 /\ test r1 s1 = true /\ test r2 s2 = true.
Proof.
  revert r1. induction s as [|c s IH]; intros r1.
  - cbn. rewrite andb_true_iff. split.
    + intros [H1 H2]. now exists EmptyString, EmptyString.
    + intros (s1 & s2 & Hs & H1 & H2).
      destruct s1; [| discriminate]. destruct s2; [| discriminate]. now split.
  - cbn [test deriv]. destruct (nullable r1) eqn:Hn.
    + rewrite test_Alt, orb_true_iff, IH. split.
      * intros [(s1 & s2 & -> & H1 & H2) | H].
        -- now exists (String c s1), s2.
        -- exists EmptyString, (String c s). now repeat split.
      * intros ([|a s1] & s2 & Hs & H1 & H2).
        -- right. rewrite append_nil_l in Hs. subst s2. exact H2.
        -- left. rewrite append_cons_l in Hs. injection Hs as <- ->. now exists s1, s2.
    + rewrite IH. split.
      * intros (s1 & s2 & -> & H1 & H2). now exists (String c s1), s2.
      * intros ([|a s1] & s2 & Hs & H1 & H2).
        -- cbn in H1. congruence.
        -- rewrite append_cons_l in Hs. injection Hs as <- ->. now exists s1, s2.
Qed.


Lemma test_Class_cons (p : ascii -> bool) (r : regex) (c : ascii) (s : string) :
  test (Cat (Class p) r) (String c s) = p c && test r s.
Proof.
  cbn. destruct (p c); cbn.
  - apply eq_true_iff_eq. rewrite test_Cat. split.
    + intros (s1 & s2 & -> & H1 & H2). apply test_Eps in H1. now subst s1.
    + intros H. exists EmptyString, s. now repeat split.
  - apply not_true_iff_false. rewrite test_Cat.
    intros (s1 & s2 & _ & H1 & _). rewrite test_Void in H1. discriminate.
Qed.

Lemma test_Star_Class (p : ascii -> bool) (s : string) :
  test (Star (Class p)) s = allChars p s.
Proof.
  induction s as [|c s IH]; [reflexivity |].
  change (test (Star (Class p)) (String c s))
    with (test (Cat (if p c then Eps else Void) (Star (Class p))) s).
  unfold allChars. cbn [String.list_ascii_of_string forallb]. fold (allChars p s).
  rewrite <- IH. destruct (p c); cbn [andb].
  - apply eq_true_iff_eq. rewrite test_Cat. split.
    + intros (s1 & s2 & -> & H1 & H2). apply test_Eps in H1. now subst s1.
    + intros H. exists EmptyString, s. now repeat split.
  - apply not_true_iff_false. rewrite test_Cat.
    intros (s1 & s2 & _ & H1 & _). rewrite test_Void in H1. discriminate.
Qed.

Lemma test_atLeast_Class (n : nat) (p : ascii -> bool) (s : string) :
  test (atLeast n (Class p)) s = (n <=? String.length s)%nat && allChars p s.
Proof.
  revert s. induction n as [|n IH]; intros s.
  - cbn [atLeast]. now rewrite test_Star_Class.
  - cbn [atLeast]. destruct s as [|c s]; [reflexivity |].
    rewrite test_Class_cons, IH. unfold allChars. cbn.
    destruct (p c), (n <=? String.length s)%nat; reflexivity.
Qed.

Lemma test_plus_Class (p : ascii -> bool) (s : string) :
  test (plus (Class p)) s = (1 <=? String.length s)%nat && allChars p s.
Proof. apply (test_atLeast_Class 1). Qed.



Lemma allChars_app (p : ascii -> bool) (s1 s2 : string) :
  allChars p (s1 +:+ s2) = allChars p s1 && allChars p s2.
Proof.
  induction s1 as [|c s1 IH]; [reflexivity |].
  rewrite append_cons_l. unfold allChars in *. cbn. now rewrite IH, andb_assoc.
Qed.

Lemma someChar_split (p : ascii -> bool) (s : string) :
  someChar p s = true <->
  exists pre c post, s = pre +:+ String c post /\ p c = true.
Proof.
  induction s as [|a s IH].
  - split; [discriminate |]. intros ([|b pre] & c & post & H & _); discriminate.
  - unfold someChar in *. cbn. rewrite orb_true_iff, IH. split.
    + intros [H | (pre & c & post & -> & H)].
      * now exists EmptyString, a, s.
      * now exists (String a pre), c, post.
    + intros ([|b pre] & c & post & Hs & H).
      * rewrite append_nil_l in Hs. injection Hs as -> ->. now left.
      * rewrite append_cons_l in Hs. injection Hs as -> ->. right. now exists pre, c, post.
Qed.

Lemma allChars_weaken (p q : ascii -> bool) (s : string) :
  (forall c, p c = true -> q c = true) -> allChars p s = true -> allChars q s = true.
Proof.
  intros Hpq. unfold allChars. rewrite !forallb_forall. intros H c Hc. apply Hpq, H, Hc.
Qed.

Lemma allChars_true (s : string) : allChars (fun _ => true) s = true.
Proof. unfold allChars. apply forallb_forall. reflexivity. Qed.

Lemma test_lookahead (q : ascii -> bool) (s : string) :
  test (lookahead q) s = true <->
  exists pre c post, s = pre +:+ String c post /\ allChars dot pre = true /\ q c = true.
Proof.
  unfold lookahead. rewrite test_Cat. split.
  - intros (s1 & s2 & -> & H1 & H2). rewrite test_Star_Class in H1.
    destruct s2 as [|c post]; [discriminate |].
    rewrite test_Class_cons in H2. apply andb_true_iff in H2 as [Hq _].
    now exists s1, c, post.
  - intros (pre & c & post & -> & Hd & Hq). exists pre, (String c post).
    split; [reflexivity |]. rewrite test_Star_Class, test_Class_cons, Hq.
    split; [exact Hd |]. unfold anything. now rewrite test_Star_Class, allChars_true.
Qed.

End RegexFacts.

Module ValidationFacts.
Import Validation Chars RegexFacts.

Lemma passwordClass_dot (c : ascii) : passwordClass c = true -> Regex.dot c = true.
Proof. destruct c as [[] [] [] [] [] [] [] []]; vm_compute; congruence. Qed.

Lemma lookahead_in_password (q : ascii -> bool) (s : string) :
  allChars passwordClass s = true ->
  Regex.test (Regex.lookahead q) s = someChar q s.
Proof.
  intros Hall. apply eq_true_iff_eq. rewrite test_lookahead, someChar_split. split.
  - intros (pre & c & post & Hs & _ & Hq). now exists pre, c, post.
  - intros (pre & c & post & Hs & Hq). exists pre, c, post. repeat split; try assumption.
    subst s. rewrite allChars_app in Hall. apply andb_true_iff in Hall as [Hpre _].
    apply (allChars_weaken passwordClass); [exact passwordClass_dot | exact Hpre].
Qed.

Lemma passwordRegex_spec (s : string) :
  Regex.test passwordRegex s =
    (8 <=? String.length s)%nat && allChars passwordClass s &&
    someChar Js.isLower s && someChar Js.isUpper s &&
    someChar Js.isDigit s && someChar specialClass s.
Proof.
  unfold passwordRegex. rewrite !test_And, test_atLeast_Class.
  destruct (allChars passwordClass s) eqn:Hall.
  - rewrite !lookahead_in_password by exact Hall.
    destruct (8 <=? String.length s)%nat, (someChar Js.isLower s), (someChar Js.isUpper s),
      (someChar Js.isDigit s), (someChar specialClass s); reflexivity.
  - rewrite !andb_false_r. reflexivity.
Qed.

(** X1: [validatePassword] accepts exactly the passwords of eight characters
    or more, drawn from letters, digits and [@$!%*?&], that hold a lower-case
    letter, an upper-case letter, a digit and one of the special characters. *)
Theorem validatePassword_ok_iff (password : string) :
  validatePassword password = ok <->
  (8 <= String.length password)%nat /\
  allChars passwordClass password = true /\
  someChar Js.isLower password = true /\
  someChar Js.isUpper password = true /\
  someChar Js.isDigit password = true /\
  someChar specialClass password = true.
Proof.
  unfold validatePassword. destruct password as [|c rest] eqn:Hp.
  - cbn. split; [discriminate | intros [H _]; cbn in H; lia].
  - rewrite <- Hp. assert (Ht : Js.truthy password = true) by now subst.
    rewrite Ht. cbn [negb]. rewrite passwordRegex_spec.
    destruct (Nat.ltb_spec (String.length password) 8) as [Hlt | Hge].
    + split; [discriminate | intros [H _]; lia].
    + rewrite (proj2 (Nat.leb_le _ _) Hge). cbn [andb].
      destruct (allChars passwordClass password), (someChar Js.isLower password),
        (someChar Js.isUpper password), (someChar Js.isDigit password),
        (someChar specialClass password); cbn; split; try discriminate; try tauto;
        intros (_ & H1 & H2 & H3 & H4 & H5); discriminate.
Qed.

Lemma validatePassword_ok_iff_witness :
  Validation.validatePassword "Abcdef1!" = Validation.ok.
Proof. apply (proj2 (validatePassword_ok_iff "Abcdef1!")). vm_compute. repeat split; lia. Defined.

(** X2: [validateName] accepts exactly the names of three characters or more
    made of letters and white space. *)
Theorem validateName_ok_iff (name : string) :
  NameValidation.validateName name = ok <->
  (3 <= String.length name)%nat /\ allChars NameValidation.nameClass name = true.
Proof.
  unfold NameValidation.validateName, NameValidation.nameRegex.
  rewrite test_plus_Class. destruct name as [|c rest] eqn:Hn.
  - cbn. split; [discriminate | intros [H _]; cbn in H; lia].
  - rewrite <- Hn. assert (Ht : Js.truthy name = true) by now subst.
    rewrite Ht. cbn [negb].
    destruct (Nat.ltb_spec (String.length name) 3) as [Hlt | Hge].
    + split; [discriminate | intros [H _]; lia].
    + rewrite (proj2 (Nat.leb_le 1 _)) by lia. cbn [andb].
      destruct (allChars NameValidation.nameClass name); cbn; split;
        try discriminate; try tauto. intros [_ H]. discriminate.
Qed.

Lemma validateName_ok_iff_witness :
  NameValidation.validateName "Asha Rao" = Validation.ok.
Proof. apply (proj2 (validateName_ok_iff "Asha Rao")). vm_compute. split; [lia | reflexivity]. Defined.

Lemma allChars_ext (p q : ascii -> bool) (s : string) :
  (forall c, p c = q c) -> allChars p s = allChars q s.
Proof.
  intros Hpq. unfold allChars. induction (String.list_ascii_of_string s) as [|c l IH];
    [reflexivity | cbn; now rewrite Hpq, IH].
Qed.

Lemma ignoreCase_localClass (c : ascii) : Regex.ignoreCase localClass c = localClass c.
Proof. destruct c as [[] [] [] [] [] [] [] []]; vm_compute; reflexivity. Qed.

Lemma ignoreCase_domainClass (c : ascii) : Regex.ignoreCase domainClass c = domainClass c.
Proof. destruct c as [[] [] [] [] [] [] [] []]; vm_compute; reflexivity. Qed.

Lemma ignoreCase_isLower (c : ascii) : Regex.ignoreCase Js.isLower c = isLetter c.
Proof. destruct c as [[] [] [] [] [] [] [] []]; vm_compute; reflexivity. Qed.

Lemma ignoreCase_at (c : ascii) : Regex.ignoreCase (Regex.oneOf "@") c = true -> c = "@"%char.
Proof. destruct c as [[] [] [] [] [] [] [] []]; vm_compute; congruence. Qed.

Lemma ignoreCase_period (c : ascii) : Regex.ignoreCase (Regex.oneOf ".") c = true -> c = "."%char.
Proof. destruct c as [[] [] [] [] [] [] [] []]; vm_compute; congruence. Qed.

Lemma length_nonempty (s : string) : (1 <=? String.length s)%nat = true <-> s <> EmptyString.
Proof. destruct s; cbn; split; congruence. Qed.

(** The shape of the strings the e-mail pattern accepts. *)
Lemma emailRegex_spec (e : string) :
  Regex.test emailRegex e = true <->
  exists loc dom tld,
    e = loc +:+ "@" +:+ dom +:+ "." +:+ tld /\
    loc <> EmptyString /\ allChars localClass loc = true /\
    dom <> EmptyString /\ allChars domainClass dom = true /\
    (2 <= String.length tld)%nat /\ allChars isLetter tld = true.
Proof.
  unfold emailRegex. rewrite test_Cat. split.
  - intros (loc & r1 & -> & Hloc & H1).
    rewrite test_plus_Class in Hloc. apply andb_true_iff in Hloc as [Hl1 Hl2].
    destruct r1 as [|c1 r1]; [discriminate |].
    rewrite test_Class_cons in H1. apply andb_true_iff in H1 as [Hat H2].
    apply ignoreCase_at in Hat. subst c1.
    apply test_Cat in H2 as (dom & r2 & -> & Hdom & H3).
    rewrite test_plus_Class in Hdom. apply andb_true_iff in Hdom as [Hd1 Hd2].
    destruct r2 as [|c2 tld]; [discriminate |].
    rewrite test_Class_cons in H3. apply andb_true_iff in H3 as [Hp H4].
    apply ignoreCase_period in Hp. subst c2.
    rewrite test_atLeast_Class in H4. apply andb_true_iff in H4 as [Ht1 Ht2].
    exists loc, dom, tld. split; [reflexivity |].
    rewrite (allChars_ext _ _ _ ignoreCase_localClass) in Hl2.
    rewrite (allChars_ext _ _ _ ignoreCase_domainClass) in Hd2.
    rewrite (allChars_ext _ _ _ ignoreCase_isLower) in Ht2.
    repeat split; try assumption; try (now apply length_nonempty).
    now apply Nat.leb_le.
  - intros (loc & dom & tld & -> & Hl1 & Hl2 & Hd1 & Hd2 & Ht1 & Ht2).
    exists loc, ("@" +:+ dom +:+ "." +:+ tld). split; [reflexivity |]. split.
    + rewrite test_plus_Class, (allChars_ext _ _ _ ignoreCase_localClass), Hl2.
      now rewrite (proj2 (length_nonempty loc) Hl1).
    + change ("@" +:+ dom +:+ "." +:+ tld) with (String "@" (dom +:+ "." +:+ tld)).
      rewrite test_Class_cons. apply andb_true_iff. split; [reflexivity |].
      apply test_Cat. exists dom, ("." +:+ tld). split; [reflexivity |]. split.
      * rewrite test_plus_Class, (allChars_ext _ _ _ ignoreCase_domainClass), Hd2.
        now rewrite (proj2 (length_nonempty dom) Hd1).
      * change ("." +:+ tld) with (String "." tld).
        rewrite test_Class_cons. apply andb_true_iff. split; [reflexivity |].
        rewrite test_atLeast_Class, (allChars_ext _ _ _ ignoreCase_isLower), Ht2.
        now rewrite (proj2 (Nat.leb_le _ _) Ht1).
Qed.

Lemma substring_all (s : string) : String.substring 0 (String.length s) s = s.
Proof. induction s as [|c s IH]; [reflexivity | cbn; now rewrite IH]. Qed.

Lemma length_append (s1 s2 : string) :
  String.length (s1 +:+ s2) = (String.length s1 + String.length s2)%nat.
Proof.
  induction s1 as [|c s1 IH]; [reflexivity |].
  rewrite append_cons_l. cbn [String.length Nat.add]. now rewrite IH.
Qed.

Lemma substring_skip (pre s : string) (m : nat) :
  String.substring (String.length pre) m (pre +:+ s) = String.substring 0 m s.
Proof. induction pre as [|c pre IH]; [reflexivity | exact IH]. Qed.

Lemma substring_suffix (k m : nat) (s : string) :
  String.length s = (k + m)%nat ->
  exists pre, s = pre +:+ String.substring k m s.
Proof.
  revert s. induction k as [|k IH]; intros s Hlen.
  - exists EmptyString. cbn in Hlen. subst m. now rewrite substring_all.
  - destruct s as [|c s]; [discriminate |]. cbn in Hlen.
    destruct (IH s) as [pre Hpre]; [lia |].
    exists (String c pre). rewrite append_cons_l. cbn [String.substring]. now rewrite <- Hpre.
Qed.

Lemma endsWith_spec (s suffix : string) :
  Js.endsWith s suffix = true <-> exists pre, s = pre +:+ suffix.
Proof.
  unfold Js.endsWith. cbv zeta. split.
  - destruct (Nat.leb_spec (String.length suffix) (String.length s)) as [Hle|]; [| discriminate].
    intros Heq. apply String.eqb_eq in Heq.
    destruct (substring_suffix (String.length s - String.length suffix)
                (String.length suffix) s) as [pre Hpre]; [lia |].
    exists pre. now rewrite Heq in Hpre.
  - intros [pre ->]. rewrite length_append.
    rewrite (proj2 (Nat.leb_le _ _)) by lia.
    replace (String.length pre + String.length suffix - String.length suffix)%nat
      with (String.length pre) by lia.
    rewrite substring_skip, substring_all. apply String.eqb_refl.
Qed.

Lemma append_assoc (s1 s2 s3 : string) : (s1 +:+ s2) +:+ s3 = s1 +:+ (s2 +:+ s3).
Proof.
  induction s1 as [|c s1 IH]; [reflexivity |]. rewrite !append_cons_l. now rewrite IH.
Qed.

(** A string has one last full stop. *)
Lemma last_period_unique (a a' t t' : string) :
  a +:+ String "." t = a' +:+ String "." t' ->
  allChars notPeriod t = true -> allChars notPeriod t' = true ->
  a = a' /\ t = t'.
Proof.
  revert a'. induction a as [|c a IH]; intros a' Heq Ht Ht'.
  - destruct a' as [|c' a'].
    + injection Heq as ->. now split.
    + rewrite append_nil_l, append_cons_l in Heq. injection Heq as <- ->.
      rewrite allChars_app in Ht. apply andb_true_iff in Ht as [_ Ht]. discriminate.
  - destruct a' as [|c' a'].
    + rewrite append_nil_l, append_cons_l in Heq. injection Heq as -> <-.
      rewrite allChars_app in Ht'. apply andb_true_iff in Ht' as [_ Ht']. discriminate.
    + rewrite !append_cons_l in Heq. injection Heq as -> Heq.
      destruct (IH a' Heq Ht Ht') as [-> ->]. now split.
Qed.

Lemma isLetter_notPeriod (c : ascii) : isLetter c = true -> notPeriod c = true.
Proof. destruct c as [[] [] [] [] [] [] [] []]; vm_compute; congruence. Qed.

(** X3: [validateEmail] accepts exactly the strings [local@domain.com] and
    [local@domain.in] whose local part is not empty and made of letters,
    digits and [._%+-], and whose domain is not empty and made of letters,
    digits, full stops and hyphens; the ending is in lower case. *)
Theorem validateEmail_ok_iff (email : string) :
  validateEmail email = ok <->
  exists loc dom,
    loc <> EmptyString /\ allChars localClass loc = true /\
    dom <> EmptyString /\ allChars domainClass dom = true /\
    (email = loc +:+ "@" +:+ dom +:+ ".com" \/ email = loc +:+ "@" +:+ dom +:+ ".in").
Proof.
  split.
  - intros Hok. unfold validateEmail in Hok.
    destruct (Js.truthy email); [| discriminate]. cbn [negb] in Hok.
    destruct (Regex.test emailRegex email) eqn:Hre; [| discriminate]. cbn [negb] in Hok.
    apply emailRegex_spec in Hre
      as (loc & dom & tld & He & Hl1 & Hl2 & Hd1 & Hd2 & Ht1 & Ht2).
    exists loc, dom. repeat (split; [assumption |]).
    assert (Htld : allChars notPeriod tld = true)
      by (apply (allChars_weaken isLetter); [exact isLetter_notPeriod | exact Ht2]).
    assert (Hsplit : email = (loc +:+ "@" +:+ dom) +:+ String "." tld)
      by (rewrite He, !append_assoc; reflexivity).
    destruct (Js.endsWith email ".com") eqn:Hcom.
    + left. apply endsWith_spec in Hcom as [pre Hpre].
      change (pre +:+ ".com") with (pre +:+ String "." "com") in Hpre.
      rewrite Hsplit in Hpre.
      destruct (last_period_unique _ _ _ _ Hpre Htld eq_refl) as [_ ->]. exact He.
    + destruct (Js.endsWith email ".in") eqn:Hin; [| discriminate].
      right. apply endsWith_spec in Hin as [pre Hpre].
      change (pre +:+ ".in") with (pre +:+ String "." "in") in Hpre.
      rewrite Hsplit in Hpre.
      destruct (last_period_unique _ _ _ _ Hpre Htld eq_refl) as [_ ->]. exact He.
  - intros (loc & dom & Hl1 & Hl2 & Hd1 & Hd2 & He). unfold validateEmail.
    assert (Hre : exists tld, email = loc +:+ "@" +:+ dom +:+ "." +:+ tld /\
                   (2 <= String.length tld)%nat /\ allChars isLetter tld = true /\
                   (Js.endsWith email ".com" = true \/ Js.endsWith email ".in" = true)).
    { destruct He as [He | He].
      - exists "com". repeat split; [exact He | cbn; lia |].
        left. apply endsWith_spec. exists (loc +:+ "@" +:+ dom).
        rewrite He, !append_assoc. reflexivity.
      - exists "in". repeat split; [exact He | cbn; lia |].
        right. apply endsWith_spec. exists (loc +:+ "@" +:+ dom).
        rewrite He, !append_assoc. reflexivity. }
    destruct Hre as (tld & Heq & Ht1 & Ht2 & Hends).
    assert (Htest : Regex.test emailRegex email = true).
    { apply emailRegex_spec. exists loc, dom, tld. now repeat split. }
    assert (Htruthy : Js.truthy email = true).
    { rewrite Heq. destruct loc; [congruence | reflexivity]. }
    rewrite Htruthy, Htest. cbn [negb].
    destruct Hends as [-> | ->]; [reflexivity |].
    now destruct (Js.endsWith email ".com").
Qed.

Lemma validateEmail_ok_iff_witness :
  Validation.validateEmail "asha.rao@mail.example.in" = Validation.ok.
Proof.
  apply (proj2 (validateEmail_ok_iff "asha.rao@mail.example.in")).
  exists "asha.rao", "mail.example". repeat split; try discriminate. now right.
Defined.

Example validateEmail_rejects_upper_case_ending :
  Validation.validateEmail "asha@example.COM" <> Validation.ok.
Proof. vm_compute. discriminate. Qed.

End ValidationFacts.

(** ** pages/Register.tsx and pages/Login.tsx *)

Module RegisterFacts.
Import Register ValidationFacts.

Lemma valid_ok (v : Validation.ValidationResult) :
  v = Validation.ok -> Validation.valid v = true.
Proof. now intros ->. Qed.

Lemma validateName_valid (n : string) :
  Validation.valid (NameValidation.validateName n) = true <->
  NameValidation.validateName n = Validation.ok.
Proof.
  unfold NameValidation.validateName.
  destruct (negb (Js.truthy n)); [cbn; split; discriminate |].
  destruct (String.length n <? 3)%nat; [cbn; split; discriminate |].
  destruct (negb _); cbn; split; try discriminate; reflexivity.
Qed.

Lemma validateEmail_valid (e : string) :
  Validation.valid (Validation.validateEmail e) = true <->
  Validation.validateEmail e = Validation.ok.
Proof.
  unfold Validation.validateEmail.
  destruct (negb (Js.truthy e)); [cbn; split; discriminate |].
  destruct (negb (Regex.test _ _)); [cbn; split; discriminate |].
  destruct (_ && _); cbn; split; try discriminate; reflexivity.
Qed.

Lemma validatePassword_valid (p : string) :
  Validation.valid (Validation.validatePassword p) = true <->
  Validation.validatePassword p = Validation.ok.
Proof.
  unfold Validation.validatePassword.
  destruct (negb (Js.truthy p)); [cbn; split; discriminate |].
  destruct (String.length p <? 8)%nat; [cbn; split; discriminate |].
  destruct (negb _); cbn; split; try discriminate; reflexivity.
Qed.

Lemma validatePassword_ok_nonempty (p : string) :
  Validation.validatePassword p = Validation.ok -> p <> EmptyString.
Proof. intros H ->. discriminate. Qed.

Lemma validateConfirmPassword_valid (p c : string) :
  p <> EmptyString ->
  Validation.valid (Validation.validateConfirmPassword p c) = true <-> c = p.
Proof.
  intros Hp. unfold Validation.validateConfirmPassword.
  destruct c as [|a c]; cbn [Js.truthy negb].
  - cbn. split; [discriminate | congruence].
  - destruct (String.eqb_spec p (String a c)) as [->|Hne]; cbn; split;
      try discriminate; try reflexivity; congruence.
Qed.

(** X4: the first step lets the user on exactly when the name, the address and
    the password pass their validators and the confirmation repeats the
    password. *)
Theorem validateStep1_passes_iff (snap s : RegisterState) :
  snd (validateStep1 snap s) = true <->
  NameValidation.validateName (name snap) = Validation.ok /\
  Validation.validateEmail (email snap) = Validation.ok /\
  Validation.validatePassword (password snap) = Validation.ok /\
  confirmPassword snap = password snap.
Proof.
  unfold validateStep1. cbn [snd]. rewrite !andb_true_iff.
  rewrite validateName_valid, validateEmail_valid, validatePassword_valid.
  split.
  - intros [[[Hn He] Hp] Hc]. repeat split; try assumption.
    now apply (validateConfirmPassword_valid (password snap));
      [apply validatePassword_ok_nonempty |].
  - intros (Hn & He & Hp & Hc). repeat split; try assumption.
    now apply validateConfirmPassword_valid; [apply validatePassword_ok_nonempty |].
Qed.

Lemma validateStep1_passes_iff_witness :
  snd (validateStep1
         (setConfirmPassword (const "Abcdef1!")
            (setPassword (const "Abcdef1!")
               (setEmail (const "asha@example.com")
                  (setName (const "Asha Rao") initialState))))
         initialState) = true.
Proof.
  apply (proj2 (validateStep1_passes_iff _ initialState)). vm_compute. repeat split.
Defined.

Lemma fieldError_ok : Forms.fieldError Validation.ok = "".
Proof. reflexivity. Qed.

Lemma truthy_true (s : string) : Js.truthy s = true -> s <> EmptyString.
Proof. now destruct s. Qed.

Ltac on_step H :=
  unfold onStep in H;
  match type of H with
  | (if ?b =? ?n then _ else _) = _ =>
      destruct (Z.eqb_spec b n) as [?Hstep | ?Hstep]; [| discriminate];
      injection H as <-
  end.

Ltac frame_guard Hg :=
  destruct Hg as [Hrange Hfirst Hsecond Hdom Hreq];
  split; cbn; unfold const; cbn;
  [ lia
  | try (intros ?; lia); try exact Hfirst
  | try (intros ?; lia); try exact Hsecond
  | try exact Hdom
  | try exact Hreq ].

Lemma react_guarded (e : Event) (w w' : World) :
  Wizard.guarded w -> react e w = Some w' -> Wizard.guarded w'.
Proof.
  intros Hg H. destruct e; unfold react in H.
  - on_step H. frame_guard Hg.
  - on_step H. frame_guard Hg.
  - on_step H. unfold handlePasswordChange.
    destruct (Js.truthy (confirmPassword (form w))); frame_guard Hg.
  - on_step H. frame_guard Hg.
  - on_step H. unfold onForm, next1.
    destruct (validateStep1 (form w) (form w)) as [s1 passed] eqn:Hv.
    pose proof (validateStep1_passes_iff (form w) (form w)) as Hiff.
    rewrite Hv in Hiff. cbn [snd] in Hiff.
    unfold validateStep1 in Hv. injection Hv as <- Hpassed.
    destruct passed.
    + destruct (proj1 Hiff eq_refl) as (Hn & He & Hp & Hc).
      destruct Hg as [Hrange Hfirst Hsecond Hdom Hreq].
      split; cbn; unfold const; cbn;
        [lia | intros _; repeat split; assumption | intros ?; lia | exact Hdom | exact Hreq].
    + frame_guard Hg.
  - on_step H. frame_guard Hg.
  - on_step H. frame_guard Hg.
  - on_step H. frame_guard Hg.
  - destruct (showDropdown (form w) && _); [| discriminate]. on_step H. frame_guard Hg.
  - destruct (_ && _); injection H as <-; [frame_guard Hg | exact Hg].
  - on_step H. frame_guard Hg.
  - on_step H. frame_guard Hg.
  - on_step H. unfold onForm, next2, validateStep2.
    destruct (Js.truthy (Forms.trim (college (form w)))) eqn:Hc; cbn [negb];
      [| frame_guard Hg].
    destruct (Js.truthy (year (form w))) eqn:Hy; cbn [negb]; [| frame_guard Hg].
    destruct Hg as [Hrange Hfirst Hsecond Hdom Hreq].
    split; cbn; unfold const; cbn;
      [lia | intros _; apply Hfirst; lia | intros _; split; now apply truthy_true
      | exact Hdom | exact Hreq].
  - case_bool_decide as Hd; [| discriminate]. on_step H.
    destruct Hg as [Hrange Hfirst Hsecond Hdom Hreq].
    split; cbn; unfold const; cbn; try assumption. now right.
  - on_step H. frame_guard Hg.
  - on_step H. frame_guard Hg. intros _. apply Hfirst. lia.
  - destruct (negb (loading (form w)) && Js.truthy (domain (form w))) eqn:Hen;
      [| discriminate].
    apply andb_true_iff in Hen as [_ Htr]. on_step H.
    unfold handleSubmit, validateStep3. rewrite Htr. cbn [negb].
    destruct Hg as [Hrange Hfirst Hsecond Hdom Hreq].
    split; cbn; unfold const; cbn; try assumption.
    apply Forall_app. split; [exact Hreq |]. apply Forall_singleton.
    split; [| split]; cbn.
    + apply Hfirst. lia.
    + now apply Hsecond.
    + destruct Hdom as [Hd | Hd]; [| exact Hd].
      apply truthy_true in Htr. contradiction.
  - destruct (0 <? awaiting w)%nat; [| discriminate]. injection H as <-. frame_guard Hg.
  - destruct (0 <? awaiting w)%nat; [| discriminate]. injection H as <-. frame_guard Hg.
  - destruct (timers w !! i) as [t|]; [| discriminate]. injection H as <-.
    destruct t; frame_guard Hg.
Qed.

Lemma initial_guarded : Wizard.guarded initial.
Proof.
  split; cbn; try lia; try (intros ?; lia); try discriminate.
  - now left.
  - apply Forall_nil_2.
Qed.

Lemma run_guarded (events : list Event) (w w' : World) :
  Wizard.guarded w -> run events w = Some w' -> Wizard.guarded w'.
Proof.
  revert w. induction events as [|e events IH]; intros w Hg Hrun; cbn in Hrun.
  - now injection Hrun as <-.
  - destruct (react e w) as [w1|] eqn:Hr; [| discriminate].
    apply (IH w1); [now apply (react_guarded e w) | exact Hrun].
Qed.

End RegisterFacts.

Module RegisterTheorems.
Import Register RegisterFacts.

(** X5: whatever the visitor does on the three steps, a registration request
    carries a name, an address and a password that pass their validators, an
    institution that is not blank, a graduation year and one of the listed
    domains. *)
Theorem registerUser_only_with_valid_form (events : list Event) (w : World) :
  run events initial = Some w ->
  forall r, r ∈ requests w ->
    NameValidation.validateName (r_name r) = Validation.ok /\
    Validation.validateEmail (r_email r) = Validation.ok /\
    Validation.validatePassword (r_password r) = Validation.ok /\
    Forms.trim (r_college r) <> EmptyString /\
    r_year r <> EmptyString /\
    r_domain r ∈ DOMAINS.
Proof.
  intros Hrun r Hr.
  pose proof (run_guarded events initial w initial_guarded Hrun) as Hg.
  destruct Hg as [_ _ _ _ Hreq]. rewrite Forall_forall in Hreq.
  destruct (Hreq r Hr) as ((Hn & He & Hp) & (Hc & Hy) & Hd).
  repeat split; assumption.
Qed.

Lemma registerUser_only_with_valid_form_witness :
  Forms.trim "Delhi University" <> EmptyString /\
  Validation.validatePassword "Abcdef1!" = Validation.ok.
Proof.
  destruct (registerUser_only_with_valid_form Walkthrough.signUp Walkthrough.signedUp)
    with (r := {| r_name := "Asha Rao"; r_email := "asha@example.com";
                  r_password := "Abcdef1!"; r_domain := "IoT";
                  r_college := "Delhi University"; r_year := "2027";
                  r_role := Auth.student |})
    as (_ & _ & Hp & Hc & _).
  - vm_compute. reflexivity.
  - vm_compute. left.
  - split; assumption.
Defined.

End RegisterTheorems.

Module LoginFacts.
Import Login ValidationFacts RegisterFacts.

Lemma fieldError_empty_iff_email (e : string) :
  Forms.fieldError (Validation.validateEmail e) = "" <->
  Validation.validateEmail e = Validation.ok.
Proof.
  unfold Validation.validateEmail.
  destruct (negb (Js.truthy e)); [cbn; split; discriminate |].
  destruct (negb (Regex.test _ _)); [cbn; split; discriminate |].
  destruct (_ && _); cbn; split; try discriminate; reflexivity.
Qed.

Lemma fieldError_empty_iff_password (p : string) :
  Forms.fieldError (Validation.validatePassword p) = "" <->
  Validation.validatePassword p = Validation.ok.
Proof.
  unfold Validation.validatePassword.
  destruct (negb (Js.truthy p)); [cbn; split; discriminate |].
  destruct (String.length p <? 8)%nat; [cbn; split; discriminate |].
  destruct (negb _); cbn; split; try discriminate; reflexivity.
Qed.

Lemma handleLogin_sends (snap : LoginState) (w : World) :
  Validation.validateEmail (email snap) = Validation.ok ->
  Validation.validatePassword (password snap) = Validation.ok ->
  handleLogin snap w =
    {| form := setLoading (const true)
                 (setPasswordError (const "") (setEmailError (const "") (form w)));
       console := console w ++ [{| attemptEmail := email snap;
                                   passwordLength := String.length (password snap) |}];
       requests := requests w ++ [{| c_email := email snap; c_password := password snap |}] |}.
Proof. intros He Hp. unfold handleLogin. now rewrite He, Hp. Qed.

(** X7: when the address or the password fails its validator, [handleLogin]
    sends nothing, logs nothing, leaves [loading] as it was and shows an
    error under at least one of the two fields. *)
Theorem handleLogin_refuses (snap : LoginState) (w : World) :
  ~ (Validation.validateEmail (email snap) = Validation.ok /\
     Validation.validatePassword (password snap) = Validation.ok) ->
  requests (handleLogin snap w) = requests w /\
  console (handleLogin snap w) = console w /\
  loading (form (handleLogin snap w)) = loading (form w) /\
  (emailError (form (handleLogin snap w)) <> "" \/
   passwordError (form (handleLogin snap w)) <> "").
Proof.
  intros Hnot. unfold handleLogin.
  destruct (Validation.valid (Validation.validateEmail (email snap))) eqn:He;
  destruct (Validation.valid (Validation.validatePassword (password snap))) eqn:Hp;
    cbn [negb orb]; cbn.
  - exfalso. apply Hnot. split; [now apply validateEmail_valid | now apply validatePassword_valid].
  - repeat split. right. unfold const. rewrite fieldError_empty_iff_password.
    intros H. apply validatePassword_valid in H. congruence.
  - repeat split. left. unfold const. rewrite fieldError_empty_iff_email.
    intros H. apply validateEmail_valid in H. congruence.
  - repeat split. left. unfold const. rewrite fieldError_empty_iff_email.
    intros H. apply validateEmail_valid in H. congruence.
Qed.

Lemma handleLogin_refuses_witness :
  requests (handleLogin (setPassword (const "short") (setEmail (const "a@b.org") initialState))
              initial) = [].
Proof.
  apply (handleLogin_refuses
           (setPassword (const "short") (setEmail (const "a@b.org") initialState)) initial).
  vm_compute. intros [H _]. discriminate H.
Defined.

Lemma react_requests_valid (e : Event) (w : World) :
  Forall (fun c => Validation.validateEmail (c_email c) = Validation.ok /\
                   Validation.validatePassword (c_password c) = Validation.ok) (requests w) ->
  Forall (fun c => Validation.validateEmail (c_email c) = Validation.ok /\
                   Validation.validatePassword (c_password c) = Validation.ok)
         (requests (react e w)).
Proof.
  intros Hall. destruct e; cbn; try exact Hall.
  unfold handleLogin.
  destruct (Validation.valid (Validation.validateEmail (email (form w)))) eqn:He;
  destruct (Validation.valid (Validation.validatePassword (password (form w)))) eqn:Hp;
    cbn [negb orb]; cbn; try exact Hall.
  apply Forall_app. split; [exact Hall |]. apply Forall_singleton. cbn.
  split; [now apply validateEmail_valid | now apply validatePassword_valid].
Qed.

(** X6: every login request the page sends carries an address of the form
    [local@domain.com] or [local@domain.in] and a password of eight
    characters or more with a lower-case letter, an upper-case letter, a
    digit and a special character. *)
Theorem login_only_with_valid_credentials (events : list Event) :
  forall c, c ∈ requests (run events) ->
    (exists loc dom,
        loc <> EmptyString /\ dom <> EmptyString /\
        (c_email c = loc +:+ "@" +:+ dom +:+ ".com" \/
         c_email c = loc +:+ "@" +:+ dom +:+ ".in")) /\
    (8 <= String.length (c_password c))%nat /\
    Chars.someChar Js.isLower (c_password c) = true /\
    Chars.someChar Js.isUpper (c_password c) = true /\
    Chars.someChar Js.isDigit (c_password c) = true /\
    Chars.someChar Validation.specialClass (c_password c) = true.
Proof.
  assert (Hall : forall w,
    Forall (fun c => Validation.validateEmail (c_email c) = Validation.ok /\
                     Validation.validatePassword (c_password c) = Validation.ok) (requests w) ->
    Forall (fun c => Validation.validateEmail (c_email c) = Validation.ok /\
                     Validation.validatePassword (c_password c) = Validation.ok)
           (requests (fold_left (fun w e => react e w) events w))).
  { induction events as [|e events IH]; intros w Hw; cbn; [exact Hw |].
    apply IH, react_requests_valid, Hw. }
  intros c Hc. specialize (Hall initial (Forall_nil_2 _)).
  rewrite Forall_forall in Hall. destruct (Hall c Hc) as [He Hp].
  apply validateEmail_ok_iff in He as (loc & dom & Hl & _ & Hd & _ & Heq).
  apply validatePassword_ok_iff in Hp as (H8 & _ & H1 & H2 & H3 & H4).
  split; [exists loc, dom; repeat split; assumption |].
  repeat split; assumption.
Qed.

Lemma login_only_with_valid_credentials_witness :
  (8 <= String.length "Abcdef1!")%nat.
Proof.
  destruct (login_only_with_valid_credentials Walkthrough.signIn
              {| c_email := "asha@example.com"; c_password := "Abcdef1!" |})
    as (_ & H8 & _).
  - vm_compute. left.
  - exact H8.
Defined.

End LoginFacts.

(** ** The session, the gamification store and the wrapper, again *)

Module SessionFacts.
Import Session.

Lemma effective_truthy (t : string) : Js.truthy t = true -> effective (Some t) = Some t.
Proof. unfold effective. cbn. now intros ->. Qed.

Lemma truthyOpt_effective (o : option string) : truthyOpt (effective o) = truthyOpt o.
Proof. unfold effective. destruct (truthyOpt o) eqn:H; [exact H | reflexivity]. Qed.

Lemma logout_inSync (rt : Auth.Runtime) (w : Auth.Window) :
  Auth.window rt = Some w -> inSync (Auth.logout rt).
Proof.
  intros Hw. unfold inSync, Auth.logout, Auth.withStorage. cbn. rewrite Hw. cbn.
  eexists. split; [reflexivity |]. cbn.
  rewrite lookup_delete_ne by discriminate. now rewrite lookup_delete_eq.
Qed.

Lemma apply_inSync (stringify : Auth.User -> string) (op : Op) (rt : Auth.Runtime) :
  inSync rt -> inSync (apply stringify op rt).
Proof.
  intros (w & Hw & Hsync). destruct op as [t | u | | err]; cbn.
  - unfold Auth.setToken. destruct t as [v|].
    + destruct (Js.truthy v) eqn:Hv; unfold Auth.withStorage; cbn; rewrite Hw; cbn;
        eexists; (split; [reflexivity |]); cbn.
      * now rewrite lookup_insert_eq.
      * rewrite lookup_delete_eq. unfold effective. cbn. now rewrite Hv.
    + unfold Auth.withStorage; cbn; rewrite Hw; cbn.
      eexists; (split; [reflexivity |]); cbn. now rewrite lookup_delete_eq.
  - unfold setUser. destruct u as [v|]; unfold Auth.withStorage; cbn; rewrite Hw; cbn;
      eexists; (split; [reflexivity |]); cbn.
    + now rewrite lookup_insert_ne by discriminate.
    + now rewrite lookup_delete_ne by discriminate.
  - now apply (logout_inSync rt w).
  - unfold Api.onRejected. cbn. case_bool_decide.
    + destruct (logout_inSync rt w Hw) as (w' & Hw' & Hs').
      unfold Api.navigate. rewrite Hw'. cbn. eexists. split; [reflexivity |]. exact Hs'.
    + exists w. now split.
Qed.

Lemma applyAll_inSync (stringify : Auth.User -> string) (ops : list Op) (rt : Auth.Runtime) :
  inSync rt -> inSync (applyAll stringify ops rt).
Proof.
  unfold applyAll. revert rt. induction ops as [|op ops IH]; intros rt H; cbn; [exact H |].
  apply IH, apply_inSync, H.
Qed.

(** X8: in a browser tab, after any sequence of [setToken], [setUser],
    [logout] and failed responses, the token a freshly created store would
    read from the storage is, as far as truthiness and value go, the token of
    the running store: both route guards decide the same after a reload. *)
Theorem session_survives_reload
    (parse : string -> option (option Auth.User)) (stringify : Auth.User -> string)
    (w : Auth.Window) (st : Auth.AuthState) (ops : list Op) :
  create parse (Some w) = Some st ->
  let rt := applyAll stringify ops {| Auth.window := Some w; Auth.auth := st |} in
  effective (initialToken (Auth.window rt)) = effective (Auth.token (Auth.auth rt)) /\
  (forall location,
      PrivateRoute (initialToken (Auth.window rt)) location =
      PrivateRoute (Auth.token (Auth.auth rt)) location) /\
  Protected (initialToken (Auth.window rt)) = Protected (Auth.token (Auth.auth rt)).
Proof.
  intros Hcreate rt.
  assert (Hstart : inSync {| Auth.window := Some w; Auth.auth := st |}).
  { exists w. split; [reflexivity |]. unfold create in Hcreate.
    destruct (initialUser parse (Some w)); [| discriminate]. now injection Hcreate as <-. }
  destruct (applyAll_inSync stringify ops _ Hstart) as (w' & Hw' & Hsync).
  fold rt in Hw', Hsync. rewrite Hw'. cbn [initialToken].
  assert (Ht : truthyOpt (Auth.localStorage w' !! "gg_token") =
               truthyOpt (Auth.token (Auth.auth rt))).
  { rewrite <- (truthyOpt_effective (Auth.localStorage w' !! "gg_token")), <- Hsync.
    apply truthyOpt_effective. }
  split; [now symmetry |]. unfold PrivateRoute, Protected. rewrite Ht. now split.
Qed.

Lemma session_survives_reload_witness :
  PrivateRoute
    (initialToken (Auth.window
       (applyAll Walkthrough.printUser
          [SetUser (Some Walkthrough.asha); ResponseError Samples.unauthorized;
           SetToken (Some "xyz")]
          {| Auth.window := Some Walkthrough.returningTab;
             Auth.auth := {| Auth.token := Some "abc"; Auth.user := None |} |})))
    "/quiz" = Children.
Proof.
  pose proof (session_survives_reload Walkthrough.parseUser Walkthrough.printUser
                Walkthrough.returningTab
                {| Auth.token := Some "abc"; Auth.user := None |}
                [SetUser (Some Walkthrough.asha); ResponseError Samples.unauthorized;
                 SetToken (Some "xyz")] eq_refl) as (_ & Hroute & _).
  rewrite Hroute. reflexivity.
Defined.

(** X9: the request interceptor sets [Authorization: Bearer <token>] and keeps
    every other header when the store holds a non-empty token, and leaves the
    request as it is otherwise, in particular after [logout] and after a 401
    went through the response interceptor. *)
Theorem onRequest_authorization :
  (forall (t : string) (config : RequestConfig),
      Js.truthy t = true ->
      url (onRequest (Some t) config) = url config /\
      exists h, headers (onRequest (Some t) config) = Some h /\
                h !! "Authorization" = Some ("Bearer " +:+ t) /\
                forall k : string, k <> "Authorization" ->
                  h !! k = default ∅ (headers config) !! k) /\
  (forall (token : option string) (config : RequestConfig),
      truthyOpt token = false -> onRequest token config = config) /\
  (forall (rt : Auth.Runtime) (config : RequestConfig),
      onRequest (Auth.token (Auth.auth (Auth.logout rt))) config = config) /\
  (forall (err : Api.AxiosError) (c : Api.Client) (config : RequestConfig),
      Api.status <$> Api.response err = Some 401 ->
      onRequest (Auth.token (Auth.auth (Api.runtime (fst (Api.onRejected err c))))) config
      = config).
Proof.
  split; [| split; [| split]].
  - intros t config Ht. unfold onRequest. rewrite Ht. cbn. split; [reflexivity |].
    eexists. split; [reflexivity |]. split.
    + apply lookup_insert_eq.
    + intros k Hk. now rewrite lookup_insert_ne by congruence.
  - intros [t|] config H; cbn in H; unfold onRequest; [now rewrite H | reflexivity].
  - reflexivity.
  - intros err c config H. unfold Api.onRejected. cbn.
    rewrite bool_decide_eq_true_2 by exact H. reflexivity.
Qed.

Lemma onRequest_authorization_witness :
  exists h, headers (onRequest (Some "abc") {| url := "/quiz"; headers := None |}) = Some h /\
            h !! "Authorization" = Some "Bearer abc".
Proof.
  destruct (proj1 onRequest_authorization "abc" {| url := "/quiz"; headers := None |} eq_refl)
    as (_ & h & Hh & Ha & _).
  exists h. now split.
Defined.

End SessionFacts.

Module GamificationFacts.
Import Gamification.

Lemma fold_setAdd_prefix (xs seen : list string) :
  seen `prefix_of` fold_left Js.setAdd xs seen.
Proof.
  revert seen. induction xs as [|x xs IH]; intros seen; cbn; [reflexivity |].
  etransitivity; [| apply IH]. unfold Js.setAdd. case_bool_decide; [reflexivity |].
  now apply prefix_app_r.
Qed.

(** X10: [mergeBadges] yields exactly the badges held before and the
    incoming ones; in every store the operations lead to, the badges held
    before stay in front in their order; the points are not touched. *)
Theorem mergeBadges_keeps_and_adds :
  (forall (incoming : list string) (now : string) (s : GamificationState) (b : string),
      b ∈ badges (mergeBadges incoming now s) <-> b ∈ badges s \/ b ∈ incoming) /\
  (forall (actions : list Action) (incoming : list string) (now : string),
      badges (run actions) `prefix_of` badges (mergeBadges incoming now (run actions))) /\
  (forall (incoming : list string) (now : string) (s : GamificationState),
      xp (mergeBadges incoming now s) = xp s).
Proof.
  split; [| split].
  - intros incoming now s b. cbn. unfold Js.arrayFromSet.
    rewrite elem_of_fold_setAdd, elem_of_app, elem_of_nil. tauto.
  - intros actions incoming now. cbn. unfold Js.arrayFromSet. rewrite fold_left_app.
    fold (Js.arrayFromSet (badges (run actions))).
    rewrite arrayFromSet_fixed; [apply fold_setAdd_prefix |].
    apply fold_dispatch_keeps_badges_distinct, NoDup_nil_2.
  - reflexivity.
Qed.

Lemma mergeBadges_keeps_and_adds_witness :
  "silver" ∈ badges (mergeBadges ["gold"; "silver"] "2024-05-01T10:00:00.000Z" initial).
Proof.
  apply (proj1 mergeBadges_keeps_and_adds). right. right. left.
Defined.

End GamificationFacts.

Module EnhancedApiFacts.
Import EnhancedApi.

Ltac unfold_methods :=
  unfold getUserProfile, getPersonalizedRecommendations, getTrendingSkills, getVideos,
    getCourses, getCertificationRoadmap, getBeginnerChecklist, getUserStreak,
    getQuizQuestions, getCodingChallenge, getUserPlaylist, getRecentActivity,
    trackProgress, addToPlaylist, removeFromPlaylist, updatePlaylistProgress,
    submitCode, exportRoadmap.

Lemma invoke_tryBackend (domainAwareApi : BackendCall -> Outcome) (mock : MockData)
    (op : Operation) (self : EnhancedDomainApi) :
  exists warning,
    invoke domainAwareApi mock op self =
      tryBackend self (domainAwareApi (backendCall op)) warning (fallbackOf mock op).
Proof. destruct op; cbn; unfold_methods; eexists; reflexivity. Qed.

(** X11: for every operation of the wrapper, a successful backend call is
    handed on as it is, with no warning, whatever the mock flag; with the flag
    on the operation never rejects; and an operation only ever rejects with
    the error of its backend call, the flag being off. *)
Theorem enhanced_success_untouched_and_mock_total
    (domainAwareApi : BackendCall -> Outcome) (mock : MockData)
    (op : Operation) (self : EnhancedDomainApi) :
  (forall v, domainAwareApi (backendCall op) = Js.Fulfilled v ->
             invoke domainAwareApi mock op self = (Js.Fulfilled v, [])) /\
  (useMockData self = true ->
   exists v, fst (invoke domainAwareApi mock op self) = Js.Fulfilled v) /\
  (forall error, fst (invoke domainAwareApi mock op self) = Js.Rejected error ->
                 useMockData self = false /\
                 domainAwareApi (backendCall op) = Js.Rejected error).
Proof.
  destruct (invoke_tryBackend domainAwareApi mock op self) as [warning ->].
  unfold tryBackend. split; [| split].
  - intros v ->. reflexivity.
  - intros Hflag. rewrite Hflag. destruct (domainAwareApi (backendCall op)); cbn; eauto.
  - intros error. destruct (domainAwareApi (backendCall op)) as [v | e]; cbn; [discriminate |].
    destruct (useMockData self); cbn; [discriminate |]. intros [= ->]. now split.
Qed.

Lemma enhanced_success_untouched_and_mock_total_witness :
  exists v, fst (invoke Samples.backendDown Samples.mocks GetTrendingSkills
                   (enableMockData true enhancedDomainApi)) = Js.Fulfilled v.
Proof.
  apply (proj1 (proj2 (enhanced_success_untouched_and_mock_total
                         Samples.backendDown Samples.mocks GetTrendingSkills
                         (enableMockData true enhancedDomainApi)))).
  reflexivity.
Defined.

End EnhancedApiFacts.

(** ** hooks/useUniversitySearch.ts, again *)

Module UniversitySearchMore.
Import UniversitySearch UniversitySearchFacts.

Lemma afterFetch_disabled (query : string) (outcome : FetchOutcome) (w : World) :
  apiDisabled w = true -> snd (afterFetch query outcome w) = true.
Proof.
  intros Hd. destruct outcome as [n| |[[|u d]|]]; cbn; try exact Hd.
  case_bool_decide; [exact Hd | reflexivity].
Qed.

Lemma filter_sublist {A : Type} (f : A -> bool) (l : list A) : List.filter f l ⊆ l.
Proof. intros x Hx. apply list_elem_of_In in Hx. apply filter_In in Hx as [Hx _].
  now apply list_elem_of_In. Qed.

(** Once the API is disabled, an event starts no request and leaves it
    disabled. *)
Lemma step_disabled (e : Event) (w w' : World) :
  apiDisabled w = true -> step e w = Some w' ->
  apiDisabled w' = true /\ nextController w' = nextController w /\
  inflight w' ⊆ inflight w.
Proof.
  intros Hd Hstep. destruct e as [query d | ms | | c | c outcome]; unfold step in Hstep.
  - destruct (0 <=? d); [| discriminate]. injection Hstep as <-.
    unfold queryChange, effect.
    destruct (cleanupArmed w), (negb (Js.truthy query) || (String.length query <? 2)%nat);
      cbn; repeat split; try assumption; reflexivity.
  - destruct (0 <=? ms); [| discriminate]. injection Hstep as <-. cbn.
    repeat split; try assumption; reflexivity.
  - destruct (debounceTimer w) as [[deadline query]|]; [| discriminate].
    destruct (deadline <=? clock w); [| discriminate]. injection Hstep as <-.
    unfold timerCallback. rewrite Hd. cbn. repeat split; reflexivity.
  - destruct (findRequest c w) as [r|]; [| discriminate].
    destruct (abortAt r <=? clock w); [| discriminate]. injection Hstep as <-. cbn.
    repeat split; try assumption; reflexivity.
  - destruct (findRequest c w) as [r|]; [| discriminate].
    pose proof (afterFetch_disabled (requestQuery r) (observed c outcome w) w Hd) as Hsnd.
    destruct (afterFetch (requestQuery r) (observed c outcome w) w) as [h disabled].
    injection Hstep as <-. cbn in *. repeat split; try assumption.
    apply filter_sublist.
Qed.

(** X12: when a request that was not aborted fails with an error other than
    an [AbortError], the fallback list of its query is shown, and from then on
    the API is disabled: whatever happens next, no request is started. *)
Theorem api_stays_disabled_after_failure
    (c : nat) (r : Request) (errorName : option string) (events : list Event)
    (w w1 w2 : World) :
  findRequest c w = Some r ->
  c ∉ aborted w ->
  errorName <> Some "AbortError" ->
  step (Settle c (Threw errorName)) w = Some w1 ->
  run events w1 = Some w2 ->
  universities (hook w1) = fallbackResults (requestQuery r) /\
  apiDisabled w2 = true /\
  nextController w2 = nextController w /\
  inflight w2 ⊆ inflight w.
Proof.
  intros Hfind Hlive Hname Hstep Hrun.
  assert (H1 : universities (hook w1) = fallbackResults (requestQuery r) /\
               apiDisabled w1 = true /\ nextController w1 = nextController w /\
               inflight w1 ⊆ inflight w).
  { unfold step in Hstep. rewrite Hfind in Hstep. unfold observed in Hstep.
    rewrite bool_decide_eq_false_2 in Hstep by exact Hlive.
    cbn in Hstep. rewrite bool_decide_eq_false_2 in Hstep by exact Hname.
    injection Hstep as <-. cbn. repeat split. apply filter_sublist. }
  destruct H1 as (Hu & Hd1 & Hn1 & Hi1). split; [exact Hu |].
  clear Hstep Hu. revert w1 Hd1 Hn1 Hi1 Hrun.
  induction events as [|e events IH]; intros w1 Hd1 Hn1 Hi1 Hrun; cbn in Hrun.
  - injection Hrun as <-. now repeat split.
  - destruct (step e w1) as [w1'|] eqn:Hs; [| discriminate].
    destruct (step_disabled e w1 w1' Hd1 Hs) as (Hd' & Hn' & Hi').
    apply (IH w1'); try assumption; [congruence |].
    intros x Hx. apply Hi1, Hi', Hx.
Qed.

Lemma api_stays_disabled_after_failure_witness :
  (default Samples.searching
     (run [Settle 0 (Threw (Some "TypeError")); QueryChange "mumbai" 500; Advance 500; Fire]
          Samples.searching)).(apiDisabled) = true.
Proof.
  refine (proj1 (proj2 (api_stays_disabled_after_failure 0
            {| controller := 0; requestQuery := "delhi"; abortAt := 3500 |}
            (Some "TypeError") [QueryChange "mumbai" 500; Advance 500; Fire]
            Samples.searching
            (default Samples.searching
               (step (Settle 0 (Threw (Some "TypeError"))) Samples.searching))
            _ _ _ _ _ _))).
  - vm_compute. reflexivity.
  - vm_compute. discriminate.
  - discriminate.
  - vm_compute. reflexivity.
  - vm_compute. reflexivity.
Defined.

(** X13: when the query becomes shorter than two characters while a request
    is in flight, the results are cleared and no timer is armed; yet the
    aborted request, on settling, writes the fallback list of its own query
    over the cleared results. *)
Theorem aborted_request_overwrites_cleared_results
    (c : nat) (r : Request) (short : string) (debounceMs : Z) (outcome : FetchOutcome)
    (w : World) :
  findRequest c w = Some r ->
  abortControllerRef (hook w) = Some c ->
  cleanupArmed w = true ->
  (String.length short < 2)%nat ->
  0 <= debounceMs ->
  exists w1 w2,
    step (QueryChange short debounceMs) w = Some w1 /\
    universities (hook w1) = [] /\
    debounceTimer w1 = None /\
    step (Settle c outcome) w1 = Some w2 /\
    universities (hook w2) = fallbackResults (requestQuery r) /\
    universities (hook w2) <> [].
Proof.
  intros Hfind Hcur Harmed Hshort Hd.
  assert (Hs : negb (Js.truthy short) || (String.length short <? 2)%nat = true).
  { apply orb_true_iff. right. now apply Nat.ltb_lt. }
  eexists. eexists. split.
  { unfold step. rewrite (proj2 (Z.leb_le _ _) Hd). reflexivity. }
  unfold queryChange, effect. rewrite Harmed. cbn [cleanup hook universities
    debounceTimer apiDisabled clock inflight aborted nextController cleanupArmed].
  rewrite Hs. cbn [hook universities debounceTimer].
  split; [reflexivity |]. split; [reflexivity |].
  unfold step, findRequest. cbn [inflight].
  unfold findRequest in Hfind. rewrite Hfind.
  unfold observed. cbn [aborted].
  rewrite bool_decide_eq_true_2
    by (unfold abortCurrent; rewrite Hcur; set_solver).
  cbn. split; [reflexivity |]. split; [reflexivity |].
  apply (fallbackResults_spec (requestQuery r)).
Qed.

Lemma aborted_request_overwrites_cleared_results_witness :
  exists w1 w2,
    step (QueryChange "d" 500) Samples.searching = Some w1 /\
    universities (hook w1) = [] /\
    debounceTimer w1 = None /\
    step (Settle 0 (Parsed None)) w1 = Some w2 /\
    universities (hook w2) = fallbackResults "delhi" /\
    universities (hook w2) <> [].
Proof.
  apply (aborted_request_overwrites_cleared_results 0
           {| controller := 0; requestQuery := "delhi"; abortAt := 3500 |}
           "d" 500 (Parsed None) Samples.searching).
  - vm_compute. reflexivity.
  - vm_compute. reflexivity.
  - vm_compute. reflexivity.
  - vm_compute. lia.
  - lia.
Defined.

End UniversitySearchMore.

Module UniversitySpinner.
Import UniversitySearch.

Lemma step_loading (e : Event) (w w' : World) :
  (loading (hook w) = true -> inflight w <> []) ->
  step e w = Some w' ->
  loading (hook w') = true -> inflight w' <> [].
Proof.
  intros Hinv Hstep. destruct e as [query d | ms | | c | c outcome]; unfold step in Hstep.
  - destruct (0 <=? d); [| discriminate]. injection Hstep as <-.
    unfold queryChange, effect.
    destruct (cleanupArmed w), (negb (Js.truthy query) || (String.length query <? 2)%nat);
      cbn; exact Hinv.
  - destruct (0 <=? ms); [| discriminate]. injection Hstep as <-. exact Hinv.
  - destruct (debounceTimer w) as [[deadline query]|]; [| discriminate].
    destruct (deadline <=? clock w); [| discriminate]. injection Hstep as <-.
    unfold timerCallback. destruct (negb _ && negb _); cbn.
    + intros _. destruct (inflight w); discriminate.
    + discriminate.
  - destruct (findRequest c w) as [r|]; [| discriminate].
    destruct (abortAt r <=? clock w); [| discriminate]. injection Hstep as <-. exact Hinv.
  - destruct (findRequest c w) as [r|]; [| discriminate].
    pose proof (UniversitySearchFacts.afterFetch_hook (requestQuery r) (observed c outcome w) w)
      as (_ & _ & Hl).
    destruct (afterFetch (requestQuery r) (observed c outcome w) w) as [h disabled].
    injection Hstep as <-. cbn in *. rewrite Hl. discriminate.
Qed.

(** X18: the hook reports [loading] only while a request is in flight. *)
Theorem loading_only_while_in_flight (events : list Event) (w : World) :
  run events initial = Some w ->
  loading (hook w) = true -> inflight w <> [].
Proof.
  assert (H0 : loading (hook initial) = true -> inflight initial <> []) by discriminate.
  revert H0. generalize initial.
  induction events as [|e events IH]; intros w0 H0 Hrun; cbn in Hrun.
  - now injection Hrun as <-.
  - destruct (step e w0) as [w1|] eqn:Hs; [| discriminate].
    apply (IH w1); [apply (step_loading e w0 w1 H0 Hs) | exact Hrun].
Qed.

Lemma loading_only_while_in_flight_witness : inflight Samples.searching <> [].
Proof.
  apply (loading_only_while_in_flight Samples.typedDelhi Samples.searching);
    vm_compute; reflexivity.
Defined.

End UniversitySpinner.

(** ** pages/Quiz.tsx: the books and the clock *)

Module QuizBooks.
Import Quiz QuizFacts Books.

Lemma sumTimes_app (rs : list QuizResponse) (r : QuizResponse) :
  sumTimes (rs ++ [r]) = F64.add (sumTimes rs) (timeTaken r).
Proof. unfold sumTimes. now rewrite fold_left_app. Qed.

Lemma countCorrect_app (rs : list QuizResponse) (r : QuizResponse) :
  countCorrect (rs ++ [r]) = countCorrect rs + (if isCorrect r then 1 else 0).
Proof.
  unfold countCorrect. rewrite List.filter_app, length_app. cbn.
  destruct (isCorrect r); cbn; lia.
Qed.

Lemma responseIds_fresh (s : QuizState) (q : QuizQuestion) (r : QuizResponse) :
  NoDup (responseIds s) -> alreadyAnswered s q = false -> r_id r = id q ->
  NoDup (r_id <$> (responses s ++ [r])).
Proof.
  intros Hnd Hfresh Hid. rewrite fmap_app. cbn. apply NoDup_app. split; [exact Hnd |].
  split; [| apply NoDup_singleton].
  intros x Hx Hx'. apply list_elem_of_singleton in Hx'. subst x.
  rewrite Hid in Hx. now apply (alreadyAnswered_false s q).
Qed.

(** A state whose books use the same cells is balanced as well. *)
Lemma balanced_frame (s s' : QuizState) :
  responses s' = responses s -> correctCount s' = correctCount s ->
  totalTimeSpent s' = totalTimeSpent s -> currentStreak s' = currentStreak s ->
  maxStreakLive s' = maxStreakLive s ->
  balanced s -> balanced s'.
Proof.
  intros Hr Hc Ht Hs Hm [B1 B2 B3 B4 B5].
  split; unfold responseIds in *; rewrite ?Hr, ?Hc, ?Ht, ?Hs, ?Hm; assumption.
Qed.

Lemma payload_correct (rs : list QuizResponse) :
  fold_right (fun r acc => p_correct r + acc) 0 (payloadResponse <$> rs) = countCorrect rs.
Proof.
  unfold countCorrect. induction rs as [|r rs IH]; cbn; [reflexivity |].
  rewrite IH. destruct (isCorrect r); cbn [length]; lia.
Qed.

Lemma payloadOf_balanced (snap : QuizState) :
  balanced snap -> payloadBalanced (payloadOf snap).
Proof.
  intros [B1 B2 B3 _ _]. split; cbn.
  - unfold responseIds in B1. rewrite <- list_fmap_compose.
    erewrite list_fmap_ext; [exact B1 |]. now intros i r _.
  - now rewrite payload_correct, B2.
Qed.

Lemma handleFinishQuiz_audited (snap : QuizState) (w : World) :
  audited w -> balanced snap -> audited (handleFinishQuiz snap w).
Proof.
  intros [Hs Ha Hr] Hsnap. unfold handleFinishQuiz.
  destruct (negb _); split; cbn; try assumption.
  - revert Hs. apply balanced_frame; reflexivity.
  - apply Forall_app. split; [exact Hr |]. apply Forall_singleton.
    now apply payloadOf_balanced.
Qed.

Lemma advance_audited (snap : QuizState) (w : World) :
  audited w -> audited (onState (advance snap) w).
Proof.
  intros [Hs Ha Hr]. split; cbn; try assumption.
  revert Hs. apply balanced_frame; reflexivity.
Qed.

Lemma handleTimeExpired_audited (w : World) :
  audited w -> audited (handleTimeExpired (state w) w).
Proof.
  intros Haud. unfold handleTimeExpired.
  destruct (currentQuestion (state w)) as [q|] eqn:Hq; [| exact Haud].
  destruct (isAnswerSubmitted (state w)); [exact Haud |].
  destruct (alreadyAnswered (state w) q) eqn:Hfresh; [exact Haud |].
  pose proof Haud as [[B1 B2 B3 B4 B5] Ha Hr]. split; cbn; try assumption.
  - split; cbn -[sumTimes]; unfold const.
    + now apply (responseIds_fresh (state w) q).
    + rewrite countCorrect_app. cbn. lia.
    + rewrite sumTimes_app. cbn. now rewrite B3.
    + lia.
    + apply Forall_app. split; [exact B5 |]. apply Forall_singleton.
      split; cbn; [now split | discriminate].
  - apply Forall_app. split; [exact Ha |]. apply Forall_singleton. now split.
Qed.

Lemma handleSubmitAnswer_audited (w : World) :
  audited w -> audited (handleSubmitAnswer (state w) w).
Proof.
  intros Haud. unfold handleSubmitAnswer.
  destruct (selectedOption (state w)) as [sel|]; [| destruct Haud; split; assumption].
  destruct (currentQuestion (state w)) as [q|]; [| destruct Haud; split; assumption].
  destruct (alreadyAnswered (state w) q) eqn:Hfresh; [exact Haud |].
  destruct Haud as [[B1 B2 B3 B4 B5] Ha Hr]. split; cbn; try assumption.
  destruct (sel =? answer q) eqn:Hcorrect;
    (split; cbn -[sumTimes F64.max]; unfold const; cbn -[sumTimes F64.max];
     [ now apply (responseIds_fresh (state w) q)
     | rewrite countCorrect_app; cbn; lia
     | rewrite sumTimes_app; cbn; now rewrite B3
     | lia
     | apply Forall_app; split; [exact B5 |]; apply Forall_singleton;
       split; cbn; [discriminate | intros _; apply F64Facts.max_one_not_below] ]).
Qed.

Lemma quiz_step_audited (e : Event) (w w' : World) :
  audited w -> step e w = Some w' -> audited w'.
Proof.
  intros Haud Hstep. pose proof Haud as [Hs Ha Hr].
  destruct e; unfold step in Hstep.
  - injection Hstep as <-. split; cbn; try assumption.
    revert Hs. apply balanced_frame; reflexivity.
  - injection Hstep as <-. split; cbn; try assumption.
    revert Hs. apply balanced_frame; reflexivity.
  - injection Hstep as <-. split; cbn; try assumption.
    revert Hs. apply balanced_frame; reflexivity.
  - injection Hstep as <-. unfold loadQuiz.
    destruct (Js.truthy (activeDomain (state w))); cbn [negb]; [| exact Haud].
    split; cbn; try assumption.
    split; cbn; unfold const; cbn; try reflexivity; try lia;
      [apply NoDup_nil_2 | apply Forall_nil_2].
  - destruct (0 <? pendingLoads w)%nat; [| discriminate]. injection Hstep as <-.
    unfold quizLoaded. destruct (items data) as [[|q qs]|]; split; cbn; try assumption;
      (revert Hs; apply balanced_frame; reflexivity).
  - destruct (0 <? pendingLoads w)%nat; [| discriminate]. injection Hstep as <-.
    split; cbn; try assumption. revert Hs. apply balanced_frame; reflexivity.
  - injection Hstep as <-. unfold handleSelectOption.
    destruct (isAnswerSubmitted (state w)); [exact Haud |].
    split; cbn; try assumption. revert Hs. apply balanced_frame; reflexivity.
  - injection Hstep as <-. now apply handleSubmitAnswer_audited.
  - injection Hstep as <-. unfold handleNextQuestion.
    destruct (isAnswerSubmitted (state w)); cbn [negb].
    + destruct (onLastQuestion (state w)).
      * now apply handleFinishQuiz_audited.
      * now apply advance_audited.
    + split; assumption.
  - injection Hstep as <-. split; cbn; try assumption.
    unfold countdownEffect. destruct (quizMeta (state w)); [| exact Hs].
    destruct (countdownActive (state w)); [| exact Hs].
    revert Hs. apply balanced_frame; reflexivity.
  - destruct (countdownActive (state w)); [| discriminate]. injection Hstep as <-.
    unfold intervalTick. destruct (F64.leb (questionTimeLeft (state w)) F64.one).
    + pose proof (handleTimeExpired_audited w Haud) as [Hs' Ha' Hr'].
      split; cbn; try assumption. revert Hs'. apply balanced_frame; reflexivity.
    + split; cbn; try assumption. revert Hs. apply balanced_frame; reflexivity.
  - destruct (pendingAdvance w !! i) as [snap|] eqn:Hi; [| discriminate].
    injection Hstep as <-.
    assert (Hsnap : balanced snap) by apply (Forall_lookup_1 _ _ i snap Ha Hi).
    assert (Haud' : audited (dropAdvance i w)).
    { split; cbn; try assumption. apply (Forall_delete _ _ i), Ha. }
    unfold timeoutCallback. destruct (onLastQuestion snap).
    + now apply handleFinishQuiz_audited.
    + now apply advance_audited.
  - destruct (pendingSubmit w !! i) as [snap|]; [| discriminate].
    injection Hstep as <-. split; cbn; try assumption.
    destruct Hs as [B1 B2 B3 B4 B5]. split; cbn; unfold const; try assumption. lia.
  - destruct (pendingSubmit w !! i) as [snap|]; [| discriminate].
    injection Hstep as <-. split; cbn; try assumption.
    revert Hs. apply balanced_frame; reflexivity.
Qed.

Lemma quiz_initial_audited (domain : string) : audited (initial domain).
Proof.
  split; cbn; try apply Forall_nil_2.
  split; cbn; try reflexivity; try lia; [apply NoDup_nil_2 | apply Forall_nil_2].
Qed.

(** *** Whole seconds *)

Lemma whole_ofZ (k : Z) : 0 <= k < 2 ^ 53 -> wholeSeconds (F64.Finite (inject_Z k)).
Proof. intros H. now exists k. Qed.

Lemma seconds_whole (k : Z) : seconds (F64.Finite (inject_Z k)) = k.
Proof. apply Qfloor_Z. Qed.

Lemma exactSum_app (rs : list QuizResponse) (r : QuizResponse) :
  exactSum (rs ++ [r]) = exactSum rs + seconds (timeTaken r).
Proof. unfold exactSum. induction rs as [|a rs IH]; cbn; [lia | rewrite IH; lia]. Qed.

Lemma exactSum_nonneg (rs : list QuizResponse) :
  Forall (fun r => wholeSeconds (timeTaken r)) rs -> 0 <= exactSum rs.
Proof.
  unfold exactSum. induction 1 as [|r rs (k & Hk & E) _ IH]; cbn; [lia |].
  rewrite E, seconds_whole. lia.
Qed.

(** The time recorded for a locked answer is a whole number of seconds when
    the window and the time left are. *)
Lemma locked_time_whole (window left : F64.double) :
  wholeSeconds window -> wholeSeconds left ->
  wholeSeconds (F64.max F64.one (F64.min window (F64.sub window left))).
Proof.
  intros (kw & Hkw & ->) (kl & Hkl & ->).
  rewrite F64Facts.sub_Z by lia. rewrite F64Facts.min_Z.
  change F64.one with (F64.Finite (inject_Z 1)). rewrite F64Facts.max_Z.
  apply whole_ofZ. lia.
Qed.

(** Appending a response of whole seconds keeps the books of the clock. *)
Lemma clocked_total_app (rs : list QuizResponse) (r : QuizResponse) (total t : F64.double) :
  timeTaken r = t ->
  Forall (fun r => wholeSeconds (timeTaken r)) rs ->
  wholeSeconds t ->
  (exactSum rs < 2 ^ 53 -> total = F64.Finite (inject_Z (exactSum rs))) ->
  exactSum (rs ++ [r]) < 2 ^ 53 ->
  F64.add total t = F64.Finite (inject_Z (exactSum (rs ++ [r]))).
Proof.
  intros Ht Hrs (k & Hk & E) Htotal Hsum. pose proof (exactSum_nonneg rs Hrs) as H0.
  rewrite exactSum_app, Ht, E, seconds_whole in *.
  rewrite Htotal by lia. apply F64Facts.add_Z. lia.
Qed.

Lemma clocked_frame (s s' : QuizState) :
  questionTimeLeft s' = questionTimeLeft s -> quizMeta s' = quizMeta s ->
  responses s' = responses s -> totalTimeSpent s' = totalTimeSpent s ->
  clocked s -> clocked s'.
Proof.
  intros Hl Hm Hr Ht [C1 C2 C3 C4].
  split; unfold totalWindowOf in *; rewrite ?Hl, ?Hm, ?Hr, ?Ht; assumption.
Qed.

(** Setting the time left to whole seconds keeps the clocks. *)
Lemma clocked_left (s : QuizState) (t : F64.double) :
  wholeSeconds t -> clocked s -> clocked (setQuestionTimeLeft (const t) s).
Proof. intros Ht [C1 C2 C3 C4]. split; assumption. Qed.

Lemma reported_times (rs : list QuizResponse) :
  Forall (fun r => wholeSeconds (timeTaken r)) rs ->
  Forall (fun r => exists k, 0 <= k /\ p_time_taken r = Js.Num k) (payloadResponse <$> rs) /\
  reportedSum (payloadResponse <$> rs) = exactSum rs.
Proof.
  unfold reportedSum, exactSum.
  induction 1 as [|r rs (k & Hk & E) _ [IH1 IH2]]; [split; [constructor | reflexivity] |].
  assert (Hr : p_time_taken (payloadResponse r) = Js.Num k).
  { cbn. now rewrite E, F64Facts.Math_round_Z. }
  rewrite fmap_cons. split.
  - constructor; [exists k; split; [lia | exact Hr] | exact IH1].
  - cbn [fold_right]. rewrite Hr, IH2, E, seconds_whole. reflexivity.
Qed.

Lemma payloadOf_timesAddUp (snap : QuizState) : clocked snap -> timesAddUp (payloadOf snap).
Proof.
  intros [_ _ C3 C4]. destruct (reported_times _ C3) as [H1 H2].
  unfold timesAddUp, payloadOf. cbn [p_responses p_total_time_taken]. split.
  - exact H1.
  - rewrite H2. intros Hsum. now rewrite (C4 Hsum), F64Facts.Math_round_Z.
Qed.

Lemma handleFinishQuiz_timed (snap : QuizState) (w : World) :
  timed w -> clocked snap -> timed (handleFinishQuiz snap w).
Proof.
  intros [Hs Ha Hr] Hsnap. unfold handleFinishQuiz.
  destruct (negb _); split; cbn; try assumption.
  - revert Hs. apply clocked_frame; reflexivity.
  - apply Forall_app. split; [exact Hr |]. apply Forall_singleton.
    now apply payloadOf_timesAddUp.
Qed.

Lemma advance_timed (snap : QuizState) (w : World) :
  timed w -> clocked snap -> timed (onState (advance snap) w).
Proof.
  intros [Hs Ha Hr] Hsnap. split; cbn; try assumption.
  destruct Hs as [C1 C2 C3 C4]. destruct Hsnap as [_ S2 _ _]. split; assumption.
Qed.

Lemma handleTimeExpired_timed (w : World) :
  timed w -> timed (handleTimeExpired (state w) w).
Proof.
  intros Ht. unfold handleTimeExpired.
  destruct (currentQuestion (state w)) as [q|]; [| exact Ht].
  destruct (isAnswerSubmitted (state w)); [exact Ht |].
  destruct (alreadyAnswered (state w) q); [exact Ht |].
  pose proof Ht as [[C1 C2 C3 C4] Ha Hr]. split; cbn; try assumption.
  - split; cbn -[exactSum]; unfold const.
    + apply whole_ofZ. lia.
    + exact C2.
    + apply Forall_app. split; [exact C3 |]. now apply Forall_singleton.
    + intros Hsum.
      apply clocked_total_app; [reflexivity | exact C3 | exact C2 | exact C4 | exact Hsum].
  - apply Forall_app. split; [exact Ha |]. apply Forall_singleton. now split.
Qed.

Lemma handleSubmitAnswer_timed (w : World) :
  timed w -> timed (handleSubmitAnswer (state w) w).
Proof.
  intros Ht. unfold handleSubmitAnswer.
  destruct (selectedOption (state w)) as [sel|]; [| destruct Ht; split; assumption].
  destruct (currentQuestion (state w)) as [q|]; [| destruct Ht; split; assumption].
  destruct (alreadyAnswered (state w) q); [exact Ht |].
  destruct Ht as [[C1 C2 C3 C4] Ha Hr]. split; cbn; try assumption.
  pose proof (locked_time_whole _ _ C2 C1) as Hw.
  destruct (sel =? answer q);
    (split; cbn -[exactSum F64.max F64.min F64.sub F64.add]; unfold const;
     [ exact C1
     | exact C2
     | apply Forall_app; split; [exact C3 |]; now apply Forall_singleton
     | intros Hsum;
       apply clocked_total_app; [reflexivity | exact C3 | exact Hw | exact C4 | exact Hsum] ]).
Qed.

Lemma quiz_step_timed (e : Event) (w w' : World) :
  wholeSecondEvent e -> timed w -> step e w = Some w' -> timed w'.
Proof.
  intros He Ht Hstep. pose proof Ht as [Hs Ha Hr].
  destruct e; unfold step in Hstep.
  - injection Hstep as <-. split; cbn; try assumption.
    revert Hs. apply clocked_frame; reflexivity.
  - injection Hstep as <-. split; cbn; try assumption.
    revert Hs. apply clocked_frame; reflexivity.
  - injection Hstep as <-. split; cbn; try assumption.
    revert Hs. apply clocked_frame; reflexivity.
  - injection Hstep as <-. unfold loadQuiz.
    destruct (Js.truthy (activeDomain (state w))); cbn [negb]; [| exact Ht].
    split; cbn; try assumption. destruct Hs as [C1 _ _ _].
    split; cbn; unfold const.
    + exact C1.
    + apply (whole_ofZ 60). lia.
    + constructor.
    + reflexivity.
  - destruct (0 <? pendingLoads w)%nat; [| discriminate]. injection Hstep as <-.
    unfold quizLoaded. destruct (items data) as [[|q qs]|]; split; cbn; try assumption;
      try (revert Hs; apply clocked_frame; reflexivity).
    assert (Hw : wholeSeconds (default DEFAULT_TIME_LIMIT (time_per_question data))).
    { cbn in He. destruct (time_per_question data); [exact He | apply (whole_ofZ 60); lia]. }
    destruct Hs as [_ _ C3 C4]. split; assumption.
  - destruct (0 <? pendingLoads w)%nat; [| discriminate]. injection Hstep as <-.
    split; cbn; try assumption. revert Hs. apply clocked_frame; reflexivity.
  - injection Hstep as <-. unfold handleSelectOption.
    destruct (isAnswerSubmitted (state w)); [exact Ht |].
    split; cbn; try assumption. revert Hs. apply clocked_frame; reflexivity.
  - injection Hstep as <-. now apply handleSubmitAnswer_timed.
  - injection Hstep as <-. unfold handleNextQuestion.
    destruct (isAnswerSubmitted (state w)); cbn [negb].
    + destruct (onLastQuestion (state w)).
      * now apply handleFinishQuiz_timed.
      * now apply advance_timed.
    + split; assumption.
  - injection Hstep as <-. split; cbn; try assumption.
    unfold countdownEffect. destruct (quizMeta (state w)) as [meta|] eqn:Hmeta; [| exact Hs].
    destruct (countdownActive (state w)); [| exact Hs].
    pose proof Hs as [C1 C2 C3 C4]. unfold totalWindowOf in C2. rewrite Hmeta in C2.
    destruct (F64.leb (questionTimeLeft (state w)) F64.zero
              || F64.ltb (timePerQuestion meta) (questionTimeLeft (state w))) eqn:Hc.
    + split; cbn; unfold const; rewrite ?Hc; try assumption.
      unfold totalWindowOf. cbn. now rewrite Hmeta.
    + split; cbn; unfold const; rewrite ?Hc; try assumption.
      unfold totalWindowOf. cbn. now rewrite Hmeta.
  - destruct (countdownActive (state w)); [| discriminate]. injection Hstep as <-.
    unfold intervalTick.
    destruct (F64.leb (questionTimeLeft (state w)) F64.one) eqn:Hle.
    + pose proof (handleTimeExpired_timed w Ht) as [Hs' Ha' Hr'].
      split; cbn; try assumption. apply clocked_left; [apply whole_ofZ; lia | exact Hs'].
    + split; cbn; try assumption. pose proof Hs as [(k & Hk & E) C2 C3 C4].
      rewrite E in Hle. change F64.one with (F64.Finite (inject_Z 1)) in Hle.
      rewrite F64Facts.leb_Z in Hle. apply Z.leb_gt in Hle.
      split; cbn; try assumption.
      rewrite E. change F64.one with (F64.Finite (inject_Z 1)).
      rewrite F64Facts.sub_Z by lia. apply whole_ofZ. lia.
  - destruct (pendingAdvance w !! i) as [snap|] eqn:Hi; [| discriminate].
    injection Hstep as <-.
    assert (Hsnap : clocked snap) by apply (Forall_lookup_1 _ _ i snap Ha Hi).
    assert (Ht' : timed (dropAdvance i w)).
    { split; cbn; try assumption. apply (Forall_delete _ _ i), Ha. }
    unfold timeoutCallback. destruct (onLastQuestion snap).
    + now apply handleFinishQuiz_timed.
    + now apply advance_timed.
  - destruct (pendingSubmit w !! i) as [snap|]; [| discriminate].
    injection Hstep as <-. split; cbn; try assumption.
    revert Hs. apply clocked_frame; reflexivity.
  - destruct (pendingSubmit w !! i) as [snap|]; [| discriminate].
    injection Hstep as <-. split; cbn; try assumption.
    revert Hs. apply clocked_frame; reflexivity.
Qed.

Lemma quiz_initial_timed (domain : string) : timed (initial domain).
Proof.
  split; cbn; try apply Forall_nil_2.
  split; cbn; [apply (whole_ofZ 60); lia | apply (whole_ofZ 60); lia | constructor | reflexivity].
Qed.

Lemma quiz_run_audited (events : list Event) (w0 w : World) :
  audited w0 -> run events w0 = Some w -> audited w.
Proof.
  revert w0. induction events as [|e events IH]; intros w0 H0 Hrun; cbn in Hrun.
  - now injection Hrun as <-.
  - destruct (step e w0) as [w1|] eqn:Hs; [| discriminate].
    apply (IH w1); [now apply (quiz_step_audited e w0) | exact Hrun].
Qed.

Lemma quiz_run_timed (events : list Event) (w0 w : World) :
  Forall wholeSecondEvent events -> timed w0 -> run events w0 = Some w -> timed w.
Proof.
  revert w0. induction events as [|e events IH]; intros w0 Hev H0 Hrun; cbn in Hrun.
  - now injection Hrun as <-.
  - destruct (step e w0) as [w1|] eqn:Hs; [| discriminate].
    apply Forall_cons in Hev as [He Hev].
    apply (IH w1); [exact Hev | now apply (quiz_step_timed e w0) | exact Hrun].
Qed.

(** X14: in every run of the page (in a production build: the second call
    that React's StrictMode makes of a state updater during development is
    not modelled) no question has two responses, the count of correct
    answers is that of the recorded responses, the time spent is the sum of
    their times as the page adds them up, the streak lies between 0 and the
    best streak, a timed-out response has selection -1 and is wrong, the time
    of a locked answer is never below one second; every payload sent has
    distinct response ids and the score of the responses it marks correct.
    When the server allows a whole number of seconds for each question, the
    times of a payload are whole numbers that add up to its total time. *)
Theorem quiz_books_balance (domain : string) (events : list Event) (w : World) :
  run events (initial domain) = Some w ->
  balanced (state w) /\
  (forall p, p ∈ requests w -> payloadBalanced p) /\
  (Forall wholeSecondEvent events -> forall p, p ∈ requests w -> timesAddUp p).
Proof.
  intros Hrun.
  destruct (quiz_run_audited events _ w (quiz_initial_audited domain) Hrun) as [Hs _ Hr].
  split; [exact Hs |]. split; [now apply Forall_forall |].
  intros Hev.
  destruct (quiz_run_timed events _ w Hev (quiz_initial_timed domain) Hrun) as [_ _ Ht].
  now apply Forall_forall.
Qed.

Lemma quiz_books_balance_witness :
  Books.balanced (state (handleNextQuestion (state Samples.lockedQuiz) Samples.lockedQuiz)) /\
  Books.timesAddUp (payloadOf (state Samples.lockedQuiz)).
Proof.
  destruct (quiz_books_balance "Web Development"
              [LoadQuiz; QuizLoaded Samples.oneQuestionQuiz; CountdownEffect;
               SelectOption 1; SubmitAnswer; NextQuestion]
              (handleNextQuestion (state Samples.lockedQuiz) Samples.lockedQuiz))
    as (Hbal & _ & Htimes).
  - vm_compute. reflexivity.
  - split; [exact Hbal |]. apply Htimes.
    + repeat constructor. exists 2. split; [lia | reflexivity].
    + vm_compute. left.
Defined.

(** With a window of a second and a half the times need not add up: two
    questions that ran out of time and one answered at once are reported
    with 2, 2 and 1 seconds, and 4 seconds in all. *)
Example fractional_times_do_not_add_up :
  (fun w => (fun p => (p_total_time_taken p, p_time_taken <$> p_responses p)) <$> requests w)
    <$> run Walkthrough.hurriedRun (initial "Web Development")
  = Some [(Js.Num 4, [Js.Num 2; Js.Num 2; Js.Num 1])].
Proof. vm_compute. reflexivity. Qed.

End QuizBooks.

Module QuizTiming.
Import Quiz QuizFacts.

Lemma run_app (es1 es2 : list Event) (w : World) :
  run (es1 ++ es2) w = match run es1 w with Some w' => run es2 w' | None => None end.
Proof.
  revert w. induction es1 as [|e es1 IH]; intros w; cbn; [reflexivity |].
  destruct (step e w); [apply IH | reflexivity].
Qed.

Lemma setTimeLeft_same (w : World) (t : F64.double) :
  questionTimeLeft (state w) = t -> onState (setQuestionTimeLeft (const t)) w = w.
Proof. destruct w as [s ? ? ? ? ? ? ?]. destruct s. cbn. now intros ->. Qed.

(** While more than a second is left of a whole number of seconds, a tick
    only counts down. *)
Lemma ticks_count_down (m : nat) (k : Z) (w : World) :
  countdownActive (state w) = true ->
  questionTimeLeft (state w) = F64.ofZ k ->
  Z.of_nat m < k < 2 ^ 53 ->
  run (repeat Tick m) w =
    Some (onState (setQuestionTimeLeft (const (F64.ofZ (k - Z.of_nat m)))) w).
Proof.
  revert k w. induction m as [|m IH]; intros k w Hactive Hleft Hk.
  - cbn [repeat run]. f_equal. symmetry. apply setTimeLeft_same.
    rewrite Hleft. f_equal. lia.
  - cbn [repeat run]. unfold step. rewrite Hactive. unfold intervalTick.
    rewrite Hleft, F64Facts.ofZ_exact by lia.
    change F64.one with (F64.Finite (inject_Z 1)). rewrite F64Facts.leb_Z.
    destruct (Z.leb_spec k 1) as [Hle | Hgt]; [lia |].
    rewrite (IH (k - 1)).
    + replace (k - 1 - Z.of_nat m) with (k - Z.of_nat (S m)) by lia. reflexivity.
    + exact Hactive.
    + cbn. unfold const. rewrite Hleft, F64Facts.ofZ_exact by lia.
      rewrite F64Facts.sub_Z by lia. symmetry. apply F64Facts.ofZ_exact. lia.
    + lia.
Qed.

(** X15: with [n + 1] seconds left on an unanswered question, [n + 1] being
    small enough to be counted down exactly (below 2^53), each of the first
    [n] ticks only takes a second off, and the tick after them records the
    timed-out response. *)
Theorem countdown_expires_after_the_window (n : nat) (w : World) (q : QuizQuestion) :
  countdownActive (state w) = true ->
  questionTimeLeft (state w) = F64.ofZ (Z.of_nat n + 1) ->
  Z.of_nat n + 1 < 2 ^ 53 ->
  currentQuestion (state w) = Some q ->
  alreadyAnswered (state w) q = false ->
  (forall m, (m <= n)%nat ->
     exists w', run (repeat Tick m) w = Some w' /\
                responses (state w') = responses (state w) /\
                isAnswerSubmitted (state w') = false /\
                questionTimeLeft (state w') = F64.ofZ (Z.of_nat n + 1 - Z.of_nat m) /\
                pendingAdvance w' = pendingAdvance w) /\
  (exists w', run (repeat Tick (S n)) w = Some w' /\
              responses (state w') = responses (state w) ++ [timedOutResponse (state w) q] /\
              isAnswerSubmitted (state w') = true /\
              questionTimeLeft (state w') = F64.zero /\
              currentStreak (state w') = 0).
Proof.
  intros Hactive Hleft Hsmall Hq Hfresh.
  pose proof (countdownActive_unanswered _ Hactive) as Hsub.
  split.
  - intros m Hm. eexists.
    split; [apply (ticks_count_down m (Z.of_nat n + 1)); [exact Hactive | exact Hleft | lia] |].
    cbn. unfold const. repeat split. exact Hsub.
  - replace (S n) with (n + 1)%nat by lia. rewrite repeat_app, run_app.
    rewrite (ticks_count_down n (Z.of_nat n + 1)) by (try assumption; lia).
    set (w1 := onState _ w).
    assert (H1 : countdownActive (state w1) = true)
      by (destruct w as [s ? ? ? ? ? ? ?]; destruct s; exact Hactive).
    assert (H2 : F64.leb (questionTimeLeft (state w1)) F64.one = true).
    { cbn. unfold const. replace (Z.of_nat n + 1 - Z.of_nat n) with 1 by lia. reflexivity. }
    assert (H3 : currentQuestion (state w1) = Some q)
      by (destruct w as [s ? ? ? ? ? ? ?]; destruct s; exact Hq).
    assert (H4 : alreadyAnswered (state w1) q = false)
      by (destruct w as [s ? ? ? ? ? ? ?]; destruct s; exact Hfresh).
    pose proof (intervalTick_records_timeout w1 q H1 H2 H3 H4)
      as (Hr & Ha & _ & Hst & Ht & _).
    exists (intervalTick w1). split.
    { cbn [repeat run]. unfold step. now rewrite H1. }
    rewrite Hr, Ha, Ht, Hst. repeat split.
Qed.

Lemma countdown_expires_after_the_window_witness :
  exists w', run (repeat Tick 2) Samples.loadedQuiz = Some w' /\
             isAnswerSubmitted (state w') = true /\
             questionTimeLeft (state w') = F64.zero.
Proof.
  destruct (countdown_expires_after_the_window 1 Samples.loadedQuiz Samples.onlyQuestion)
    as (_ & w' & Hrun & _ & Hsub & Hleft & _).
  - vm_compute. reflexivity.
  - vm_compute. reflexivity.
  - vm_compute. reflexivity.
  - vm_compute. reflexivity.
  - vm_compute. reflexivity.
  - exists w'. repeat split; assumption.
Defined.

(** X16: when the time runs out on a question that is not the last and the
    user clicks Next before the 1200 ms timeout fires, the index moves on
    twice: the next question is passed over with no response recorded. *)
Theorem next_click_before_timeout_skips_question (w : World) (q : QuizQuestion) :
  countdownActive (state w) = true ->
  F64.leb (questionTimeLeft (state w)) F64.one = true ->
  currentQuestion (state w) = Some q ->
  alreadyAnswered (state w) q = false ->
  onLastQuestion (state w) = false ->
  exists w',
    run [Tick; NextQuestion; TimeoutFires (length (pendingAdvance w))] w = Some w' /\
    currentIndex (state w') = S (S (currentIndex (state w))) /\
    responses (state w') = responses (state w) ++ [timedOutResponse (state w) q] /\
    isAnswerSubmitted (state w') = false /\
    requests w' = requests w.
Proof.
  intros Hactive Htime Hq Hfresh Hlast.
  pose proof (intervalTick_records_timeout w q Hactive Htime Hq Hfresh)
    as (Hr & Ha & _ & _ & _ & _ & _ & Hidx & Hqs & Hpa & _ & Hreq & _).
  set (w1 := intervalTick w) in *.
  assert (Hlast1 : onLastQuestion (state w1) = false)
    by (unfold onLastQuestion; rewrite Hidx, Hqs; exact Hlast).
  set (w2 := onState (advance (state w1)) w1).
  assert (Hstep2 : step NextQuestion w1 = Some w2)
    by (unfold step, handleNextQuestion; now rewrite Ha, Hlast1).
  assert (Hlook : pendingAdvance w2 !! length (pendingAdvance w) = Some (state w)).
  { change (pendingAdvance w2) with (pendingAdvance w1). rewrite Hpa.
    now apply list_lookup_middle. }
  exists (onState (advance (state w)) (dropAdvance (length (pendingAdvance w)) w2)).
  split.
  { cbn [run]. unfold step at 1. rewrite Hactive. fold w1. rewrite Hstep2.
    unfold step. rewrite Hlook. unfold timeoutCallback. now rewrite Hlast. }
  cbn. rewrite Hidx, Hr, Hreq. repeat split.
Qed.

Lemma next_click_before_timeout_skips_question_witness :
  exists w',
    run [Tick; NextQuestion; TimeoutFires 0] Walkthrough.loadedPair = Some w' /\
    currentIndex (state w') = 2%nat.
Proof.
  destruct (next_click_before_timeout_skips_question Walkthrough.loadedPair Samples.onlyQuestion)
    as (w' & Hrun & Hidx & _).
  - vm_compute. reflexivity.
  - vm_compute. reflexivity.
  - vm_compute. reflexivity.
  - vm_compute. reflexivity.
  - vm_compute. reflexivity.
  - exists w'. split; [exact Hrun | exact Hidx].
Defined.

End QuizTiming.

Module QuizLock.
Import Quiz QuizFacts.

Lemma alreadyAnswered_after (rs : list QuizResponse) (r : QuizResponse) (q : QuizQuestion) :
  r_id r = id q ->
  existsb (fun resp => String.eqb (r_id resp) (id q)) (rs ++ [r]) = true.
Proof.
  intros Hid. rewrite existsb_app. cbn. rewrite Hid, String.eqb_refl.
  now rewrite orb_true_r.
Qed.

(** X17: once an answer is locked, selecting another option, locking again
    and the expiry of the countdown all leave the page as it is. *)
Theorem locked_answer_is_final (w : World) (q : QuizQuestion) (sel : Z) :
  selectedOption (state w) = Some sel ->
  currentQuestion (state w) = Some q ->
  alreadyAnswered (state w) q = false ->
  let locked := handleSubmitAnswer (state w) w in
  length (responses (state locked)) = S (length (responses (state w))) /\
  (forall optionIdx, handleSelectOption (state locked) optionIdx locked = locked) /\
  handleSubmitAnswer (state locked) locked = locked /\
  handleTimeExpired (state locked) locked = locked /\
  countdownActive (state locked) = false.
Proof.
  intros Hsel Hq Hfresh locked.
  assert (Hsub : isAnswerSubmitted (state locked) = true).
  { unfold locked, handleSubmitAnswer. rewrite Hsel, Hq, Hfresh. cbn.
    destruct (sel =? answer q); reflexivity. }
  assert (Hq' : currentQuestion (state locked) = Some q).
  { unfold locked, handleSubmitAnswer. rewrite Hsel, Hq, Hfresh.
    unfold currentQuestion in *. cbn. destruct (sel =? answer q); exact Hq. }
  assert (Hans : alreadyAnswered (state locked) q = true).
  { unfold locked, handleSubmitAnswer. rewrite Hsel, Hq, Hfresh.
    unfold alreadyAnswered. cbn.
    destruct (sel =? answer q); cbn; now apply alreadyAnswered_after. }
  assert (Hsel' : exists v, selectedOption (state locked) = Some v).
  { unfold locked, handleSubmitAnswer. rewrite Hsel, Hq, Hfresh. cbn.
    destruct (sel =? answer q); cbn; eauto. }
  split; [| split; [| split; [| split]]].
  - unfold locked, handleSubmitAnswer. rewrite Hsel, Hq, Hfresh. cbn.
    destruct (sel =? answer q); cbn; rewrite length_app; cbn; lia.
  - intros optionIdx. unfold handleSelectOption. now rewrite Hsub.
  - destruct Hsel' as [v Hv]. unfold handleSubmitAnswer at 1. now rewrite Hv, Hq', Hans.
  - unfold handleTimeExpired at 1. now rewrite Hq', Hsub.
  - unfold countdownActive. rewrite Hsub.
    destruct (quizMeta (state locked)), (summary (state locked)); try reflexivity.
    now rewrite !andb_false_r.
Qed.

Lemma locked_answer_is_final_witness :
  handleTimeExpired (state Samples.lockedQuiz) Samples.lockedQuiz = Samples.lockedQuiz.
Proof.
  apply (locked_answer_is_final
           (default Samples.loadedQuiz (run [SelectOption 1] Samples.loadedQuiz))
           Samples.onlyQuestion 1); vm_compute; reflexivity.
Defined.

End QuizLock.

